(** * protonvpn-wg-confgen: the authentication and session lifecycle

    A shallow embedding of the Go packages [internal/auth] (auth.go,
    session.go, errors.go) and [internal/constants] (api.go), with the
    properties of the session lifecycle proved about it; and of the
    list parsing of [internal/config] (flags.go) and the server
    selection and server list of [internal/vpn] (servers.go, client.go).

    Conventions of the embedding:
    - a Go [string] is a Rocq [string] (a sequence of bytes);
    - [time.Time] is an integer number of nanoseconds since the epoch and
      [time.Duration] a 64-bit signed number of nanoseconds, both in [Z];
    - a Go function returning [(T, error)] returns a [result T]; one
      returning only [error] returns an [option error];
    - everything outside the program (terminal, clock, session file,
      remote API, SRP library) lives in a [World] that the [IO] monad
      threads through the calls, so that an effect that happened before an
      error is still visible after it. *)

From Stdlib Require Import ZArith List String Ascii Bool Lia DecimalString DecimalZ DecimalPos
  Permutation.
Import ListNotations.

Local Open Scope string_scope.
Local Open Scope Z_scope.

(* ================================================================== *)
(** * Time: package [time] *)
(* ================================================================== *)

Module GoTime.

Definition Time := Z.
Definition Duration := Z.

Definition minInt64 : Z := - 2 ^ 63.
Definition maxInt64 : Z := 2 ^ 63 - 1.

(** Two's complement wrap-around of 64-bit signed arithmetic. *)
Definition wrap64 (z : Z) : Z := (z + 2 ^ 63) mod 2 ^ 64 - 2 ^ 63.

Definition Second : Duration := 1000000000.
Definition Hour : Duration := 3600 * Second.

(** [a * b] on [time.Duration] values. *)
Definition mul (a b : Duration) : Duration := wrap64 (a * b).

(** [t.Add(d)]. The range of [time.Time] (hundreds of billions of
    years) is not modelled. *)
Definition Add (t : Time) (d : Duration) : Time := t + d.

(** [t.After(u)]. *)
Definition After (t u : Time) : bool := u <? t.

(** [t.Sub(u)], which saturates at the largest and smallest
    [Duration]. *)
Definition Sub (t u : Time) : Duration :=
  Z.max minInt64 (Z.min maxInt64 (t - u)).

End GoTime.

(* ================================================================== *)
(** * Strings: packages [strings] and [encoding/base64] *)
(* ================================================================== *)

Module GoStrings.

Definition bytes (l : list nat) : list ascii := map ascii_of_nat l.

(** The UTF-8 encodings of the code points with the Unicode White_Space
    property, which is what [unicode.IsSpace] tests: U+0009..U+000D,
    U+0020, U+0085, U+00A0, U+1680, U+2000..U+200A, U+2028, U+2029,
    U+202F, U+205F, U+3000. *)
Definition spaceEncodings : list (list ascii) :=
  map bytes
    [ [9]; [10]; [11]; [12]; [13]; [32];
      [194; 133]; [194; 160]; [225; 154; 128];
      [226; 128; 128]; [226; 128; 129]; [226; 128; 130]; [226; 128; 131];
      [226; 128; 132]; [226; 128; 133]; [226; 128; 134]; [226; 128; 135];
      [226; 128; 136]; [226; 128; 137]; [226; 128; 138];
      [226; 128; 168]; [226; 128; 169]; [226; 128; 175];
      [226; 129; 159]; [227; 128; 128] ]%nat.

Fixpoint stripPrefix (p s : list ascii) : option (list ascii) :=
  match p, s with
  | [], _ => Some s
  | a :: p', b :: s' => if Ascii.eqb a b then stripPrefix p' s' else None
  | _ :: _, [] => None
  end.

Fixpoint firstStrip (ps : list (list ascii)) (s : list ascii)
  : option (list ascii) :=
  match ps with
  | [] => None
  | p :: ps' =>
      match stripPrefix p s with
      | Some s' => Some s'
      | None => firstStrip ps' s
      end
  end.

(** Drop leading runes while they are spaces; [fuel] bounds the number
    of runes dropped. *)
Fixpoint trimLeftWith (ps : list (list ascii)) (fuel : nat) (s : list ascii)
  : list ascii :=
  match fuel with
  | O => s
  | S fuel' =>
      match firstStrip ps s with
      | Some s' => trimLeftWith ps fuel' s'
      | None => s
      end
  end.

Definition trimLeft (s : list ascii) : list ascii :=
  trimLeftWith spaceEncodings (List.length s) s.

(** Trailing runes are decoded backwards; on the reversed string that
    is stripping the reversed encodings. *)
Definition trimRight (s : list ascii) : list ascii :=
  rev (trimLeftWith (map (@rev ascii) spaceEncodings) (List.length s) (rev s)).

(** [strings.TrimSpace]. *)
Definition TrimSpace (s : string) : string :=
  string_of_list_ascii (trimRight (trimLeft (list_ascii_of_string s))).

(** ['0' <= c && c <= '9'] on a byte. A byte of a multi-byte rune is
    at least 0x80, so testing the bytes of a string is the same as
    testing its runes. *)
Definition isDigit (c : ascii) : bool :=
  let n := N_of_ascii c in (48 <=? n)%N && (n <=? 57)%N.

Fixpoint allDigits (s : string) : bool :=
  match s with
  | EmptyString => true
  | String c s' => isDigit c && allDigits s'
  end.

(** [base64.StdEncoding.EncodeToString]. *)
Definition b64alphabet : list ascii :=
  list_ascii_of_string
    "ABCDEFGHIJKLMNOPQRSTUVWXYZabcdefghijklmnopqrstuvwxyz0123456789+/".

Definition b64digit (n : N) : ascii :=
  nth (N.to_nat n) b64alphabet "="%char.

Fixpoint b64encode (l : list ascii) : list ascii :=
  match l with
  | [] => []
  | [a] =>
      let x := N_of_ascii a in
      [ b64digit (x / 4); b64digit ((x mod 4) * 16); "="%char; "="%char ]
  | [a; b] =>
      let x := N_of_ascii a in
      let y := N_of_ascii b in
      [ b64digit (x / 4); b64digit ((x mod 4) * 16 + y / 16);
        b64digit ((y mod 16) * 4); "="%char ]
  | a :: b :: c :: rest =>
      let x := N_of_ascii a in
      let y := N_of_ascii b in
      let z := N_of_ascii c in
      b64digit (x / 4) :: b64digit ((x mod 4) * 16 + y / 16)
        :: b64digit ((y mod 16) * 4 + z / 64) :: b64digit (z mod 64)
        :: b64encode rest
  end%N.

Definition EncodeToString (b : string) : string :=
  string_of_list_ascii (b64encode (list_ascii_of_string b)).

End GoStrings.

(* ================================================================== *)
(** * Data: packages [api], [config], [srp] *)
(* ================================================================== *)

Module Session.
(** Modelled from the spec: [api.Session], declared in
    internal/api/types.go; the fields are the ones packages [auth] and
    [vpn] read and write. [ExpiresIn] is the server-declared lifetime in
    seconds, [Code] the status code of the response the session was
    decoded from. *)
Record t : Type := mk {
  Code : Z;
  AccessToken : string;
  RefreshToken : string;
  UID : string;
  Scopes : list string;
  ExpiresIn : Z;
  ServerProof : string
}.

(** [session.Scopes = updatedScopes]. *)
Definition setScopes (s : t) (scopes : list string) : t :=
  mk (Code s) (AccessToken s) (RefreshToken s) (UID s) scopes
     (ExpiresIn s) (ServerProof s).
End Session.

Module AuthInfo.
(** Modelled from the spec: [api.AuthInfoResponse], declared in
    internal/api/types.go, with the fields package [auth] reads. *)
Record t : Type := mk {
  Code : Z;
  Version : Z;
  Salt : string;
  Modulus : string;
  ServerEphemeral : string;
  SRPSession : string;
  TwoFAEnabled : Z;
  TwoFATOTP : Z
}.
End AuthInfo.

Module Proofs.
(** [srp.Proofs] of github.com/ProtonMail/go-srp: three byte strings. *)
Record t : Type := mk {
  ClientEphemeral : string;
  ClientProof : string;
  ExpectedServerProof : string
}.
End Proofs.

Module SavedSession.
(** [SavedSession] of session.go. [Session] is a pointer in the source
    and can be nil after decoding a file. *)
Record t : Type := mk {
  Session : option Session.t;
  Username : string;
  SavedAt : GoTime.Time;
  ExpiresAt : GoTime.Time
}.
End SavedSession.

Module Config.
(** The fields of [config.Config] that package [auth] uses. *)
Record t : Type := mk {
  Username : string;
  Password : string;
  ClearSession : bool;
  NoSession : bool;
  ForceRefresh : bool;
  SessionDuration : string;
  APIURL : string
}.

Definition setUsername (c : t) (u : string) : t :=
  mk u (Password c) (ClearSession c) (NoSession c) (ForceRefresh c)
     (SessionDuration c) (APIURL c).

Definition setPassword (c : t) (p : string) : t :=
  mk (Username c) p (ClearSession c) (NoSession c) (ForceRefresh c)
     (SessionDuration c) (APIURL c).
End Config.

(** The response of [/core/v4/auth/2fa], the anonymous struct of
    [submit2FA]. *)
Record TwoFAResp : Type := mkTwoFAResp {
  twofa_Code : Z;
  twofa_Scopes : list string;
  twofa_Error : string
}.

(* ================================================================== *)
(** * Errors *)
(* ================================================================== *)

(** What [os] reports: the file is not there, or anything else. *)
Inductive oserror : Type := ENOENT | EACCES.

Definition IsNotExist (e : oserror) : bool :=
  match e with ENOENT => true | EACCES => false end.

(** The error values the program builds, one constructor per
    [fmt.Errorf], [NewError] or error passed through; a constructor with
    an [error] argument wraps it ([%w]). *)
Inductive error : Type :=
| ErrStdin                                   (* error of the terminal read *)
| ErrNewRequest                              (* http.NewRequest *)
| ErrTransport                               (* httpClient.Do *)
| ErrReadBody                                (* io.ReadAll *)
| ErrJSON                                    (* json.Unmarshal *)
| ErrSRP                                     (* go-srp *)
| ErrParseDuration                           (* timeutil.ParseSessionDuration *)
| ErrReadingUsername (e : error)             (* "error reading username: %w" *)
| ErrUsernameEmpty                           (* "username cannot be empty" *)
| ErrReadingPassword (e : error)             (* "error reading password: %w" *)
| ErrReading2FACode (e : error)              (* "error reading 2FA code: %w" *)
| Err2FACodeEmpty                            (* "2FA code cannot be empty" *)
| Err2FACodeNotNumeric                       (* "2FA code must be numeric (TOTP only)..." *)
| ErrAuthInfoHTTP (status : Z) (body : string)   (* "HTTP error %d: %s" *)
| ErrParseAuthInfo (e : error)               (* "failed to parse auth info: %w" *)
| ErrAuthInfoCode (code : Z)                 (* "failed to get auth info, code: %d" *)
| ErrEmptyModulus                            (* "received empty modulus from auth info" *)
| ErrEmptyServerEphemeral                    (* "received empty server ephemeral from auth info" *)
| ErrGetAuthInfo (e : error)                 (* "failed to get auth info: %w" *)
| ErrCreateSRPAuth (e : error)               (* "failed to create SRP auth: %w" *)
| ErrGenerateSRPProofs (e : error)           (* "failed to generate SRP proofs: %w" *)
| ErrAuthHTTP (status : Z) (body : string)   (* "authentication HTTP error %d: %s" *)
| ErrLegacyTwoPasswordMode                   (* "your account uses legacy 2-password mode..." *)
| AuthError (code : Z)                       (* NewError(code) *)
| ErrServerProof                             (* "server proof verification failed" *)
| ErrGet2FACode (e : error)                  (* "failed to get 2FA code: %w" *)
| Err2FAVerification (e : error)             (* "2FA verification failed: %w" *)
| Err2FAHTTP (status : Z) (body : string)    (* "2FA HTTP error %d: %s" *)
| ErrParse2FAResponse (e : error)            (* "failed to parse 2FA response: %w" *)
| Err2FAFailed (code : Z) (msg : string)     (* "2FA failed (code %d): %s" *)
| ErrRefreshFailed (status : Z) (body : string) (* "refresh failed (status %d): %s" *)
| ErrReadSessionFile (e : oserror)           (* "failed to read session file: %w" *)
| ErrUnmarshalSession (e : error)            (* "failed to unmarshal session: %w" *)
| ErrMarshalSession                          (* "failed to marshal session: %w" *)
| ErrWriteSessionFile (e : oserror)          (* "failed to write session file: %w" *)
| ErrDeleteSessionFile (e : oserror).        (* "failed to delete session file: %w" *)

Inductive result (A : Type) : Type :=
| Ok (a : A)
| Err (e : error).
Arguments Ok {A} a.
Arguments Err {A} e.

(* ================================================================== *)
(** * The world the program runs in *)
(* ================================================================== *)

(** What the program prints, one constructor per [fmt.Print*] call. *)
Inductive Msg : Type :=
| MsgForcingRefresh (t : GoTime.Duration)  (* "Forcing session refresh (current session expires in %s)" *)
| MsgExpiresSoon (t : GoTime.Duration)     (* "Session expires soon (in %s), attempting refresh..." *)
| MsgRefreshFailed (e : error)             (* "Token refresh failed: %v" *)
| MsgReauthenticating                      (* "Re-authenticating with password..." *)
| MsgTrustedDevice                         (* "(Your trusted device status for MFA will be preserved)" *)
| MsgRefreshed                             (* "Session refreshed successfully!" *)
| MsgTokenRotated                          (* "Refresh token was rotated" *)
| MsgWarnSaveRefreshed (e : error)         (* "Warning: Failed to save refreshed session: %v" *)
| MsgWarnLoad (e : error)                  (* "Warning: Failed to load saved session: %v" *)
| MsgUsingSaved (t : GoTime.Duration)      (* "Using saved session (expires in %s)" *)
| MsgSavedInvalid                          (* "Saved session invalid, re-authenticating..." *)
| MsgClearing                              (* "Clearing saved session..." *)
| MsgLacksVPNScope                         (* "Session lacks VPN scope - 2FA verification required..." *)
| Msg2FAVerified                           (* "2FA verified - session upgraded with VPN scope" *)
| MsgWarnDuration (e : error)              (* "Warning: Invalid session duration, using default: %v" *)
| MsgWarnSave (e : error)                  (* "Warning: Failed to save session: %v" *)
| PromptUsername                           (* "Username (without @protonmail.com): " *)
| PromptPassword                           (* "Password: " *)
| MsgNewline                               (* fmt.Println() *)
| Prompt2FACode.                           (* "2FA Code: " *)

(** A JSON value of a request body. *)
Inductive jvalue : Type :=
| JString (s : string)
| JNumber (n : Z).

(** An [http.Request] as the program builds it: the body is the
    [map[string]interface{}] handed to [json.Marshal]. *)
Record Request : Type := mkRequest {
  req_method : string;
  req_url : string;
  req_header : list (string * string);
  req_body : list (string * jvalue)
}.

(** [req.Header.Set(k, v)]. *)
Definition HeaderSet (r : Request) (k v : string) : Request :=
  mkRequest (req_method r) (req_url r) (req_header r ++ [(k, v)]) (req_body r).

(** What comes back from [httpClient.Do] followed by [io.ReadAll]: the
    call fails, or a response with a status arrives whose body can be
    read ([Some]) or not ([None]). *)
Inductive HttpOutcome : Type :=
| DoFailed
| Response (status : Z) (body : option string).

(** What go-srp does with the authentication parameters: [srp.NewAuth]
    fails, [GenerateProofs] fails, or the proofs are there. *)
Inductive SrpOutcome : Type :=
| NewAuthFailed
| GenerateProofsFailed
| Generated (p : Proofs.t).

Record World : Type := mkWorld {
  (** the [*config.Config] the client holds *)
  config : Config.t;
  (** the terminal: the lines still to be typed (without their line
      feed), and what was printed *)
  stdin : list string;
  stdout : list Msg;
  (** the clock: the reading of the [n]-th call of [time.Now] *)
  clock : nat -> GoTime.Time;
  ticks : nat;
  (** the session file, and whether the system refuses to read, write or
      remove it *)
  file : option string;
  read_denied : bool;
  write_denied : bool;
  remove_denied : bool;
  (** the remote party: the outcomes of the coming calls, and the
      requests sent so far *)
  remote : list HttpOutcome;
  sent : list Request;
  (** go-srp, with its randomness fixed for the run: version, username,
      password, salt, modulus, server ephemeral *)
  srp : Z -> string -> string -> string -> string -> string -> SrpOutcome
}.

Definition setConfig (w : World) (c : Config.t) : World :=
  mkWorld c (stdin w) (stdout w) (clock w) (ticks w) (file w)
    (read_denied w) (write_denied w) (remove_denied w) (remote w) (sent w) (srp w).

Definition setStdin (w : World) (i : list string) : World :=
  mkWorld (config w) i (stdout w) (clock w) (ticks w) (file w)
    (read_denied w) (write_denied w) (remove_denied w) (remote w) (sent w) (srp w).

Definition setStdout (w : World) (o : list Msg) : World :=
  mkWorld (config w) (stdin w) o (clock w) (ticks w) (file w)
    (read_denied w) (write_denied w) (remove_denied w) (remote w) (sent w) (srp w).

Definition setTicks (w : World) (n : nat) : World :=
  mkWorld (config w) (stdin w) (stdout w) (clock w) n (file w)
    (read_denied w) (write_denied w) (remove_denied w) (remote w) (sent w) (srp w).

Definition setFile (w : World) (f : option string) : World :=
  mkWorld (config w) (stdin w) (stdout w) (clock w) (ticks w) f
    (read_denied w) (write_denied w) (remove_denied w) (remote w) (sent w) (srp w).

Definition setRemote (w : World) (r : list HttpOutcome) (s : list Request) : World :=
  mkWorld (config w) (stdin w) (stdout w) (clock w) (ticks w) (file w)
    (read_denied w) (write_denied w) (remove_denied w) r s (srp w).

(* ================================================================== *)
(** * The monad of the program's effects *)
(* ================================================================== *)

Definition IO (A : Type) : Type := World -> A * World.

Definition ret {A : Type} (a : A) : IO A := fun w => (a, w).

Definition bind {A B : Type} (m : IO A) (k : A -> IO B) : IO B :=
  fun w => let (a, w') := m w in k a w'.

Declare Scope io_scope.
Delimit Scope io_scope with io.
Notation "x <- m ;; k" := (bind m (fun x => k))
  (at level 61, m at next level, right associativity) : io_scope.
Notation "m ;; k" := (bind m (fun _ => k))
  (at level 61, right associativity) : io_scope.
Local Open Scope io_scope.

(** [fmt.Print], [fmt.Println], [fmt.Printf]. *)
Definition print (m : Msg) : IO unit :=
  fun w => (tt, setStdout w (stdout w ++ [m])).

(** The line feed. *)
Definition newline : string := String (ascii_of_nat 10) EmptyString.

(** [bufio.NewReader(os.Stdin).ReadString('\n')]: the next line typed,
    with the line feed that ends it; an error when the input has ended. *)
Definition ReadString : IO (result string) :=
  fun w =>
    match stdin w with
    | [] => (Err ErrStdin, w)
    | line :: rest => (Ok (line ++ newline), setStdin w rest)
    end.

(** [term.ReadPassword(int(os.Stdin.Fd()))]: the next line typed, read
    without echo and returned without its line feed. *)
Definition ReadPassword : IO (result string) :=
  fun w =>
    match stdin w with
    | [] => (Err ErrStdin, w)
    | line :: rest => (Ok line, setStdin w rest)
    end.

(** [time.Now()]. *)
Definition Now : IO GoTime.Time :=
  fun w => (clock w (ticks w), setTicks w (S (ticks w))).

(** [os.ReadFile(s.filePath)]. *)
Definition ReadFile : IO (string + oserror) :=
  fun w =>
    match file w with
    | None => (inr ENOENT, w)
    | Some data => if read_denied w then (inr EACCES, w) else (inl data, w)
    end.

(** [os.WriteFile(s.filePath, data, constants.SessionFileMode)]. *)
Definition WriteFile (data : string) : IO (option oserror) :=
  fun w =>
    if write_denied w then (Some EACCES, w)
    else (None, setFile w (Some data)).

(** [os.Remove(s.filePath)]. *)
Definition Remove : IO (option oserror) :=
  fun w =>
    match file w with
    | None => (Some ENOENT, w)
    | Some _ =>
        if remove_denied w then (Some EACCES, w)
        else (None, setFile w None)
    end.

(** [httpClient.Do(req)] and [io.ReadAll(resp.Body)]: the request goes
    out, the next outcome of the remote party comes back. With no outcome
    left the call fails. *)
Definition Do (req : Request) : IO HttpOutcome :=
  fun w =>
    match remote w with
    | [] => (DoFailed, setRemote w [] (sent w ++ [req]))
    | o :: rest => (o, setRemote w rest (sent w ++ [req]))
    end.

(* ================================================================== *)
(** * Parameters: libraries and constants *)
(* ================================================================== *)

(** What the code calls and this development does not embed: the JSON
    and HTTP libraries, and two declarations of the repository outside
    packages [auth] and [constants/api.go]. Everything below is stated
    for an arbitrary value of this record.
    - [SessionRefreshDays]: the constant of internal/constants/session.go;
    - [ParseSessionDuration]: pkg/timeutil/parser.go, returning the
      duration and the error of the Go function;
    - [jsonMarshalSaved]: [json.MarshalIndent] on a [SavedSession];
    - [jsonUnmarshalSaved], [jsonUnmarshalSession],
      [jsonUnmarshalAuthInfo], [jsonUnmarshalTwoFA]: [json.Unmarshal]
      into a zero value of the type, [None] when it returns an error;
    - [urlParses]: whether [http.NewRequest] accepts the URL. *)
Record Externals : Type := mkExternals {
  SessionRefreshDays : Z;
  ParseSessionDuration : string -> GoTime.Duration * option error;
  jsonMarshalSaved : SavedSession.t -> option string;
  jsonUnmarshalSaved : string -> option SavedSession.t;
  jsonUnmarshalSession : string -> option Session.t;
  jsonUnmarshalAuthInfo : string -> option AuthInfo.t;
  jsonUnmarshalTwoFA : string -> option TwoFAResp;
  urlParses : string -> bool
}.

(* ================================================================== *)
(** * Package [constants]: api.go *)
(* ================================================================== *)

Definition AppVersion : string := "linux-vpn@4.13.1".
Definition UserAgent : string := "ProtonVPN/4.13.1 (Linux; Ubuntu)".

Definition APICodeSuccess : Z := 1000.
Definition APICodeMultiStatus : Z := 1001.

Definition IsSuccessCode (code : Z) : bool :=
  (code =? APICodeSuccess) || (code =? APICodeMultiStatus).

Definition EnabledTrue : Z := 1.

(* ================================================================== *)
(** * Package [auth]: errors.go *)
(* ================================================================== *)

Definition CodeSuccess : Z := APICodeSuccess.
Definition CodeMailboxPasswordError : Z := 10013.

(** [NewError(code)]: the message of the Go value is a function of the
    code alone. *)
Definition NewError (code : Z) : error := AuthError code.

(* ================================================================== *)
(** * Package [auth]: session.go and auth.go *)
(* ================================================================== *)

Section Program.

Variable X : Externals.

(** [http.NewRequest(method, url, body)]. *)
Definition NewRequest (method url : string) (body : list (string * jvalue))
  : result Request :=
  if urlParses X url then Ok (mkRequest method url [] body)
  else Err ErrNewRequest.

(** ** The session store *)

(** [SessionStore.Delete]. *)
Definition Delete : IO (option error) :=
  err <- Remove ;;
  match err with
  | Some e =>
      if negb (IsNotExist e) then ret (Some (ErrDeleteSessionFile e))
      else ret None
  | None => ret None
  end.

(** [SessionStore.Save]. *)
Definition Save (session : Session.t) (username : string)
  (duration : GoTime.Duration) : IO (option error) :=
  savedAt <- Now ;;
  now1 <- Now ;;
  let apiExpiration :=
    GoTime.Add now1 (GoTime.mul (Session.ExpiresIn session) GoTime.Second) in
  expiresAt <-
    (if duration =? 0 then ret apiExpiration
     else
       now2 <- Now ;;
       let userExpiration := GoTime.Add now2 duration in
       if GoTime.After userExpiration apiExpiration then ret apiExpiration
       else ret userExpiration) ;;
  let savedSession :=
    SavedSession.mk (Some session) username savedAt expiresAt in
  match jsonMarshalSaved X savedSession with
  | None => ret (Some ErrMarshalSession)
  | Some data =>
      err <- WriteFile data ;;
      match err with
      | Some e => ret (Some (ErrWriteSessionFile e))
      | None => ret None
      end
  end.

(** [SessionStore.Load]: the session (or nil), the time until it
    expires, and the error (or nil). *)
Definition Load (username : string)
  : IO (option Session.t * GoTime.Duration * option error) :=
  r <- ReadFile ;;
  match r with
  | inr e =>
      if IsNotExist e then ret (None, 0, None)
      else ret (None, 0, Some (ErrReadSessionFile e))
  | inl data =>
      match jsonUnmarshalSaved X data with
      | None => ret (None, 0, Some (ErrUnmarshalSession ErrJSON))
      | Some savedSession =>
          if negb (String.eqb (SavedSession.Username savedSession) username)
          then ret (None, 0, None)
          else
            now <- Now ;;
            if GoTime.After now (SavedSession.ExpiresAt savedSession) then
              Delete ;;
              ret (None, 0, None)
            else
              let timeUntilExpiry :=
                GoTime.Sub (SavedSession.ExpiresAt savedSession) now in
              ret (SavedSession.Session savedSession, timeUntilExpiry, None)
      end
  end.

(** [RefreshSession]. *)
Definition RefreshSession (apiURL : string) (oldSession : Session.t)
  : IO (result Session.t) :=
  let reqBody :=
    [ ("ResponseType", JString "token");
      ("GrantType", JString "refresh_token");
      ("RefreshToken", JString (Session.RefreshToken oldSession));
      ("RedirectURI", JString "http://protonmail.ch") ] in
  match NewRequest "POST" (apiURL ++ "/auth/refresh") reqBody with
  | Err e => ret (Err e)
  | Ok req =>
      let req := HeaderSet req "Content-Type" "application/json" in
      let req := HeaderSet req "x-pm-appversion" AppVersion in
      let req := HeaderSet req "User-Agent" UserAgent in
      let req := HeaderSet req "Authorization"
                   ("Bearer " ++ Session.AccessToken oldSession) in
      let req := HeaderSet req "x-pm-uid" (Session.UID oldSession) in
      resp <- Do req ;;
      match resp with
      | DoFailed => ret (Err ErrTransport)
      | Response _ None => ret (Err ErrReadBody)
      | Response status (Some respBody) =>
          if status =? 200 then
            match jsonUnmarshalSession X respBody with
            | None => ret (Err ErrJSON)
            | Some session =>
                if IsSuccessCode (Session.Code session) then ret (Ok session)
                else ret (Err (ErrRefreshFailed status respBody))
            end
          else ret (Err (ErrRefreshFailed status respBody))
      end
  end.

(** [VerifySession]. The body of the response is not read. *)
Definition VerifySession (apiURL : string) (session : Session.t) : IO bool :=
  match NewRequest "GET" (apiURL ++ "/vpn/v1/logicals") [] with
  | Err _ => ret false
  | Ok req =>
      let req := HeaderSet req "Authorization"
                   ("Bearer " ++ Session.AccessToken session) in
      let req := HeaderSet req "x-pm-uid" (Session.UID session) in
      let req := HeaderSet req "x-pm-appversion" AppVersion in
      let req := HeaderSet req "User-Agent" UserAgent in
      resp <- Do req ;;
      match resp with
      | DoFailed => ret false
      | Response status _ =>
          if status =? 401 then ret false
          else ret ((200 <=? status) && (status <? 300))
      end
  end.

(** ** The client *)

(** [c.config]. *)
Definition getConfig : IO Config.t := fun w => (config w, w).

(** [Client.setHeaders]. *)
Definition setHeaders (req : Request) : Request :=
  let req := HeaderSet req "Content-Type" "application/json" in
  let req := HeaderSet req "x-pm-appversion" AppVersion in
  HeaderSet req "User-Agent" UserAgent.

(** [Client.ensureUsername]. *)
Definition ensureUsername : IO (option error) :=
  c <- getConfig ;;
  if String.eqb (Config.Username c) "" then
    print PromptUsername ;;
    r <- ReadString ;;
    match r with
    | Err e => ret (Some (ErrReadingUsername e))
    | Ok username =>
        let u := GoStrings.TrimSpace username in
        (fun w => (tt, setConfig w (Config.setUsername (config w) u))) ;;
        if String.eqb u "" then ret (Some ErrUsernameEmpty)
        else ret None
    end
  else ret None.

(** [Client.ensurePassword]. *)
Definition ensurePassword : IO (option error) :=
  c <- getConfig ;;
  if String.eqb (Config.Password c) "" then
    print PromptPassword ;;
    r <- ReadPassword ;;
    print MsgNewline ;;
    match r with
    | Err e => ret (Some (ErrReadingPassword e))
    | Ok passwordBytes =>
        (fun w => (tt, setConfig w (Config.setPassword (config w) passwordBytes))) ;;
        ret None
    end
  else ret None.

(** [Client.get2FACode]. *)
Definition get2FACode : IO (result string) :=
  print Prompt2FACode ;;
  r <- ReadString ;;
  match r with
  | Err e => ret (Err (ErrReading2FACode e))
  | Ok code =>
      let code := GoStrings.TrimSpace code in
      if String.eqb code "" then ret (Err Err2FACodeEmpty)
      else if negb (GoStrings.allDigits code) then ret (Err Err2FACodeNotNumeric)
      else ret (Ok code)
  end.

(** [Client.getAuthInfo]. [json.Marshal] of a map of strings and numbers
    does not fail, here and below. *)
Definition getAuthInfo : IO (result AuthInfo.t) :=
  c <- getConfig ;;
  let reqBody :=
    [ ("Username", JString (Config.Username c));
      ("Intent", JString "Proton") ] in
  match NewRequest "POST" (Config.APIURL c ++ "/core/v4/auth/info") reqBody with
  | Err e => ret (Err e)
  | Ok req =>
      resp <- Do (setHeaders req) ;;
      match resp with
      | DoFailed => ret (Err ErrTransport)
      | Response _ None => ret (Err ErrReadBody)
      | Response status (Some respBody) =>
          if negb (status =? 200) then ret (Err (ErrAuthInfoHTTP status respBody))
          else
            match jsonUnmarshalAuthInfo X respBody with
            | None => ret (Err (ErrParseAuthInfo ErrJSON))
            | Some authInfo =>
                if negb (AuthInfo.Code authInfo =? CodeSuccess) then
                  ret (Err (ErrAuthInfoCode (AuthInfo.Code authInfo)))
                else if String.eqb (AuthInfo.Modulus authInfo) "" then
                  ret (Err ErrEmptyModulus)
                else if String.eqb (AuthInfo.ServerEphemeral authInfo) "" then
                  ret (Err ErrEmptyServerEphemeral)
                else ret (Ok authInfo)
            end
      end
  end.

(** [Client.sendAuthRequest]. *)
Definition sendAuthRequest (authReq : list (string * jvalue))
  : IO (result Session.t) :=
  c <- getConfig ;;
  match NewRequest "POST" (Config.APIURL c ++ "/core/v4/auth") authReq with
  | Err e => ret (Err e)
  | Ok req =>
      resp <- Do (setHeaders req) ;;
      match resp with
      | DoFailed => ret (Err ErrTransport)
      | Response _ None => ret (Err ErrReadBody)
      | Response status (Some respBody) =>
          if negb (status =? 200) then ret (Err (ErrAuthHTTP status respBody))
          else
            match jsonUnmarshalSession X respBody with
            | None => ret (Err ErrJSON)
            | Some session =>
                if Session.Code session =? CodeMailboxPasswordError then
                  ret (Err ErrLegacyTwoPasswordMode)
                else if negb (Session.Code session =? CodeSuccess) then
                  ret (Err (NewError (Session.Code session)))
                else ret (Ok session)
            end
      end
  end.

(** [Client.submit2FA]. *)
Definition submit2FA (session : Session.t) (code : string)
  : IO (result (list string)) :=
  c <- getConfig ;;
  let reqBody := [ ("TwoFactorCode", JString code) ] in
  match NewRequest "POST" (Config.APIURL c ++ "/core/v4/auth/2fa") reqBody with
  | Err e => ret (Err e)
  | Ok req =>
      let req := HeaderSet req "Content-Type" "application/json" in
      let req := HeaderSet req "Authorization"
                   ("Bearer " ++ Session.AccessToken session) in
      let req := HeaderSet req "x-pm-uid" (Session.UID session) in
      let req := HeaderSet req "x-pm-appversion" AppVersion in
      let req := HeaderSet req "User-Agent" UserAgent in
      resp <- Do req ;;
      match resp with
      | DoFailed => ret (Err ErrTransport)
      | Response _ None => ret (Err ErrReadBody)
      | Response status (Some respBody) =>
          if negb (status =? 200) then ret (Err (Err2FAHTTP status respBody))
          else
            match jsonUnmarshalTwoFA X respBody with
            | None => ret (Err (ErrParse2FAResponse ErrJSON))
            | Some twoFAResp =>
                if negb (twofa_Code twoFAResp =? CodeSuccess) then
                  if negb (String.eqb (twofa_Error twoFAResp) "") then
                    ret (Err (Err2FAFailed (twofa_Code twoFAResp)
                                           (twofa_Error twoFAResp)))
                  else ret (Err (NewError (twofa_Code twoFAResp)))
                else ret (Ok (twofa_Scopes twoFAResp))
            end
      end
  end.

(** [Client.generateSRPProofs]. *)
Definition generateSRPProofs (authInfo : AuthInfo.t) : IO (result Proofs.t) :=
  fun w =>
    match srp w (AuthInfo.Version authInfo) (Config.Username (config w))
            (Config.Password (config w)) (AuthInfo.Salt authInfo)
            (AuthInfo.Modulus authInfo) (AuthInfo.ServerEphemeral authInfo) with
    | NewAuthFailed => (Err (ErrCreateSRPAuth ErrSRP), w)
    | GenerateProofsFailed => (Err (ErrGenerateSRPProofs ErrSRP), w)
    | Generated proofs => (Ok proofs, w)
    end.

(** [Client.buildAuthRequest]. *)
Definition buildAuthRequest (c : Config.t) (authInfo : AuthInfo.t)
  (proofs : Proofs.t) : list (string * jvalue) :=
  [ ("Username", JString (Config.Username c));
    ("ClientEphemeral",
      JString (GoStrings.EncodeToString (Proofs.ClientEphemeral proofs)));
    ("ClientProof",
      JString (GoStrings.EncodeToString (Proofs.ClientProof proofs)));
    ("SRPSession", JString (AuthInfo.SRPSession authInfo));
    ("PersistentCookies", JNumber 0) ].

(** The block "Handle 2FA if needed" of [performFreshAuth]: the request
    with the code added when the account has TOTP enabled. *)
Definition addTwoFactorCode (authInfo : AuthInfo.t)
  (authReq : list (string * jvalue)) : IO (result (list (string * jvalue))) :=
  if (AuthInfo.TwoFAEnabled authInfo =? EnabledTrue)
     && (AuthInfo.TwoFATOTP authInfo =? EnabledTrue) then
    r <- get2FACode ;;
    match r with
    | Err e => ret (Err e)
    | Ok code => ret (Ok (authReq ++ [ ("TwoFactorCode", JString code) ])%list)
    end
  else ret (Ok authReq).

(** [Client.performFreshAuth]. *)
Definition performFreshAuth : IO (result Session.t) :=
  r <- getAuthInfo ;;
  match r with
  | Err e => ret (Err (ErrGetAuthInfo e))
  | Ok authInfo =>
      r <- generateSRPProofs authInfo ;;
      match r with
      | Err e => ret (Err e)
      | Ok clientProofs =>
          c <- getConfig ;;
          r <- addTwoFactorCode authInfo (buildAuthRequest c authInfo clientProofs) ;;
          match r with
          | Err e => ret (Err e)
          | Ok authReq =>
              r <- sendAuthRequest authReq ;;
              match r with
              | Err e => ret (Err e)
              | Ok session =>
                  if negb (String.eqb (Session.ServerProof session)
                             (GoStrings.EncodeToString
                                (Proofs.ExpectedServerProof clientProofs)))
                  then ret (Err ErrServerProof)
                  else ret (Ok session)
              end
          end
      end
  end.

(** [Client.checkSessionScopes]: the loop over the scopes, started with
    both results false. *)
Fixpoint scanScopes (scopes : list string) (hasVPN hasTwoFactor : bool)
  : bool * bool :=
  match scopes with
  | [] => (hasVPN, hasTwoFactor)
  | scope :: rest =>
      if String.eqb scope "vpn" then scanScopes rest true hasTwoFactor
      else if String.eqb scope "twofactor" then scanScopes rest hasVPN true
      else scanScopes rest hasVPN hasTwoFactor
  end.

Definition checkSessionScopes (session : Session.t) : bool * bool :=
  scanScopes (Session.Scopes session) false false.

(** [Client.upgradeSessionIfNeeded]. The Go function updates the session
    it is given in place; here it returns the session as it is after the
    call, next to the error. *)
Definition upgradeSessionIfNeeded (session : Session.t)
  : IO (Session.t * option error) :=
  let (hasVPNScope, hasTwoFactorScope) := checkSessionScopes session in
  if hasVPNScope || negb hasTwoFactorScope then ret (session, None)
  else
    print MsgLacksVPNScope ;;
    r <- get2FACode ;;
    match r with
    | Err e => ret (session, Some (ErrGet2FACode e))
    | Ok code =>
        r <- submit2FA session code ;;
        match r with
        | Err e => ret (session, Some (Err2FAVerification e))
        | Ok updatedScopes =>
            print Msg2FAVerified ;;
            ret (Session.setScopes session updatedScopes, None)
        end
    end.

(** [Client.saveSessionIfEnabled]. *)
Definition saveSessionIfEnabled (session : Session.t) : IO unit :=
  c <- getConfig ;;
  if Config.NoSession c then ret tt
  else
    let (parsed, err) := ParseSessionDuration X (Config.SessionDuration c) in
    sessionDuration <-
      match err with
      | Some e => print (MsgWarnDuration e) ;; ret 0
      | None => ret parsed
      end ;;
    err <- Save session (Config.Username c) sessionDuration ;;
    match err with
    | Some e => print (MsgWarnSave e)
    | None => ret tt
    end.

(** [Client.handleSessionRefresh]. *)
Definition handleSessionRefresh (savedSession : Session.t) (reason : Msg)
  : IO (option Session.t * option error) :=
  print reason ;;
  c <- getConfig ;;
  r <- RefreshSession (Config.APIURL c) savedSession ;;
  match r with
  | Err err =>
      print (MsgRefreshFailed err) ;;
      print MsgReauthenticating ;;
      print MsgTrustedDevice ;;
      Delete ;;
      ret (None, Some err)
  | Ok refreshedSession =>
      print MsgRefreshed ;;
      (if negb (String.eqb (Session.RefreshToken savedSession)
                  (Session.RefreshToken refreshedSession))
       then print MsgTokenRotated else ret tt) ;;
      (if negb (Config.NoSession c) then
         let (sessionDuration, _) :=
           ParseSessionDuration X (Config.SessionDuration c) in
         err <- Save refreshedSession (Config.Username c) sessionDuration ;;
         match err with
         | Some e => print (MsgWarnSaveRefreshed e)
         | None => ret tt
         end
       else ret tt) ;;
      ret (Some refreshedSession, None)
  end.

(** The renewal threshold of [tryExistingSession]:
    [time.Duration(constants.SessionRefreshDays)*24*time.Hour], a
    constant expression. *)
Definition refreshThreshold : GoTime.Duration :=
  SessionRefreshDays X * 24 * GoTime.Hour.

(** [Client.tryExistingSession]. *)
Definition tryExistingSession : IO (option Session.t * option error) :=
  c <- getConfig ;;
  r <- Load (Config.Username c) ;;
  let '(savedSession, timeUntilExpiry, err) := r in
  match err with
  | Some e => print (MsgWarnLoad e) ;; ret (None, Some e)
  | None =>
      match savedSession with
      | None => ret (None, None)
      | Some savedSession =>
          if Config.ForceRefresh c then
            handleSessionRefresh savedSession (MsgForcingRefresh timeUntilExpiry)
          else if (timeUntilExpiry <? refreshThreshold) && (0 <? timeUntilExpiry) then
            handleSessionRefresh savedSession (MsgExpiresSoon timeUntilExpiry)
          else
            valid <- VerifySession (Config.APIURL c) savedSession ;;
            if valid then
              print (MsgUsingSaved timeUntilExpiry) ;;
              ret (Some savedSession, None)
            else
              print MsgSavedInvalid ;;
              Delete ;;
              ret (None, None)
      end
  end.

(** [Client.handleExistingSession]. *)
Definition handleExistingSession : IO (option Session.t) :=
  c <- getConfig ;;
  if Config.ClearSession c then
    print MsgClearing ;;
    Delete ;;
    ret None
  else if Config.NoSession c then ret None
  else
    r <- tryExistingSession ;;
    match r with
    | (Some session, None) => ret (Some session)
    | _ => ret None
    end.

(** The second half of [Client.Authenticate], from [ensurePassword] on:
    the fresh login, the scope upgrade and the save. *)
Definition authenticateFresh : IO (result Session.t) :=
  err <- ensurePassword ;;
  match err with
  | Some e => ret (Err e)
  | None =>
      r <- performFreshAuth ;;
      match r with
      | Err e => ret (Err e)
      | Ok session =>
          r <- upgradeSessionIfNeeded session ;;
          let (session, err) := r in
          match err with
          | Some e => ret (Err e)
          | None =>
              saveSessionIfEnabled session ;;
              ret (Ok session)
          end
      end
  end.

(** [Client.Authenticate]. *)
Definition Authenticate : IO (result Session.t) :=
  err <- ensureUsername ;;
  match err with
  | Some e => ret (Err e)
  | None =>
      existing <- handleExistingSession ;;
      match existing with
      | Some session => ret (Ok session)
      | None => authenticateFresh
      end
  end.

End Program.

(* ================================================================== *)
(** * A sample environment and sample runs *)
(* ================================================================== *)

Module Sample.

Definition alice : Session.t :=
  Session.mk 1000 "access-a" "refresh-a" "uid-a" ["self"; "vpn"] 2592000 "".

(** A session of a second-factor account that was let in on device
    trust: verified for the second factor, no VPN scope. *)
Definition trusted : Session.t :=
  Session.mk 1000 "access-t" "refresh-t" "uid-t" ["self"; "twofactor"] 2592000 "".

Definition proofs : Proofs.t := Proofs.mk "Man" "light w" "light wo".

(** What the remote party answers to a login of bob: the server proof is
    the base64 text of the expected one. *)
Definition bob : Session.t :=
  Session.mk 1000 "access-b" "refresh-b" "uid-b" ["self"; "vpn"] 2592000
    "bGlnaHQgd28=".

Definition bobForged : Session.t :=
  Session.mk 1000 "access-b" "refresh-b" "uid-b" ["self"; "vpn"] 2592000
    "bGlnaHQgd29=".

Definition bobTwoFactor : Session.t :=
  Session.mk 1000 "access-b" "refresh-b" "uid-b" ["self"; "twofactor"] 2592000
    "bGlnaHQgd28=".

Definition info (code : Z) : AuthInfo.t :=
  AuthInfo.mk code 4 "salt" "modulus" "ephemeral" "srp-session" 0 0.

Definition day : Z := 24 * GoTime.Hour.

(** The decoders are tables: each body below stands for a JSON text that
    [encoding/json] decodes to the value next to it, anything else for a
    text it rejects. The encoder writes the identity and the expiry. *)
Definition X : Externals :=
  mkExternals 7
    (fun s =>
       if String.eqb s "0" then (0, None)
       else if String.eqb s "24h" then (day, None)
       else (0, Some ErrParseDuration))
    (fun saved =>
       Some ("saved:" ++ SavedSession.Username saved ++ ":"
               ++ NilZero.string_of_int (Z.to_int (SavedSession.ExpiresAt saved))))
    (fun data =>
       if String.eqb data "alice-20d" then
         Some (SavedSession.mk (Some alice) "alice" 0 (20 * day))
       else if String.eqb data "alice-3d" then
         Some (SavedSession.mk (Some alice) "alice" 0 (3 * day))
       else if String.eqb data "alice-expired" then
         Some (SavedSession.mk (Some alice) "alice" (- (2 * day)) (- day))
       else if String.eqb data "trusted-20d" then
         Some (SavedSession.mk (Some trusted) "alice" 0 (20 * day))
       else None)
    (fun body =>
       if String.eqb body "session-bob" then Some bob
       else if String.eqb body "session-bob-forged" then Some bobForged
       else if String.eqb body "session-bob-twofactor" then Some bobTwoFactor
       else if String.eqb body "session-multi" then
         Some (Session.mk 1001 "access-m" "refresh-m" "uid-m" ["vpn"] 2592000
                 "bGlnaHQgd28=")
       else None)
    (fun body =>
       if String.eqb body "info-1000" then Some (info 1000)
       else if String.eqb body "info-1001" then Some (info 1001)
       else if String.eqb body "info-2fa" then
         Some (AuthInfo.mk 1000 4 "salt" "modulus" "ephemeral" "srp-session" 1 1)
       else None)
    (fun body =>
       if String.eqb body "2fa-1000" then
         Some (mkTwoFAResp 1000 ["self"; "twofactor"; "vpn"] "")
       else if String.eqb body "2fa-1001" then
         Some (mkTwoFAResp 1001 ["self"; "twofactor"; "vpn"] "")
       else None)
    (fun _ => true).

Definition cfg (username password : string) : Config.t :=
  Config.mk username password false false false "0" "https://vpn-api.proton.me".

(** A world at time 0 where go-srp produces [proofs]. *)
Definition world (c : Config.t) (input : list string) (f : option string)
  (answers : list HttpOutcome) : World :=
  mkWorld c input [] (fun _ => 0) O f false false false answers []
    (fun _ _ _ _ _ _ => Generated proofs).

Definition ok (body : string) : HttpOutcome := Response 200 (Some body).

(** bob logs in with nothing stored. *)
Definition fresh : World :=
  world (cfg "bob" "pw") [] None [ok "info-1000"; ok "session-bob"].

(** The same, the remote party answering with another server proof. *)
Definition forged : World :=
  world (cfg "bob" "pw") [] None [ok "info-1000"; ok "session-bob-forged"].

(** bob logs in and must upgrade: the session comes without VPN scope. *)
Definition upgrade : World :=
  world (cfg "bob" "pw") ["123456"] None
    [ok "info-1000"; ok "session-bob-twofactor"; ok "2fa-1000"].

(** The same, bob typing something that is not a code. *)
Definition upgradeBadCode : World :=
  world (cfg "bob" "pw") ["12a456"] None
    [ok "info-1000"; ok "session-bob-twofactor"; ok "2fa-1000"].

(** alice has a session stored that expires in 20 days, and it is valid. *)
Definition reuse : World :=
  world (cfg "alice" "") [] (Some "alice-20d") [Response 200 None].

(** The stored session has the second-factor scope and no VPN scope. *)
Definition reuseTrusted : World :=
  world (cfg "alice" "") ["123456"] (Some "trusted-20d")
    [Response 200 None; ok "2fa-1000"].

(** alice's stored session expires in 3 days and the refresh is
    refused. *)
Definition refreshRefused : World :=
  world (cfg "alice" "pw") [] (Some "alice-3d")
    [Response 500 (Some "refused"); ok "info-1000"; ok "session-bob"].

(** The session file does not parse. *)
Definition garbled : World :=
  world (cfg "alice" "pw") [] (Some "{not json") [ok "info-1000"; ok "session-bob"].

(** bob runs the tool where alice's session is stored. *)
Definition otherAccount : World :=
  world (cfg "bob" "pw") [] (Some "alice-20d") [ok "info-1000"; ok "session-bob"].

(** bob gives no password and enters nothing at the prompt; go-srp is
    made to work for the empty password only. *)
Definition emptyPassword : World :=
  mkWorld (cfg "bob" "") [""] [] (fun _ => 0) O None false false false
    [ok "info-1000"; ok "session-bob"] []
    (fun _ _ password _ _ _ =>
       if String.eqb password "" then Generated proofs else NewAuthFailed).

(** A world whose terminal holds one line. *)
Definition typed (line : string) : World :=
  world (cfg "bob" "pw") [line] None [].

End Sample.

(* ================================================================== *)
(** * Frame conditions *)
(* ================================================================== *)

(** [follows R m]: whatever [m] does takes a world to one related to it
    by [R]. *)
Definition follows (R : World -> World -> Prop) {A : Type} (m : IO A) : Prop :=
  forall w, R w (snd (m w)).

(** [keeps f]: the part [f] of the world is the same afterwards. *)
Definition keeps {T : Type} (f : World -> T) : World -> World -> Prop :=
  fun w w' => f w' = f w.

(** The session file. *)
Definition stored (w : World) : option string := file w.

(** The remote party's side: what was sent, what is still to come. *)
Definition traffic (w : World) : list Request * list HttpOutcome :=
  (sent w, remote w).

(** What a fresh login never changes: the identity, the session
    switches, the API address and the permissions on the session file. *)
Definition settings (w : World)
  : string * bool * string * string * (bool * bool * bool) :=
  (Config.Username (config w), Config.NoSession (config w),
   Config.SessionDuration (config w), Config.APIURL (config w),
   (read_denied w, write_denied w, remove_denied w)).

(** The last [n] bytes of a string, the last one first. *)
Definition tailBytes (n : nat) (s : string) : list ascii :=
  firstn n (rev (list_ascii_of_string s)).

(** A request to the refresh endpoint, whatever the API address. *)
Definition isRefreshRequest (r : Request) : Prop :=
  exists apiURL, req_url r = apiURL ++ "/auth/refresh".

(** [w'] is [w] after some more requests, none of them to the refresh
    endpoint. *)
Definition noRefresh (w w' : World) : Prop :=
  exists l,
    sent w' = (sent w ++ l)%list
    /\ Forall (fun r => ~ isRefreshRequest r) l.


(* ================================================================== *)
(** * Package [auth]: errors.go, messages and classification *)
(* ================================================================== *)

Definition CodeWrongPassword : Z := 8002.
Definition CodeWrongPasswordFormat : Z := 8004.
Definition CodeCaptchaRequired : Z := 9001.
Definition Code2FARequiredForVPN : Z := 9100.
Definition CodeAccountDeleted : Z := 10002.
Definition CodeAccountDisabled : Z := 10003.

(** The verb [%d] of [fmt] on an [int]. *)
Definition formatInt (n : Z) : string := NilZero.string_of_int (Z.to_int n).

(** [getErrorMessage]. *)
Definition getErrorMessage (code : Z) : string :=
  if code =? CodeWrongPassword then "incorrect username or password"
  else if code =? CodeWrongPasswordFormat then "password format is incorrect"
  else if code =? CodeCaptchaRequired then "CAPTCHA verification required"
  else if code =? Code2FARequiredForVPN then
    "2FA required for VPN operations - your session was authenticated without 2FA (device trust). Use -clear-session to force re-authentication with 2FA"
  else if code =? CodeAccountDeleted then "account has been deleted"
  else if code =? CodeAccountDisabled then "account has been disabled"
  else if code =? CodeMailboxPasswordError then
    "account uses legacy 2-password mode - please switch to single-password mode at account.proton.me"
  else "authentication failed with code: " ++ formatInt code.

(** [errors.As(err, &authErr)] for an [authErr] of type [Error]: the
    code of the first [Error] on the chain of wrapped errors, if there is
    one. The errors of the libraries and of the system wrap no [Error]. *)
Fixpoint asAuthError (err : error) : option Z :=
  match err with
  | AuthError code => Some code
  | ErrReadingUsername e | ErrReadingPassword e | ErrReading2FACode e
  | ErrParseAuthInfo e | ErrGetAuthInfo e | ErrCreateSRPAuth e
  | ErrGenerateSRPProofs e | ErrGet2FACode e | Err2FAVerification e
  | ErrParse2FAResponse e | ErrUnmarshalSession e => asAuthError e
  | _ => None
  end.

(** [IsAccountError]. *)
Definition IsAccountError (err : error) : bool :=
  match asAuthError err with
  | None => false
  | Some code => (code =? CodeAccountDeleted) || (code =? CodeAccountDisabled)
  end.

(** [IsCaptchaError]. *)
Definition IsCaptchaError (err : error) : bool :=
  match asAuthError err with
  | None => false
  | Some code => code =? CodeCaptchaRequired
  end.

(* ================================================================== *)
(** * Package [config]: flags.go, the lists *)
(* ================================================================== *)

Module Strings.

(** [strings.Split(s, sep)] for a separator of one byte: the pieces
    between the separators, one more than there are separators. *)
Fixpoint Split (s : string) (sep : ascii) : list string :=
  match s with
  | EmptyString => [EmptyString]
  | String c s' =>
      if Ascii.eqb c sep then EmptyString :: Split s' sep
      else
        match Split s' sep with
        | [] => [String c EmptyString]
        | piece :: pieces => String c piece :: pieces
        end
  end.

(** [strings.Join(elems, sep)]. *)
Fixpoint Join (elems : list string) (sep : string) : string :=
  match elems with
  | [] => EmptyString
  | [e] => e
  | e :: rest => e ++ sep ++ Join rest sep
  end.

End Strings.

(** [parseCommaSeparatedList]: the loop over the pieces appends the
    trimmed piece unless it is empty. *)
Definition parseCommaSeparatedList (input : string) : list string :=
  let parts := Strings.Split input ","%char in
  fold_left
    (fun result part =>
       let part := GoStrings.TrimSpace part in
       if negb (String.eqb part "") then (result ++ [part])%list else result)
    parts [].

(* ================================================================== *)
(** * Package [vpn]: servers.go and client.go *)
(* ================================================================== *)

Definition StatusOnline : Z := 1.

Module PhysicalServer.
(** Modelled from the spec: [api.PhysicalServer], declared in
    internal/api/types.go, with the fields packages [vpn] and
    [wireguard] read. *)
Record t : Type := mk {
  ID : string;
  EntryIP : string;
  ExitIP : string;
  X25519PublicKey : string;
  Status : Z
}.
End PhysicalServer.

Module LogicalServer.
(** Modelled from the spec: [api.LogicalServer], declared in
    internal/api/types.go, with the fields the selection of servers.go
    reads before it sorts. *)
Record t : Type := mk {
  Name : string;
  ExitCountry : string;
  Tier : Z;
  Features : Z;
  Status : Z;
  Servers : list PhysicalServer.t
}.
End LogicalServer.

Module Selection.
(** The fields of [config.Config] that the server selection reads. *)
Record t : Type := mk {
  Countries : list string;
  P2PServersOnly : bool;
  SecureCoreOnly : bool;
  FreeOnly : bool
}.
End Selection.

(** The constants of internal/api/types.go that servers.go names. *)
Record ApiConstants : Type := mkApiConstants {
  TierFree : Z;
  FeatureP2P : Z;
  FeatureSecureCore : Z
}.

(** What [SelectBest] hands back: a server, the error of
    [buildNoServersError], or the panic of [filtered[0]] on an empty
    slice. *)
Inductive selection : Type :=
| Selected (server : LogicalServer.t)
| NoSuitableServers
| IndexOutOfRange.

Section Servers.

Variable K : ApiConstants.
Variable cfg : Selection.t.

(** [ServerSelector.isCountryMatch]. *)
Fixpoint matchCountry (countries : list string) (exitCountry : string) : bool :=
  match countries with
  | [] => false
  | country :: rest =>
      if String.eqb exitCountry country then true
      else matchCountry rest exitCountry
  end.

Definition isCountryMatch (server : LogicalServer.t) : bool :=
  matchCountry (Selection.Countries cfg) (LogicalServer.ExitCountry server).

(** [ServerSelector.isServerEligible]. *)
Definition isServerEligible (server : LogicalServer.t) : bool :=
  if negb (LogicalServer.Status server =? StatusOnline) then false
  else if (if Selection.FreeOnly cfg
           then negb (LogicalServer.Tier server =? TierFree K)
           else LogicalServer.Tier server =? TierFree K) then false
  else if Selection.P2PServersOnly cfg && negb (Selection.SecureCoreOnly cfg)
          && negb (Selection.FreeOnly cfg)
          && (Z.land (LogicalServer.Features server) (FeatureP2P K) =? 0)
  then false
  else if Selection.SecureCoreOnly cfg
          && (Z.land (LogicalServer.Features server) (FeatureSecureCore K) =? 0)
  then false
  else if negb (isCountryMatch server) then false
  else if (List.length (LogicalServer.Servers server) =? 0)%nat then false
  else true.

(** [ServerSelector.filterServers]: the loop appends the eligible
    servers. *)
Definition filterServers (servers : list LogicalServer.t)
  : list LogicalServer.t :=
  fold_left
    (fun filtered server =>
       if isServerEligible server then (filtered ++ [server])%list
       else filtered)
    servers [].

(** [sort.Slice(filtered, less)] with the order of [SelectBest], by
    score and then by load: the slice as the call leaves it. The scores
    are floating-point numbers and are not modelled; the library
    rearranges the elements of the slice and does nothing else. *)
Variable sortSlice : list LogicalServer.t -> list LogicalServer.t.

(** [ServerSelector.SelectBest], without the debug listing it prints
    when asked to. *)
Definition SelectBest (servers : list LogicalServer.t) : selection :=
  let filtered := filterServers servers in
  if (List.length filtered =? 0)%nat then NoSuitableServers
  else
    match sortSlice filtered with
    | [] => IndexOutOfRange
    | best :: _ => Selected best
    end.

End Servers.

(** The loop of [GetBestPhysicalServer]: the first physical server that
    is online. *)
Fixpoint firstOnline (servers : list PhysicalServer.t)
  : option PhysicalServer.t :=
  match servers with
  | [] => None
  | p :: rest =>
      if PhysicalServer.Status p =? StatusOnline then Some p
      else firstOnline rest
  end.

(** [GetBestPhysicalServer]. *)
Definition GetBestPhysicalServer (server : LogicalServer.t)
  : option PhysicalServer.t :=
  match LogicalServer.Servers server with
  | [] => None
  | first :: _ =>
      match firstOnline (LogicalServer.Servers server) with
      | Some p => Some p
      | None => Some first
      end
  end.

(** The errors of [Client.GetServers]. *)
Inductive vpnerror : Type :=
| VpnNewRequest                    (* http.NewRequest *)
| VpnTransport                     (* httpClient.Do *)
| VpnReadBody                      (* io.ReadAll *)
| VpnJSON                          (* json.Unmarshal *)
| VpnAPICode (code : Z).           (* "API returned error code: %d" *)

Section VpnClient.

Variable X : Externals.

(** [json.Unmarshal] into an [api.LogicalsResponse]: its [Code] and its
    [LogicalServers]. *)
Variable jsonUnmarshalLogicals : string -> option (Z * list LogicalServer.t).

(** [vpn.Client.setHeaders]. *)
Definition vpnSetHeaders (session : Session.t) (req : Request) : Request :=
  let req := HeaderSet req "Content-Type" "application/json" in
  let req := HeaderSet req "Authorization"
               ("Bearer " ++ Session.AccessToken session) in
  let req := HeaderSet req "x-pm-uid" (Session.UID session) in
  let req := HeaderSet req "x-pm-appversion" AppVersion in
  HeaderSet req "User-Agent" UserAgent.

(** [vpn.Client.GetServers], for the session the client was made
    with. *)
Definition GetServers (session : Session.t)
  : IO (list LogicalServer.t + vpnerror) :=
  c <- getConfig ;;
  match NewRequest X "GET" (Config.APIURL c ++ "/vpn/v1/logicals") [] with
  | Err _ => ret (inr VpnNewRequest)
  | Ok req =>
      resp <- Do (vpnSetHeaders session req) ;;
      match resp with
      | DoFailed => ret (inr VpnTransport)
      | Response _ None => ret (inr VpnReadBody)
      | Response _ (Some body) =>
          match jsonUnmarshalLogicals body with
          | None => ret (inr VpnJSON)
          | Some (code, logicalServers) =>
              if negb (IsSuccessCode code) then ret (inr (VpnAPICode code))
              else ret (inl logicalServers)
          end
      end
  end.

End VpnClient.

(** [Client.Authenticate] with every step on the session store taken
    out: what the frame theorem of the no-session switch compares it
    with. *)
Definition authenticateWithoutStore (X : Externals) : IO (result Session.t) :=
  err <- ensureUsername ;;
  match err with
  | Some e => ret (Err e)
  | None =>
      err <- ensurePassword ;;
      match err with
      | Some e => ret (Err e)
      | None =>
          r <- performFreshAuth X ;;
          match r with
          | Err e => ret (Err e)
          | Ok session =>
              r <- upgradeSessionIfNeeded X session ;;
              let (session, err) := r in
              match err with
              | Some e => ret (Err e)
              | None => ret (Ok session)
              end
          end
      end
  end.

(* ================================================================== *)
(** * More frame conditions *)
(* ================================================================== *)

(** The session file is as it was, or it is gone. *)
Definition keptOrRemoved (w w' : World) : Prop :=
  file w' = file w \/ file w' = None.

(** [m] sends at most [n] requests, and takes none back. *)
Definition sendsAtMost (n : nat) {A : Type} (m : IO A) : Prop :=
  forall w, exists l,
    sent (snd (m w)) = (sent w ++ l)%list /\ (List.length l <= n)%nat.

(** [m] never looks at the session file nor changes it: with another
    file in place it does the same, and leaves that file. *)
Definition ignoresFile {A : Type} (m : IO A) : Prop :=
  forall w f, m (setFile w f) = (fst (m w), setFile (snd (m w)) f).

(** A run of [tryExistingSession] or [handleSessionRefresh] hands over
    a session, or else leaves the session file as it was or removed. *)
Definition yieldsSessionOrKeeps (m : IO (option Session.t * option error))
  : Prop :=
  forall w,
    (exists s, fst (m w) = (Some s, None)) \/ keptOrRemoved w (snd (m w)).

(** The session switches of the configuration. *)
Definition switches (w : World) : bool * bool * bool :=
  (Config.ClearSession (config w), Config.NoSession (config w),
   Config.ForceRefresh (config w)).

(** All but the terminal and the clock: the configuration, go-srp, the
    remote party and the session file. *)
Definition exchange (w : World)
  : Config.t * (Z -> string -> string -> string -> string -> string -> SrpOutcome)
    * (list Request * list HttpOutcome) * option string :=
  (config w, srp w, (sent w, remote w), file w).

(** The terminal input still unread. *)
Definition unread (w : World) : list string := stdin w.

(** No leading and no trailing white space. *)
Definition trimmed (s : string) : Prop :=
  GoStrings.firstStrip GoStrings.spaceEncodings (list_ascii_of_string s) = None
  /\ GoStrings.firstStrip (map (@rev ascii) GoStrings.spaceEncodings)
       (rev (list_ascii_of_string s)) = None.

(** The string has no comma. *)
Definition commaFree (s : string) : Prop :=
  ~ In ","%char (list_ascii_of_string s).

(* ================================================================== *)
(** * More samples *)
(* ================================================================== *)

Module Sample2.

(** An environment as [Sample.X] whose decoder of session files reads
    back what its encoder writes for bob's session, and whose decoders
    of answers know two more bodies. *)
Definition X : Externals :=
  mkExternals 7
    (ParseSessionDuration Sample.X)
    (jsonMarshalSaved Sample.X)
    (fun data =>
       if String.eqb data "saved:bob:86400000000000" then
         Some (SavedSession.mk (Some Sample.bob) "bob" 0 86400000000000)
       else if String.eqb data "saved:alice:2592000000000000" then
         Some (SavedSession.mk (Some Sample.bob) "alice" 0 2592000000000000)
       else jsonUnmarshalSaved Sample.X data)
    (fun body =>
       if String.eqb body "session-disabled" then
         Some (Session.mk 10003 "" "" "" [] 0 "")
       else jsonUnmarshalSession Sample.X body)
    (jsonUnmarshalAuthInfo Sample.X)
    (fun body =>
       if String.eqb body "2fa-9001" then Some (mkTwoFAResp 9001 [] "")
       else jsonUnmarshalTwoFA Sample.X body)
    (urlParses Sample.X).

(** The remote party answers bob's login with the code of a disabled
    account. *)
Definition disabled : World :=
  Sample.world (Sample.cfg "bob" "pw") [] None
    [Sample.ok "info-1000"; Sample.ok "session-disabled"].

(** alice's stored session expired a day ago. *)
Definition expired : World :=
  Sample.world (Sample.cfg "alice" "pw") [] (Some "alice-expired") [].

(** alice's stored session expires in 3 days and the refresh is
    granted. *)
Definition refreshGranted : World :=
  Sample.world (Sample.cfg "alice" "") [] (Some "alice-3d")
    [Sample.ok "session-bob"].

(** alice's stored session is 20 days from expiry and the remote party
    rejects it. *)
Definition rejected : World :=
  Sample.world (Sample.cfg "alice" "pw") [] (Some "alice-20d")
    [Response 401 None; Sample.ok "info-1000"; Sample.ok "session-bob"].

(** bob runs the tool with the clear switch where alice's session is
    stored. *)
Definition clearing : World :=
  Sample.world
    (Config.mk "bob" "pw" true false false "0" "https://vpn-api.proton.me")
    [] (Some "alice-20d") [Sample.ok "info-1000"; Sample.ok "session-bob"].

(** bob runs the tool with the no-session switch where alice's session
    is stored. *)
Definition ephemeral : World :=
  Sample.world
    (Config.mk "bob" "pw" false true false "0" "https://vpn-api.proton.me")
    [] (Some "alice-20d") [Sample.ok "info-1000"; Sample.ok "session-bob"].

(** bob logs in where alice's session is stored and the system refuses
    to write the session file. *)
Definition readOnly : World :=
  mkWorld (Sample.cfg "bob" "pw") [] [] (fun _ => 0) O (Some "alice-20d")
    false true false [Sample.ok "info-1000"; Sample.ok "session-bob"] []
    (fun _ _ _ _ _ _ => Generated Sample.proofs).

Definition K : ApiConstants := mkApiConstants 0 4 1.

Definition physical (id : string) (status : Z) : PhysicalServer.t :=
  PhysicalServer.mk id "10.0.0.1" "10.0.0.2" "key" status.

Definition server (name country : string) (tier features status : Z)
  (servers : list PhysicalServer.t) : LogicalServer.t :=
  LogicalServer.mk name country tier features status servers.

Definition servers : list LogicalServer.t :=
  [ server "CH#1" "CH" 2 4 1 [physical "a" 0; physical "b" 1];
    server "CH-FREE#1" "CH" 0 0 1 [physical "c" 1];
    server "NL#1" "NL" 2 0 1 [physical "d" 0];
    server "US#1" "US" 2 4 1 [physical "e" 1];
    server "CH#2" "CH" 2 4 0 [physical "f" 1];
    server "CH#3" "CH" 2 4 1 [] ].

Definition logicals (body : string) : option (Z * list LogicalServer.t) :=
  if String.eqb body "logicals-1000" then Some (1000, servers)
  else if String.eqb body "logicals-1001" then Some (1001, servers)
  else if String.eqb body "logicals-401" then Some (401, [])
  else None.

End Sample2.
(* ================================================================== *)
(** * Sample runs of the library functions *)
(* ================================================================== *)

Example TrimSpace_code :
  GoStrings.TrimSpace
    (String (ascii_of_nat 32)
       ("123456" ++ String (ascii_of_nat 13) (String (ascii_of_nat 10) "")))
  = "123456".
Proof. reflexivity. Qed.

Example TrimSpace_unicode :
  GoStrings.TrimSpace
    (string_of_list_ascii (GoStrings.bytes [194; 160]%nat) ++ "12 3"
       ++ string_of_list_ascii (GoStrings.bytes [226; 128; 168; 9]%nat))
  = "12 3".
Proof. reflexivity. Qed.

Example EncodeToString_whole : GoStrings.EncodeToString "Man" = "TWFu".
Proof. reflexivity. Qed.

Example EncodeToString_padded :
  GoStrings.EncodeToString "light w" = "bGlnaHQgdw=="
  /\ GoStrings.EncodeToString "light wo" = "bGlnaHQgd28=".
Proof. split; reflexivity. Qed.

(* ================================================================== *)
(** * Reasoning about runs *)
(* ================================================================== *)

Lemma run_bind {A B : Type} (m : IO A) (k : A -> IO B) (w w' : World) (a : A) :
  m w = (a, w') -> bind m k w = k a w'.
Proof. intros H. unfold bind. rewrite H. reflexivity. Qed.

Lemma follows_run {A : Type} (R : World -> World -> Prop) (m : IO A)
  (w w' : World) (a : A) :
  follows R m -> m w = (a, w') -> R w w'.
Proof. intros H E. specialize (H w). rewrite E in H. exact H. Qed.

Section Frames.

Variable R : World -> World -> Prop.
Context {HR : RelationClasses.PreOrder R}.

Lemma follows_ret {A : Type} (a : A) : follows R (ret a).
Proof. intros w. apply HR. Qed.

Lemma follows_bind {A B : Type} (m : IO A) (k : A -> IO B) :
  follows R m -> (forall a, follows R (k a)) -> follows R (bind m k).
Proof.
  intros Hm Hk w. unfold bind.
  destruct (m w) as [a w1] eqn:E.
  apply (RelationClasses.PreOrder_Transitive w w1).
  - exact (follows_run R m w w1 a Hm E).
  - apply Hk.
Qed.

End Frames.

#[export] Instance keeps_PreOrder {T : Type} (f : World -> T) :
  RelationClasses.PreOrder (keeps f).
Proof.
  split.
  - intros w. reflexivity.
  - intros a b c Hab Hbc. unfold keeps in *. congruence.
Qed.

#[export] Instance noRefresh_PreOrder : RelationClasses.PreOrder noRefresh.
Proof.
  split.
  - intros w. exists []. split.
    + symmetry. apply app_nil_r.
    + constructor.
  - intros a b c (l1 & E1 & F1) (l2 & E2 & F2).
    exists (l1 ++ l2)%list. split.
    + rewrite E2, E1. symmetry. apply app_assoc.
    + apply Forall_app. split; assumption.
Qed.

(** One step through the structure of a program: a [ret], a [bind], or
    a branch on a value. *)
Ltac frame_step :=
  lazymatch goal with
  | |- follows _ (ret _) => apply follows_ret; exact _
  | |- follows _ (bind _ _) => apply follows_bind; [ exact _ | | intro ]
  | |- follows _ (match (if ?b then _ else _) with _ => _ end) => destruct b
  | |- follows _ (match ?x with _ => _ end) => destruct x
  end.

(** A primitive that leaves the observed part alone. *)
Ltac keeps_leaf :=
  let w := fresh "w" in
  intro w;
  cbv [keeps print ReadString ReadPassword Now ReadFile WriteFile Remove Do
       getConfig generateSRPProofs];
  repeat match goal with
         | |- context [match ?x with _ => _ end] => destruct x
         end;
  reflexivity.

Ltac keeps_all := repeat frame_step; try keeps_leaf.

Section ProgramFacts.

Variable X : Externals.

Lemma get2FACode_traffic : follows (keeps traffic) get2FACode.
Proof. unfold get2FACode. keeps_all. Qed.

Lemma get2FACode_stored : follows (keeps stored) get2FACode.
Proof. unfold get2FACode. keeps_all. Qed.

Lemma get2FACode_settings : follows (keeps settings) get2FACode.
Proof. unfold get2FACode. keeps_all. Qed.

Lemma ensurePassword_stored : follows (keeps stored) ensurePassword.
Proof. unfold ensurePassword. keeps_all. Qed.

Lemma ensurePassword_settings : follows (keeps settings) ensurePassword.
Proof. unfold ensurePassword. keeps_all. Qed.

Lemma ensurePassword_traffic : follows (keeps traffic) ensurePassword.
Proof. unfold ensurePassword. keeps_all. Qed.

Lemma performFreshAuth_stored : follows (keeps stored) (performFreshAuth X).
Proof.
  unfold performFreshAuth, getAuthInfo, addTwoFactorCode, sendAuthRequest,
    get2FACode.
  keeps_all.
Qed.

Lemma performFreshAuth_settings : follows (keeps settings) (performFreshAuth X).
Proof.
  unfold performFreshAuth, getAuthInfo, addTwoFactorCode, sendAuthRequest,
    get2FACode.
  keeps_all.
Qed.

Lemma upgradeSessionIfNeeded_stored s :
  follows (keeps stored) (upgradeSessionIfNeeded X s).
Proof. unfold upgradeSessionIfNeeded, submit2FA, get2FACode. keeps_all. Qed.

Lemma upgradeSessionIfNeeded_settings s :
  follows (keeps settings) (upgradeSessionIfNeeded X s).
Proof. unfold upgradeSessionIfNeeded, submit2FA, get2FACode. keeps_all. Qed.

(** ** The session store *)

Lemma lifetime_exact (seconds : Z) :
  0 <= seconds <= 9223372036 ->
  GoTime.mul seconds GoTime.Second = seconds * 1000000000.
Proof.
  intros H. unfold GoTime.mul, GoTime.wrap64, GoTime.Second.
  rewrite Z.mod_small; lia.
Qed.

Lemma After_min (a b : Z) :
  (if GoTime.After a b then b else a) = Z.min a b.
Proof. unfold GoTime.After. destruct (Z.ltb_spec b a); lia. Qed.

(** The end of [Save]: encode, write, report. *)
Lemma Save_writes (saved : SavedSession.t) (w : World) :
  let run :=
    match jsonMarshalSaved X saved with
    | None => ret (Some ErrMarshalSession)
    | Some data =>
        bind (WriteFile data) (fun err =>
          match err with
          | Some e => ret (Some (ErrWriteSessionFile e))
          | None => ret None
          end)
    end w in
  (fst run = None ->
   exists data, jsonMarshalSaved X saved = Some data
                /\ file (snd run) = Some data)
  /\ (forall data, jsonMarshalSaved X saved = Some data ->
                   write_denied w = false ->
                   fst run = None /\ file (snd run) = Some data).
Proof.
  unfold bind, WriteFile, ret.
  destruct (jsonMarshalSaved X saved) as [data|]; cbn.
  - destruct (write_denied w); cbn.
    + split; [discriminate|]. intros d _ Hd. discriminate.
    + split.
      * intros _. exists data. split; reflexivity.
      * intros d Hd _. inversion Hd. split; reflexivity.
  - split; [discriminate|]. intros d Hd. discriminate.
Qed.


(** What [Load] returns and does, case by case. *)
Lemma Load_no_file (username : string) (w : World) :
  file w = None -> Load X username w = ((None, 0, None), w).
Proof.
  intros Hf. unfold Load, bind, ReadFile, ret. rewrite Hf. reflexivity.
Qed.

Lemma Load_unreadable (username data : string) (w : World) :
  file w = Some data -> read_denied w = true ->
  Load X username w = ((None, 0, Some (ErrReadSessionFile EACCES)), w).
Proof.
  intros Hf Hr. unfold Load, bind, ReadFile, ret. rewrite Hf, Hr. reflexivity.
Qed.

Lemma Load_unparsable (username data : string) (w : World) :
  file w = Some data -> read_denied w = false ->
  jsonUnmarshalSaved X data = None ->
  Load X username w = ((None, 0, Some (ErrUnmarshalSession ErrJSON)), w).
Proof.
  intros Hf Hr Hp. unfold Load, bind, ReadFile, ret.
  rewrite Hf, Hr. cbn. rewrite Hp. reflexivity.
Qed.

Lemma Load_other_identity (username data : string) (saved : SavedSession.t)
  (w : World) :
  file w = Some data -> read_denied w = false ->
  jsonUnmarshalSaved X data = Some saved ->
  SavedSession.Username saved <> username ->
  Load X username w = ((None, 0, None), w).
Proof.
  intros Hf Hr Hp Hu. unfold Load, bind, ReadFile, ret.
  rewrite Hf, Hr. cbn. rewrite Hp.
  destruct (String.eqb_spec (SavedSession.Username saved) username) as [E|E];
    [contradiction|reflexivity].
Qed.

Lemma Load_expired (username data : string) (saved : SavedSession.t)
  (w : World) :
  file w = Some data -> read_denied w = false ->
  jsonUnmarshalSaved X data = Some saved ->
  SavedSession.Username saved = username ->
  GoTime.After (clock w (ticks w)) (SavedSession.ExpiresAt saved) = true ->
  Load X username w
  = ((None, 0, None),
     if remove_denied w then setTicks w (S (ticks w))
     else setFile (setTicks w (S (ticks w))) None).
Proof.
  intros Hf Hr Hp Hu Ha. unfold Load, bind, ReadFile, ret.
  rewrite Hf, Hr. cbn. rewrite Hp.
  destruct (String.eqb_spec (SavedSession.Username saved) username) as [E|E];
    [|contradiction].
  cbn. rewrite Ha. unfold Delete, bind, Remove, ret. cbn. rewrite Hf.
  destruct (remove_denied w); reflexivity.
Qed.

Lemma Load_live (username data : string) (saved : SavedSession.t)
  (w : World) :
  file w = Some data -> read_denied w = false ->
  jsonUnmarshalSaved X data = Some saved ->
  SavedSession.Username saved = username ->
  GoTime.After (clock w (ticks w)) (SavedSession.ExpiresAt saved) = false ->
  Load X username w
  = ((SavedSession.Session saved,
      GoTime.Sub (SavedSession.ExpiresAt saved) (clock w (ticks w)), None),
     setTicks w (S (ticks w))).
Proof.
  intros Hf Hr Hp Hu Ha. unfold Load, bind, ReadFile, ret.
  rewrite Hf, Hr. cbn. rewrite Hp.
  destruct (String.eqb_spec (SavedSession.Username saved) username) as [E|E];
    [|contradiction].
  cbn. rewrite Ha. reflexivity.
Qed.

(** C10, as amended. [Load] removes the session file only when the
    stored session belongs to the requested identity and has expired; in
    every other case the file is as it was. When the stored identity is
    another one, [Load] returns no session and no error and leaves the
    whole world untouched. *)
Theorem Load_removes_only_own_expired_session :
  forall (username : string) (w : World),
    (file (snd (Load X username w)) = file w
     \/ (file (snd (Load X username w)) = None
         /\ exists data saved,
              file w = Some data
              /\ jsonUnmarshalSaved X data = Some saved
              /\ SavedSession.Username saved = username
              /\ GoTime.After (clock w (ticks w))
                   (SavedSession.ExpiresAt saved) = true))
    /\ (forall data saved,
          file w = Some data -> read_denied w = false ->
          jsonUnmarshalSaved X data = Some saved ->
          SavedSession.Username saved <> username ->
          Load X username w = ((None, 0, None), w)).
Proof.
  intros username w. split.
  - destruct (file w) as [data|] eqn:Hf.
    2:{ left. rewrite (Load_no_file username w Hf). exact Hf. }
    destruct (read_denied w) eqn:Hr.
    { left. rewrite (Load_unreadable username data w Hf Hr). exact Hf. }
    destruct (jsonUnmarshalSaved X data) as [saved|] eqn:Hp.
    2:{ left. rewrite (Load_unparsable username data w Hf Hr Hp). exact Hf. }
    destruct (String.eqb_spec (SavedSession.Username saved) username) as [E|E].
    2:{ left. rewrite (Load_other_identity username data saved w Hf Hr Hp E).
        exact Hf. }
    destruct (GoTime.After (clock w (ticks w)) (SavedSession.ExpiresAt saved))
      eqn:Ha.
    + rewrite (Load_expired username data saved w Hf Hr Hp E Ha).
      destruct (remove_denied w); cbn.
      * left. exact Hf.
      * right. split; [reflexivity|]. exists data, saved. auto.
    + left. rewrite (Load_live username data saved w Hf Hr Hp E Ha). exact Hf.
  - intros data saved Hf Hr Hp Hu.
    exact (Load_other_identity username data saved w Hf Hr Hp Hu).
Qed.

(** ** The orchestrator on a stored session *)

Lemma tryExistingSession_run (w w1 : World) (s : option Session.t)
  (t : GoTime.Duration) (err : option error) :
  Load X (Config.Username (config w)) w = ((s, t, err), w1) ->
  tryExistingSession X w
  = match err with
    | Some e => (print (MsgWarnLoad e) ;; ret (None, Some e)) w1
    | None =>
        match s with
        | None => ((None, None), w1)
        | Some savedSession =>
            if Config.ForceRefresh (config w) then
              handleSessionRefresh X savedSession (MsgForcingRefresh t) w1
            else if (t <? refreshThreshold X) && (0 <? t) then
              handleSessionRefresh X savedSession (MsgExpiresSoon t) w1
            else
              (valid <- VerifySession X (Config.APIURL (config w)) savedSession ;;
               if valid then
                 print (MsgUsingSaved t) ;;
                 ret (Some savedSession, None)
               else
                 print MsgSavedInvalid ;;
                 Delete ;;
                 ret (None, None)) w1
        end
    end.
Proof.
  intros HL. unfold tryExistingSession.
  unfold bind at 1. unfold getConfig at 1.
  unfold bind at 1. rewrite HL.
  destruct err as [e|]; [reflexivity|].
  destruct s as [savedSession|]; [|reflexivity].
  destruct (Config.ForceRefresh (config w)); [reflexivity|].
  destruct ((t <? refreshThreshold X) && (0 <? t)); reflexivity.
Qed.

Lemma handleExistingSession_run (w : World) :
  Config.ClearSession (config w) = false ->
  Config.NoSession (config w) = false ->
  handleExistingSession X w
  = (let (r, w1) := tryExistingSession X w in
     match r with
     | (Some session, None) => (Some session, w1)
     | _ => (None, w1)
     end).
Proof.
  intros Hc Hn. unfold handleExistingSession, bind, getConfig.
  rewrite Hc, Hn.
  destruct (tryExistingSession X w) as [[[s|] [e|]] w1]; reflexivity.
Qed.

Lemma Authenticate_run (w0 w : World) :
  ensureUsername w0 = (None, w) ->
  Authenticate X w0
  = (let (existing, w1) := handleExistingSession X w in
     match existing with
     | Some session => (Ok session, w1)
     | None => authenticateFresh X w1
     end).
Proof.
  intros Hu. unfold Authenticate. unfold bind at 1. rewrite Hu.
  unfold bind at 1.
  destruct (handleExistingSession X w) as [[s|] w1]; reflexivity.
Qed.

(** C8. A session file that does not parse gives no session at [Load],
    which returns nil for it next to the parse error;
    [tryExistingSession] prints that error as a warning,
    [handleExistingSession] reports no session, and [Authenticate] goes
    on with the fresh login: the run is not aborted. *)
Theorem unparsable_file_is_no_session :
  forall (w : World) (data : string),
    file w = Some data -> read_denied w = false ->
    jsonUnmarshalSaved X data = None ->
    Config.ClearSession (config w) = false ->
    Config.NoSession (config w) = false ->
    let e := ErrUnmarshalSession ErrJSON in
    let warned := setStdout w (stdout w ++ [MsgWarnLoad e]) in
    (forall username, Load X username w = ((None, 0, Some e), w))
    /\ tryExistingSession X w = ((None, Some e), warned)
    /\ handleExistingSession X w = (None, warned)
    /\ (forall w0, ensureUsername w0 = (None, w) ->
                   Authenticate X w0 = authenticateFresh X warned).
Proof.
  intros w data Hf Hr Hp Hc Hn e warned.
  assert (HL : forall username, Load X username w = ((None, 0, Some e), w))
    by (intros username; exact (Load_unparsable username data w Hf Hr Hp)).
  assert (HT : tryExistingSession X w = ((None, Some e), warned))
    by (rewrite (tryExistingSession_run w w None 0 (Some e) (HL _)); reflexivity).
  assert (HH : handleExistingSession X w = (None, warned))
    by (rewrite (handleExistingSession_run w Hc Hn), HT; reflexivity).
  repeat split; try assumption.
  intros w0 Hu. rewrite (Authenticate_run w0 w Hu), HH. reflexivity.
Qed.

Lemma Load_traffic (username : string) :
  follows (keeps traffic) (Load X username).
Proof. unfold Load, Delete. keeps_all. Qed.

Lemma Load_settings (username : string) :
  follows (keeps settings) (Load X username).
Proof. unfold Load, Delete. keeps_all. Qed.

(** When [Load] returns a session the file is there and is left as it
    is. *)
Lemma Load_session_keeps_file (username : string) (w w1 : World)
  (s : Session.t) (t : GoTime.Duration) (err : option error) :
  Load X username w = ((Some s, t, err), w1) ->
  file w1 = file w /\ exists data, file w = Some data.
Proof.
  intros HL.
  destruct (file w) as [data|] eqn:Hf.
  2:{ rewrite (Load_no_file username w Hf) in HL. discriminate. }
  destruct (read_denied w) eqn:Hr.
  { rewrite (Load_unreadable username data w Hf Hr) in HL. discriminate. }
  destruct (jsonUnmarshalSaved X data) as [saved|] eqn:Hp.
  2:{ rewrite (Load_unparsable username data w Hf Hr Hp) in HL. discriminate. }
  destruct (String.eqb_spec (SavedSession.Username saved) username) as [E|E].
  2:{ rewrite (Load_other_identity username data saved w Hf Hr Hp E) in HL.
      discriminate. }
  destruct (GoTime.After (clock w (ticks w)) (SavedSession.ExpiresAt saved))
    eqn:Ha.
  - rewrite (Load_expired username data saved w Hf Hr Hp E Ha) in HL.
    discriminate.
  - rewrite (Load_live username data saved w Hf Hr Hp E Ha) in HL.
    inversion HL; subst. split; [exact Hf|]. exists data. reflexivity.
Qed.

Lemma ensureUsername_stored : follows (keeps stored) ensureUsername.
Proof. unfold ensureUsername. keeps_all. Qed.

Lemma ensureUsername_traffic : follows (keeps traffic) ensureUsername.
Proof. unfold ensureUsername. keeps_all. Qed.

Lemma VerifySession_stored (apiURL : string) (s : Session.t) :
  follows (keeps stored) (VerifySession X apiURL s).
Proof. unfold VerifySession. keeps_all. Qed.

(** A session is found valid only after one GET of the list of
    servers. *)
Lemma VerifySession_true (apiURL : string) (s : Session.t) (w w' : World) :
  VerifySession X apiURL s w = (true, w') ->
  exists probe,
    sent w' = (sent w ++ [probe])%list
    /\ req_method probe = "GET"
    /\ req_url probe = apiURL ++ "/vpn/v1/logicals".
Proof.
  unfold VerifySession, NewRequest.
  destruct (urlParses X (apiURL ++ "/vpn/v1/logicals")); [|discriminate].
  unfold bind, Do, ret.
  destruct (remote w) as [|o rest]; [discriminate|].
  destruct o as [|status body]; [discriminate|].
  destruct (status =? 401); [discriminate|].
  intros H. injection H as _ Hw. rewrite <- Hw. cbn.
  eexists. split; [reflexivity|]. split; reflexivity.
Qed.

(** C7. A stored session that is loaded, with no forced refresh, at
    least the renewal threshold away from its expiry and found valid by
    [VerifySession], is returned as it is: the only request of the run is
    the GET of [VerifySession], nothing is saved, and the session file is
    byte for byte what it was. *)
Theorem valid_session_is_reused_untouched :
  forall (w0 w w1 w2 : World) (s : Session.t) (t : GoTime.Duration),
    ensureUsername w0 = (None, w) ->
    Config.ClearSession (config w) = false ->
    Config.NoSession (config w) = false ->
    Config.ForceRefresh (config w) = false ->
    Load X (Config.Username (config w)) w = ((Some s, t, None), w1) ->
    refreshThreshold X <= t ->
    VerifySession X (Config.APIURL (config w)) s w1 = (true, w2) ->
    let final := setStdout w2 (stdout w2 ++ [MsgUsingSaved t]) in
    Authenticate X w0 = (Ok s, final)
    /\ file final = file w0
    /\ exists probe,
         sent final = (sent w0 ++ [probe])%list
         /\ req_method probe = "GET"
         /\ req_url probe = Config.APIURL (config w) ++ "/vpn/v1/logicals".
Proof.
  intros w0 w w1 w2 s t Hu Hc Hn Hf HL Ht HV final.
  assert (HT : tryExistingSession X w = ((Some s, None), final)).
  { rewrite (tryExistingSession_run w w1 (Some s) t None HL), Hf.
    replace (t <? refreshThreshold X) with false
      by (symmetry; apply Z.ltb_ge; exact Ht).
    cbn [andb]. unfold bind at 1. rewrite HV. reflexivity. }
  split; [|split].
  - rewrite (Authenticate_run w0 w Hu), (handleExistingSession_run w Hc Hn), HT.
    reflexivity.
  - change (file final) with (file w2).
    rewrite (follows_run _ _ _ _ _ (VerifySession_stored _ s) HV : file w2 = file w1).
    rewrite (proj1 (Load_session_keeps_file _ _ _ _ _ _ HL)).
    exact (follows_run _ _ _ _ _ ensureUsername_stored Hu).
  - destruct (VerifySession_true _ _ _ _ HV) as (probe & Hs & Hm & Hurl).
    exists probe. split; [|split; assumption].
    change (sent final) with (sent w2). rewrite Hs.
    pose proof (follows_run _ _ _ _ _ (Load_traffic _) HL) as H1.
    pose proof (follows_run _ _ _ _ _ ensureUsername_traffic Hu) as H2.
    unfold keeps, traffic in H1, H2. inversion H1. inversion H2. congruence.
Qed.

(** ** A failed refresh *)

Lemma list_ascii_of_string_app (a b : string) :
  list_ascii_of_string (a ++ b)
  = (list_ascii_of_string a ++ list_ascii_of_string b)%list.
Proof.
  induction a as [|c a IH]; [reflexivity|].
  cbn. rewrite IH. reflexivity.
Qed.

Lemma tailBytes_app (n : nat) (a x : string) :
  (n <= String.length x)%nat -> tailBytes n (a ++ x) = tailBytes n x.
Proof.
  intros Hn. unfold tailBytes.
  rewrite list_ascii_of_string_app, rev_app_distr, firstn_app.
  replace (n - List.length (rev (list_ascii_of_string x)))%nat with 0%nat.
  - cbn. apply app_nil_r.
  - rewrite length_rev.
    assert (L : forall s, List.length (list_ascii_of_string s) = String.length s)
      by (induction s as [|c s IH]; cbn; [reflexivity | rewrite IH; reflexivity]).
    rewrite L. lia.
Qed.

(** The three requests of a fresh login are not refresh requests: the
    paths end differently. *)
Lemma not_refresh (r : Request) (a x : string) :
  req_url r = a ++ x ->
  (2 <= String.length x)%nat ->
  tailBytes 2 x <> tailBytes 2 "/auth/refresh" ->
  ~ isRefreshRequest r.
Proof.
  intros Hr Hl Hx [b Hb]. apply Hx.
  rewrite <- (tailBytes_app 2 a x Hl), <- Hr, Hb.
  apply tailBytes_app. cbn. lia.
Qed.

Lemma noRefresh_same (w w' : World) : sent w' = sent w -> noRefresh w w'.
Proof.
  intros H. exists []. split.
  - rewrite H. symmetry. apply app_nil_r.
  - constructor.
Qed.

Lemma noRefresh_Do (req : Request) :
  ~ isRefreshRequest req -> follows noRefresh (Do req).
Proof.
  intros Hreq w. exists [req]. split.
  - unfold Do. destruct (remote w); reflexivity.
  - constructor; [exact Hreq|constructor].
Qed.

(** A primitive that sends nothing. *)
Ltac silent_leaf :=
  let w := fresh "w" in
  intro w; apply noRefresh_same;
  cbv [print ReadString ReadPassword Now ReadFile WriteFile Remove
       getConfig generateSRPProofs];
  repeat match goal with
         | |- context [match ?x with _ => _ end] => destruct x
         end;
  reflexivity.

Ltac noRefresh_all :=
  repeat frame_step;
  try silent_leaf;
  try (apply noRefresh_Do; eapply not_refresh;
       [reflexivity | cbn; lia | discriminate]).

Lemma get2FACode_noRefresh : follows noRefresh get2FACode.
Proof. unfold get2FACode. noRefresh_all. Qed.

Lemma performFreshAuth_noRefresh : follows noRefresh (performFreshAuth X).
Proof.
  unfold performFreshAuth, getAuthInfo, addTwoFactorCode, sendAuthRequest,
    get2FACode, NewRequest.
  noRefresh_all.
Qed.

Lemma upgradeSessionIfNeeded_noRefresh (s : Session.t) :
  follows noRefresh (upgradeSessionIfNeeded X s).
Proof.
  unfold upgradeSessionIfNeeded, submit2FA, get2FACode, NewRequest.
  noRefresh_all.
Qed.

Lemma saveSessionIfEnabled_noRefresh (s : Session.t) :
  follows noRefresh (saveSessionIfEnabled X s).
Proof. unfold saveSessionIfEnabled, Save. noRefresh_all. Qed.

Lemma authenticateFresh_noRefresh : follows noRefresh (authenticateFresh X).
Proof.
  unfold authenticateFresh.
  repeat frame_step;
    first [ apply performFreshAuth_noRefresh
          | apply upgradeSessionIfNeeded_noRefresh
          | apply saveSessionIfEnabled_noRefresh
          | unfold ensurePassword; noRefresh_all ].
Qed.

Lemma RefreshSession_stored (apiURL : string) (s : Session.t) :
  follows (keeps stored) (RefreshSession X apiURL s).
Proof. unfold RefreshSession, NewRequest. keeps_all. Qed.

Lemma RefreshSession_settings (apiURL : string) (s : Session.t) :
  follows (keeps settings) (RefreshSession X apiURL s).
Proof. unfold RefreshSession, NewRequest. keeps_all. Qed.

(** A refresh sends at most one request. *)
Lemma RefreshSession_sends (apiURL : string) (s : Session.t) (w : World) :
  exists l,
    sent (snd (RefreshSession X apiURL s w)) = (sent w ++ l)%list
    /\ (List.length l <= 1)%nat.
Proof.
  unfold RefreshSession, NewRequest.
  destruct (urlParses X (apiURL ++ "/auth/refresh")).
  - unfold bind, Do. eexists [_]. split; [|cbn; lia].
    destruct (remote w) as [|o rest]; cbn.
    + reflexivity.
    + destruct o as [|status [body|]]; cbn; try reflexivity.
      destruct (status =? 200); cbn; [|reflexivity].
      destruct (jsonUnmarshalSession X body) as [session|]; [|reflexivity].
      destruct (IsSuccessCode (Session.Code session)); reflexivity.
  - exists []. split; [symmetry; apply app_nil_r|cbn; lia].
Qed.

(** What [handleSessionRefresh] does when the refresh fails: the
    messages, the removal of the file, no session. *)
Lemma handleSessionRefresh_failure (s : Session.t) (reason : Msg)
  (w w2 : World) (e : error) :
  RefreshSession X (Config.APIURL (config w)) s
    (setStdout w (stdout w ++ [reason])) = (Err e, w2) ->
  remove_denied w2 = false ->
  exists w3,
    handleSessionRefresh X s reason w = ((None, Some e), w3)
    /\ file w3 = None
    /\ sent w3 = sent w2
    /\ settings w3 = settings w2.
Proof.
  intros HR Hrm. unfold handleSessionRefresh.
  unfold bind at 1. unfold print at 1. unfold bind at 1. unfold getConfig at 1.
  cbn [config setStdout]. unfold bind at 1. rewrite HR.
  unfold Delete, Remove, bind, print, ret. cbn.
  destruct (file w2) eqn:Hf; cbn.
  - rewrite Hrm. cbn. eexists. split; [reflexivity|]. cbn. auto.
  - eexists. split; [reflexivity|]. cbn. auto.
Qed.

(** ** What a successful fresh login leaves in the file *)

Lemma Save_persists (s : Session.t) (username : string)
  (d : GoTime.Duration) (w : World) :
  write_denied w = false ->
  (forall saved, jsonMarshalSaved X saved <> None) ->
  exists saved data,
    fst (Save X s username d w) = None
    /\ file (snd (Save X s username d w)) = Some data
    /\ jsonMarshalSaved X saved = Some data
    /\ SavedSession.Session saved = Some s
    /\ SavedSession.Username saved = username.
Proof.
  intros Hw Hm.
  assert (Hend : forall saved w1, write_denied w1 = false ->
    exists data,
      fst (match jsonMarshalSaved X saved with
           | None => ret (Some ErrMarshalSession)
           | Some data =>
               bind (WriteFile data) (fun err =>
                 match err with
                 | Some e => ret (Some (ErrWriteSessionFile e))
                 | None => ret None
                 end)
           end w1) = None
      /\ file (snd (match jsonMarshalSaved X saved with
                    | None => ret (Some ErrMarshalSession)
                    | Some data =>
                        bind (WriteFile data) (fun err =>
                          match err with
                          | Some e => ret (Some (ErrWriteSessionFile e))
                          | None => ret None
                          end)
                    end w1)) = Some data
      /\ jsonMarshalSaved X saved = Some data).
  { intros saved w1 Hw1.
    destruct (Save_writes saved w1) as [_ H].
    destruct (jsonMarshalSaved X saved) as [data|] eqn:E.
    - exists data. destruct (H data eq_refl Hw1) as [H1 H2]. auto.
    - destruct (Hm saved E). }
  unfold Save, Now, bind, ret.
  cbn -[WriteFile GoTime.After GoTime.Add GoTime.mul].
  destruct (d =? 0).
  - eexists (SavedSession.mk (Some s) username _ _).
    destruct (Hend (SavedSession.mk (Some s) username (clock w (ticks w))
                 (GoTime.Add (clock w (S (ticks w)))
                    (GoTime.mul (Session.ExpiresIn s) GoTime.Second)))
                (setTicks (setTicks w (S (ticks w))) (S (S (ticks w)))) Hw)
      as (data & H1 & H2 & H3).
    exists data. repeat split; eassumption.
  - cbn -[WriteFile GoTime.After GoTime.Add GoTime.mul].
    destruct (GoTime.After _ _).
    + eexists (SavedSession.mk (Some s) username _ _).
      destruct (Hend (SavedSession.mk (Some s) username (clock w (ticks w))
                   (GoTime.Add (clock w (S (ticks w)))
                      (GoTime.mul (Session.ExpiresIn s) GoTime.Second)))
                  (setTicks (setTicks (setTicks w (S (ticks w)))
                               (S (S (ticks w)))) (S (S (S (ticks w))))) Hw)
        as (data & H1 & H2 & H3).
      exists data. repeat split; eassumption.
    + eexists (SavedSession.mk (Some s) username _ _).
      destruct (Hend (SavedSession.mk (Some s) username (clock w (ticks w))
                   (GoTime.Add (clock w (S (S (ticks w)))) d))
                  (setTicks (setTicks (setTicks w (S (ticks w)))
                               (S (S (ticks w)))) (S (S (S (ticks w))))) Hw)
        as (data & H1 & H2 & H3).
      exists data. repeat split; eassumption.
Qed.

Lemma saveSessionIfEnabled_persists (s : Session.t) (w : World) :
  Config.NoSession (config w) = false ->
  write_denied w = false ->
  (forall saved, jsonMarshalSaved X saved <> None) ->
  exists saved data,
    file (snd (saveSessionIfEnabled X s w)) = Some data
    /\ jsonMarshalSaved X saved = Some data
    /\ SavedSession.Session saved = Some s
    /\ SavedSession.Username saved = Config.Username (config w).
Proof.
  intros Hn Hw Hm. unfold saveSessionIfEnabled.
  unfold bind at 1. unfold getConfig at 1. rewrite Hn.
  destruct (ParseSessionDuration X (Config.SessionDuration (config w)))
    as [parsed [e|]].
  - unfold bind at 1. unfold bind at 1. unfold print at 1. unfold ret at 1.
    unfold bind at 1.
    destruct (Save_persists s (Config.Username (config w)) 0
                (setStdout w (stdout w ++ [MsgWarnDuration e])) Hw Hm)
      as (saved & data & H1 & H2 & H3 & H4 & H5).
    destruct (Save X s (Config.Username (config w)) 0
                (setStdout w (stdout w ++ [MsgWarnDuration e]))) as [r w1].
    cbn in H1, H2. subst r. exists saved, data. cbn. auto.
  - unfold bind at 1. unfold ret at 1. unfold bind at 1.
    destruct (Save_persists s (Config.Username (config w)) parsed w Hw Hm)
      as (saved & data & H1 & H2 & H3 & H4 & H5).
    destruct (Save X s (Config.Username (config w)) parsed w) as [r w1].
    cbn in H1, H2. subst r. exists saved, data. cbn. auto.
Qed.

Lemma settings_eq (w w' : World) :
  settings w' = settings w ->
  Config.Username (config w') = Config.Username (config w)
  /\ Config.NoSession (config w') = Config.NoSession (config w)
  /\ Config.APIURL (config w') = Config.APIURL (config w)
  /\ write_denied w' = write_denied w
  /\ remove_denied w' = remove_denied w.
Proof. unfold settings. intros H. inversion H. auto. Qed.

Lemma authenticateFresh_persists (w final : World) (s : Session.t) :
  authenticateFresh X w = (Ok s, final) ->
  Config.NoSession (config w) = false ->
  write_denied w = false ->
  (forall saved, jsonMarshalSaved X saved <> None) ->
  exists saved data,
    file final = Some data
    /\ jsonMarshalSaved X saved = Some data
    /\ SavedSession.Session saved = Some s
    /\ SavedSession.Username saved = Config.Username (config w).
Proof.
  intros HA Hn Hw Hm. unfold authenticateFresh in HA.
  unfold bind at 1 in HA.
  destruct (ensurePassword w) as [[e1|] wa] eqn:E1; [discriminate|].
  unfold bind at 1 in HA.
  destruct (performFreshAuth X wa) as [[s1|e2] wb] eqn:E2; [|discriminate].
  unfold bind at 1 in HA.
  destruct (upgradeSessionIfNeeded X s1 wb) as [[s2 [e3|]] wc] eqn:E3;
    [discriminate|].
  unfold bind at 1 in HA.
  pose proof (follows_run _ _ _ _ _ ensurePassword_settings E1) as S1.
  pose proof (follows_run _ _ _ _ _ performFreshAuth_settings E2) as S2.
  pose proof (follows_run _ _ _ _ _ (upgradeSessionIfNeeded_settings s1) E3) as S3.
  apply settings_eq in S1, S2, S3.
  destruct (saveSessionIfEnabled_persists s2 wc) as (saved & data & H1 & H2 & H3 & H4);
    [ intuition congruence | intuition congruence | exact Hm | ].
  destruct (saveSessionIfEnabled X s2 wc) as [[] wd].
  cbn in HA, H1. inversion HA; subst.
  exists saved, data. repeat split; try assumption.
  rewrite H4. intuition congruence.
Qed.

(** C4. When a stored session is loaded, a refresh is due (forced, or
    the time until expiry positive and below the renewal threshold) and
    the refresh fails, the session file is removed, at most one request
    (the failed refresh) has been sent, and the run goes on with the fresh
    login, which sends no refresh request; when that login succeeds (and
    the file can be encoded and written) the file holds the new session,
    saved for the same identity. *)
Theorem failed_refresh_falls_back_to_fresh_login :
  forall (w0 w w1 w2 : World) (s : Session.t) (t : GoTime.Duration)
         (e : error),
    ensureUsername w0 = (None, w) ->
    Config.ClearSession (config w) = false ->
    Config.NoSession (config w) = false ->
    Load X (Config.Username (config w)) w = ((Some s, t, None), w1) ->
    Config.ForceRefresh (config w) = true \/ 0 < t < refreshThreshold X ->
    let reason :=
      if Config.ForceRefresh (config w) then MsgForcingRefresh t
      else MsgExpiresSoon t in
    RefreshSession X (Config.APIURL (config w)) s
      (setStdout w1 (stdout w1 ++ [reason])) = (Err e, w2) ->
    remove_denied w = false ->
    let fallen := snd (handleExistingSession X w) in
    fst (handleExistingSession X w) = None
    /\ file fallen = None
    /\ (exists l, sent fallen = (sent w ++ l)%list /\ (List.length l <= 1)%nat)
    /\ Authenticate X w0 = authenticateFresh X fallen
    /\ noRefresh fallen (snd (authenticateFresh X fallen))
    /\ (forall s' final,
          authenticateFresh X fallen = (Ok s', final) ->
          write_denied w = false ->
          (forall saved, jsonMarshalSaved X saved <> None) ->
          exists saved data,
            file final = Some data
            /\ jsonMarshalSaved X saved = Some data
            /\ SavedSession.Session saved = Some s'
            /\ SavedSession.Username saved = Config.Username (config w)).
Proof.
  intros w0 w w1 w2 s t e Hu Hc Hn HL Hdue reason HR Hrm fallen.
  pose proof (follows_run _ _ _ _ _ (Load_settings _) HL) as SL.
  pose proof (follows_run _ _ _ _ _ (Load_traffic _) HL) as TL.
  apply settings_eq in SL. destruct SL as (SLu & SLn & SLa & SLw & SLr).
  assert (HT : tryExistingSession X w = handleSessionRefresh X s reason w1).
  { rewrite (tryExistingSession_run w w1 (Some s) t None HL). unfold reason.
    destruct (Config.ForceRefresh (config w)); [reflexivity|].
    destruct Hdue as [Hd|[Hd1 Hd2]]; [discriminate|].
    replace (t <? refreshThreshold X) with true
      by (symmetry; apply Z.ltb_lt; exact Hd2).
    replace (0 <? t) with true by (symmetry; apply Z.ltb_lt; exact Hd1).
    reflexivity. }
  rewrite <- SLa in HR.
  pose proof (follows_run _ _ _ _ _ (RefreshSession_settings _ _) HR) as SR.
  apply settings_eq in SR. cbn [config setStdout write_denied remove_denied] in SR.
  destruct SR as (SRu & SRn & SRa & SRw & SRr).
  destruct (handleSessionRefresh_failure s reason w1 w2 e HR)
    as (w3 & F1 & F2 & F3 & F4); [congruence|].
  apply settings_eq in F4. destruct F4 as (F4u & F4n & F4a & F4w & F4r).
  assert (HH : handleExistingSession X w = (None, w3))
    by (rewrite (handleExistingSession_run w Hc Hn), HT, F1; reflexivity).
  subst fallen. rewrite HH. cbn [fst snd].
  split; [reflexivity|].
  split; [exact F2|].
  split.
  { destruct (RefreshSession_sends (Config.APIURL (config w1)) s
                (setStdout w1 (stdout w1 ++ [reason]))) as (l & Hl & Hlen).
    rewrite HR in Hl. cbn in Hl.
    exists l. split; [|exact Hlen].
    rewrite F3, Hl. unfold keeps, traffic in TL. inversion TL.
    congruence. }
  split; [rewrite (Authenticate_run w0 w Hu), HH; reflexivity|].
  split; [apply authenticateFresh_noRefresh|].
  intros s' final HA Hw Hm.
  destruct (authenticateFresh_persists w3 final s' HA) as (saved & data & P);
    [congruence | congruence | exact Hm |].
  exists saved, data. intuition congruence.
Qed.

(** ** The fresh login *)

Lemma getAuthInfo_stored : follows (keeps stored) (getAuthInfo X).
Proof. unfold getAuthInfo, NewRequest. keeps_all. Qed.

Lemma addTwoFactorCode_stored (ai : AuthInfo.t) (req : list (string * jvalue)) :
  follows (keeps stored) (addTwoFactorCode ai req).
Proof. unfold addTwoFactorCode, get2FACode. keeps_all. Qed.

Lemma sendAuthRequest_stored (req : list (string * jvalue)) :
  follows (keeps stored) (sendAuthRequest X req).
Proof. unfold sendAuthRequest, NewRequest. keeps_all. Qed.

Lemma generateSRPProofs_world (ai : AuthInfo.t) (w w' : World)
  (r : result Proofs.t) :
  generateSRPProofs ai w = (r, w') -> w' = w.
Proof.
  unfold generateSRPProofs.
  destruct (srp w _ _ _ _ _ _); intros H; inversion H; reflexivity.
Qed.

(** C1. When the remote party answers the login with a session whose
    server proof is not the base64 text of the expected server proof,
    [performFreshAuth] fails with "server proof verification failed";
    [Authenticate] returns that error and no session, and the session
    file is what it was before the login: nothing was saved. *)
Theorem server_proof_mismatch_fails_the_run :
  forall (w0 wa wb w w1 w2 w3 w4 : World) (authInfo : AuthInfo.t)
         (clientProofs : Proofs.t) (authReq : list (string * jvalue))
         (session : Session.t),
    ensureUsername w0 = (None, wa) ->
    handleExistingSession X wa = (None, wb) ->
    ensurePassword wb = (None, w) ->
    getAuthInfo X w = (Ok authInfo, w1) ->
    generateSRPProofs authInfo w1 = (Ok clientProofs, w2) ->
    addTwoFactorCode authInfo
      (buildAuthRequest (config w2) authInfo clientProofs) w2
    = (Ok authReq, w3) ->
    sendAuthRequest X authReq w3 = (Ok session, w4) ->
    Session.ServerProof session
    <> GoStrings.EncodeToString (Proofs.ExpectedServerProof clientProofs) ->
    performFreshAuth X w = (Err ErrServerProof, w4)
    /\ Authenticate X w0 = (Err ErrServerProof, w4)
    /\ file w4 = file wb.
Proof.
  intros w0 wa wb w w1 w2 w3 w4 authInfo clientProofs authReq session
         Hu He Hp Hi Hs Ht Ha Hneq.
  assert (HP : performFreshAuth X w = (Err ErrServerProof, w4)).
  { unfold performFreshAuth.
    rewrite (run_bind _ _ _ _ _ Hi).
    rewrite (run_bind _ _ _ _ _ Hs).
    unfold bind at 1. unfold getConfig at 1.
    rewrite (run_bind _ _ _ _ _ Ht).
    rewrite (run_bind _ _ _ _ _ Ha).
    destruct (String.eqb_spec (Session.ServerProof session)
                (GoStrings.EncodeToString
                   (Proofs.ExpectedServerProof clientProofs))) as [E|E];
      [contradiction|reflexivity]. }
  split; [exact HP|]. split.
  - rewrite (Authenticate_run w0 wa Hu), He.
    unfold authenticateFresh.
    rewrite (run_bind _ _ _ _ _ Hp).
    rewrite (run_bind _ _ _ _ _ HP). reflexivity.
  - pose proof (follows_run _ _ _ _ _ ensurePassword_stored Hp) as F1.
    pose proof (follows_run _ _ _ _ _ getAuthInfo_stored Hi) as F2.
    pose proof (generateSRPProofs_world _ _ _ _ Hs) as F3.
    pose proof (follows_run _ _ _ _ _ (addTwoFactorCode_stored _ _) Ht) as F4.
    pose proof (follows_run _ _ _ _ _ (sendAuthRequest_stored _) Ha) as F5.
    unfold keeps, stored in *. subst w2. congruence.
Qed.

(** ** The scope upgrade *)

Lemma scanScopes_spec (scopes : list string) (v t : bool) :
  (fst (scanScopes scopes v t) = true <-> v = true \/ In "vpn" scopes)
  /\ (snd (scanScopes scopes v t) = true <-> t = true \/ In "twofactor" scopes).
Proof.
  revert v t. induction scopes as [|scope rest IH]; intros v t; cbn [scanScopes].
  - cbn. tauto.
  - destruct (String.eqb_spec scope "vpn") as [E|E].
    + subst scope. destruct (IH true t) as [I1 I2]. split.
      * rewrite I1. cbn. tauto.
      * rewrite I2. cbn. intuition discriminate.
    + destruct (String.eqb_spec scope "twofactor") as [E2|E2].
      * subst scope. destruct (IH v true) as [I1 I2]. split.
        -- rewrite I1. cbn. intuition discriminate.
        -- rewrite I2. cbn. tauto.
      * destruct (IH v t) as [I1 I2]. split.
        -- rewrite I1. cbn. intuition congruence.
        -- rewrite I2. cbn. intuition congruence.
Qed.

Lemma checkSessionScopes_spec (s : Session.t) :
  (fst (checkSessionScopes s) = true <-> In "vpn" (Session.Scopes s))
  /\ (snd (checkSessionScopes s) = true <-> In "twofactor" (Session.Scopes s)).
Proof.
  unfold checkSessionScopes.
  destruct (scanScopes_spec (Session.Scopes s) false false) as [H1 H2].
  split; [rewrite H1|rewrite H2]; intuition discriminate.
Qed.

Lemma checkSessionScopes_upgrade (s : Session.t) :
  In "twofactor" (Session.Scopes s) -> ~ In "vpn" (Session.Scopes s) ->
  checkSessionScopes s = (false, true).
Proof.
  intros Ht Hv. destruct (checkSessionScopes_spec s) as [H1 H2].
  destruct (checkSessionScopes s) as [[|] [|]]; cbn in *.
  - destruct Hv. apply H1. reflexivity.
  - destruct Hv. apply H1. reflexivity.
  - reflexivity.
  - apply H2 in Ht. discriminate.
Qed.

Lemma checkSessionScopes_skip (s : Session.t) :
  In "vpn" (Session.Scopes s) \/ ~ In "twofactor" (Session.Scopes s) ->
  let (hasVPN, hasTwoFactor) := checkSessionScopes s in
  hasVPN || negb hasTwoFactor = true.
Proof.
  intros H. destruct (checkSessionScopes_spec s) as [H1 H2].
  destruct (checkSessionScopes s) as [[|] [|]]; cbn in *; try reflexivity.
  destruct H as [H|H].
  - apply H1 in H. discriminate.
  - destruct H. apply H2. reflexivity.
Qed.

(** C3, as amended. The scope upgrade belongs to the fresh login only.
    A session that [handleExistingSession] hands over (reused or
    refreshed) is returned as it is, its scopes not looked at. After a
    fresh login: with the VPN scope present or the second-factor scope
    absent the upgrade is skipped; with the second-factor scope and
    without the VPN scope a code is asked for and submitted, and the
    scopes of the session become the returned ones; when the code or the
    submission fails the run fails with that error and nothing is saved. *)
Theorem scope_upgrade_after_fresh_login_only :
  (forall (w0 w w1 : World) (s : Session.t),
      ensureUsername w0 = (None, w) ->
      handleExistingSession X w = (Some s, w1) ->
      Authenticate X w0 = (Ok s, w1))
  /\ (forall (s : Session.t) (w : World),
        In "vpn" (Session.Scopes s) \/ ~ In "twofactor" (Session.Scopes s) ->
        upgradeSessionIfNeeded X s w = ((s, None), w))
  /\ (forall (s : Session.t) (w w1 w2 : World) (code : string)
             (updatedScopes : list string),
        In "twofactor" (Session.Scopes s) -> ~ In "vpn" (Session.Scopes s) ->
        get2FACode (setStdout w (stdout w ++ [MsgLacksVPNScope])) = (Ok code, w1) ->
        submit2FA X s code w1 = (Ok updatedScopes, w2) ->
        upgradeSessionIfNeeded X s w
        = ((Session.setScopes s updatedScopes, None),
           setStdout w2 (stdout w2 ++ [Msg2FAVerified])))
  /\ (forall (s : Session.t) (w w1 : World) (e : error),
        In "twofactor" (Session.Scopes s) -> ~ In "vpn" (Session.Scopes s) ->
        get2FACode (setStdout w (stdout w ++ [MsgLacksVPNScope])) = (Err e, w1) ->
        upgradeSessionIfNeeded X s w = ((s, Some (ErrGet2FACode e)), w1))
  /\ (forall (s : Session.t) (w w1 w2 : World) (code : string) (e : error),
        In "twofactor" (Session.Scopes s) -> ~ In "vpn" (Session.Scopes s) ->
        get2FACode (setStdout w (stdout w ++ [MsgLacksVPNScope])) = (Ok code, w1) ->
        submit2FA X s code w1 = (Err e, w2) ->
        upgradeSessionIfNeeded X s w = ((s, Some (Err2FAVerification e)), w2))
  /\ (forall (w wa wb wc : World) (s s' : Session.t) (e : error),
        ensurePassword w = (None, wa) ->
        performFreshAuth X wa = (Ok s, wb) ->
        upgradeSessionIfNeeded X s wb = ((s', Some e), wc) ->
        authenticateFresh X w = (Err e, wc) /\ file wc = file w).
Proof.
  split; [|split; [|split; [|split; [|split]]]].
  - intros w0 w w1 s Hu Hh.
    rewrite (Authenticate_run w0 w Hu), Hh. reflexivity.
  - intros s w H. unfold upgradeSessionIfNeeded.
    pose proof (checkSessionScopes_skip s H) as K.
    destruct (checkSessionScopes s) as [v t]. rewrite K. reflexivity.
  - intros s w w1 w2 code updatedScopes Ht Hv Hc Hs.
    unfold upgradeSessionIfNeeded.
    rewrite (checkSessionScopes_upgrade s Ht Hv). cbn [orb negb].
    unfold bind at 1. unfold print at 1.
    rewrite (run_bind _ _ _ _ _ Hc).
    rewrite (run_bind _ _ _ _ _ Hs). reflexivity.
  - intros s w w1 e Ht Hv Hc.
    unfold upgradeSessionIfNeeded.
    rewrite (checkSessionScopes_upgrade s Ht Hv). cbn [orb negb].
    unfold bind at 1. unfold print at 1.
    rewrite (run_bind _ _ _ _ _ Hc). reflexivity.
  - intros s w w1 w2 code e Ht Hv Hc Hs.
    unfold upgradeSessionIfNeeded.
    rewrite (checkSessionScopes_upgrade s Ht Hv). cbn [orb negb].
    unfold bind at 1. unfold print at 1.
    rewrite (run_bind _ _ _ _ _ Hc).
    rewrite (run_bind _ _ _ _ _ Hs). reflexivity.
  - intros w wa wb wc s s' e Hp Hf Hg. split.
    + unfold authenticateFresh.
      rewrite (run_bind _ _ _ _ _ Hp).
      rewrite (run_bind _ _ _ _ _ Hf).
      rewrite (run_bind _ _ _ _ _ Hg). reflexivity.
    + pose proof (follows_run _ _ _ _ _ ensurePassword_stored Hp) as F1.
      pose proof (follows_run _ _ _ _ _ performFreshAuth_stored Hf) as F2.
      pose proof (follows_run _ _ _ _ _ (upgradeSessionIfNeeded_stored s) Hg) as F3.
      unfold keeps, stored in *. congruence.
Qed.

(** ** The status codes *)

(** C5, as amended. Of the four operations only the refresh goes through
    [IsSuccessCode] and takes both 1000 and 1001 for success; the login
    operations compare with [CodeSuccess] and take 1000 alone. For a
    response of status 200 whose body decodes: [RefreshSession] returns a
    session exactly when the code is 1000 or 1001; [sendAuthRequest] and
    [submit2FA] succeed exactly when it is 1000; [getAuthInfo] fails on
    1001 with the error that carries the code, and succeeds on 1000 when
    modulus and server ephemeral are not empty. *)
Theorem multi_status_is_success_for_refresh_only :
  (forall (apiURL body : string) (old session : Session.t) (w : World)
          (rest : list HttpOutcome),
      urlParses X (apiURL ++ "/auth/refresh") = true ->
      remote w = Response 200 (Some body) :: rest ->
      jsonUnmarshalSession X body = Some session ->
      (fst (RefreshSession X apiURL old w) = Ok session
       <-> Session.Code session = 1000 \/ Session.Code session = 1001)
      /\ (forall s', fst (RefreshSession X apiURL old w) = Ok s' -> s' = session))
  /\ (forall (authReq : list (string * jvalue)) (body : string)
             (session : Session.t) (w : World) (rest : list HttpOutcome),
        urlParses X (Config.APIURL (config w) ++ "/core/v4/auth") = true ->
        remote w = Response 200 (Some body) :: rest ->
        jsonUnmarshalSession X body = Some session ->
        (fst (sendAuthRequest X authReq w) = Ok session
         <-> Session.Code session = 1000)
        /\ (Session.Code session = 1001 ->
            fst (sendAuthRequest X authReq w) = Err (AuthError 1001)))
  /\ (forall (s : Session.t) (code body : string) (resp : TwoFAResp)
             (w : World) (rest : list HttpOutcome),
        urlParses X (Config.APIURL (config w) ++ "/core/v4/auth/2fa") = true ->
        remote w = Response 200 (Some body) :: rest ->
        jsonUnmarshalTwoFA X body = Some resp ->
        (fst (submit2FA X s code w) = Ok (twofa_Scopes resp)
         <-> twofa_Code resp = 1000)
        /\ (twofa_Code resp = 1001 ->
            exists e, fst (submit2FA X s code w) = Err e))
  /\ (forall (body : string) (authInfo : AuthInfo.t) (w : World)
             (rest : list HttpOutcome),
        urlParses X (Config.APIURL (config w) ++ "/core/v4/auth/info") = true ->
        remote w = Response 200 (Some body) :: rest ->
        jsonUnmarshalAuthInfo X body = Some authInfo ->
        (fst (getAuthInfo X w) = Ok authInfo -> AuthInfo.Code authInfo = 1000)
        /\ (AuthInfo.Code authInfo = 1000 ->
            AuthInfo.Modulus authInfo <> "" ->
            AuthInfo.ServerEphemeral authInfo <> "" ->
            fst (getAuthInfo X w) = Ok authInfo)
        /\ (AuthInfo.Code authInfo = 1001 ->
            fst (getAuthInfo X w) = Err (ErrAuthInfoCode 1001))).
Proof.
  split; [|split; [|split]].
  - intros apiURL body old session w rest Hurl Hrem Hdec.
    unfold RefreshSession, NewRequest. rewrite Hurl.
    unfold bind, Do, ret. rewrite Hrem. cbn. rewrite Hdec.
    unfold IsSuccessCode, APICodeSuccess, APICodeMultiStatus.
    destruct (Z.eqb_spec (Session.Code session) 1000) as [E0|E0]; cbn.
    + split; [split; [intros _; left; exact E0 | reflexivity]|].
      intros s' H. inversion H. reflexivity.
    + destruct (Z.eqb_spec (Session.Code session) 1001) as [E1|E1]; cbn.
      * split; [split; [intros _; right; exact E1 | reflexivity]|].
        intros s' H. inversion H. reflexivity.
      * split; [split; [discriminate | intros [H|H]; contradiction]|].
        intros s' H. discriminate.
  - intros authReq body session w rest Hurl Hrem Hdec.
    unfold sendAuthRequest, NewRequest, bind, getConfig. rewrite Hurl.
    unfold Do, ret. rewrite Hrem. cbn. rewrite Hdec.
    unfold CodeMailboxPasswordError, CodeSuccess, APICodeSuccess, NewError.
    destruct (Z.eqb_spec (Session.Code session) 10013) as [E0|E0]; cbn.
    + split; [split; [discriminate | intros H; lia]|]. intros H; lia.
    + destruct (Z.eqb_spec (Session.Code session) 1000) as [E1|E1]; cbn.
      * split; [split; [intros _; exact E1 | reflexivity]|]. intros H; lia.
      * split; [split; [discriminate | intros H; contradiction]|].
        intros H. rewrite H. reflexivity.
  - intros s code body resp w rest Hurl Hrem Hdec.
    unfold submit2FA, NewRequest, bind, getConfig. rewrite Hurl.
    unfold Do, ret. rewrite Hrem. cbn. rewrite Hdec.
    unfold CodeSuccess, APICodeSuccess, NewError.
    destruct (Z.eqb_spec (twofa_Code resp) 1000) as [E1|E1]; cbn.
    + split; [split; [intros _; exact E1 | reflexivity] | intros H; lia].
    + destruct (negb (twofa_Error resp =? "")%string); cbn;
        (split; [split; [discriminate | intros H; contradiction]
                | intros _; eexists; reflexivity]).
  - intros body authInfo w rest Hurl Hrem Hdec.
    unfold getAuthInfo, NewRequest, bind, getConfig. rewrite Hurl.
    unfold Do, ret. rewrite Hrem. cbn. rewrite Hdec.
    unfold CodeSuccess, APICodeSuccess.
    destruct (Z.eqb_spec (AuthInfo.Code authInfo) 1000) as [E1|E1]; cbn.
    + split; [intros _; exact E1|]. split; [|intros H; lia].
      intros _ Hm Hs.
      destruct (String.eqb_spec (AuthInfo.Modulus authInfo) ""); [contradiction|].
      destruct (String.eqb_spec (AuthInfo.ServerEphemeral authInfo) "");
        [contradiction|reflexivity].
    + split; [discriminate|]. split; [intros H; contradiction|].
      intros H. rewrite H. reflexivity.
Qed.

(** ** The credentials *)

(** C6, as amended. A second-factor code is checked on the spot, with no
    request sent: after trimming white space it must be non-empty and all
    digits; nothing is asked of its length. An empty code and a code with
    a byte that is not a digit are rejected; every other code, of any
    length, is accepted. A rejected code ends the scope upgrade and the
    login before the request that would carry it. *)
Theorem second_factor_code_checked_locally :
  (forall w : World, traffic (snd (get2FACode w)) = traffic w)
  /\ (forall (w : World) (raw : string) (rest : list string),
        stdin w = raw :: rest ->
        let code := GoStrings.TrimSpace (raw ++ newline) in
        (code = "" -> fst (get2FACode w) = Err Err2FACodeEmpty)
        /\ (code <> "" -> GoStrings.allDigits code = false ->
            fst (get2FACode w) = Err Err2FACodeNotNumeric)
        /\ (code <> "" -> GoStrings.allDigits code = true ->
            fst (get2FACode w) = Ok code))
  /\ (forall (w : World) (code : string),
        fst (get2FACode w) = Ok code ->
        code <> "" /\ GoStrings.allDigits code = true)
  /\ (forall (s : Session.t) (w w1 : World) (e : error),
        In "twofactor" (Session.Scopes s) -> ~ In "vpn" (Session.Scopes s) ->
        get2FACode (setStdout w (stdout w ++ [MsgLacksVPNScope])) = (Err e, w1) ->
        snd (fst (upgradeSessionIfNeeded X s w)) = Some (ErrGet2FACode e)
        /\ traffic (snd (upgradeSessionIfNeeded X s w)) = traffic w)
  /\ (forall (w w1 w2 w3 : World) (authInfo : AuthInfo.t)
             (clientProofs : Proofs.t) (e : error),
        getAuthInfo X w = (Ok authInfo, w1) ->
        generateSRPProofs authInfo w1 = (Ok clientProofs, w2) ->
        AuthInfo.TwoFAEnabled authInfo = 1 ->
        AuthInfo.TwoFATOTP authInfo = 1 ->
        get2FACode w2 = (Err e, w3) ->
        performFreshAuth X w = (Err e, w3)
        /\ traffic w3 = traffic w1).
Proof.
  split; [|split; [|split; [|split]]].
  - intros w. exact (get2FACode_traffic w).
  - intros w raw rest Hin code. subst code.
    unfold get2FACode, bind, print, ReadString, ret. cbn. rewrite Hin.
    destruct (String.eqb_spec (GoStrings.TrimSpace (raw ++ newline)) "") as [E|E].
    + split; [reflexivity|]. split; intros H; contradiction.
    + split; [intros H; contradiction|].
      split; intros _ H; rewrite H; reflexivity.
  - intros w code. unfold get2FACode, bind, print, ReadString, ret. cbn.
    destruct (stdin w) as [|raw rest]; [discriminate|].
    destruct (String.eqb_spec (GoStrings.TrimSpace (raw ++ newline)) "")
      as [E|E]; [discriminate|].
    destruct (GoStrings.allDigits (GoStrings.TrimSpace (raw ++ newline))) eqn:D;
      [|discriminate].
    cbn. intros H. inversion H. subst code. split; assumption.
  - intros s w w1 e Ht Hv Hc.
    assert (HU : upgradeSessionIfNeeded X s w = ((s, Some (ErrGet2FACode e)), w1)).
    { unfold upgradeSessionIfNeeded.
      rewrite (checkSessionScopes_upgrade s Ht Hv). cbn [orb negb].
      unfold bind at 1. unfold print at 1.
      rewrite (run_bind _ _ _ _ _ Hc). reflexivity. }
    rewrite HU. split; [reflexivity|].
    exact (follows_run _ _ _ _ _ get2FACode_traffic Hc).
  - intros w w1 w2 w3 authInfo clientProofs e Hi Hs He Ht Hc. split.
    + unfold performFreshAuth.
      rewrite (run_bind _ _ _ _ _ Hi).
      rewrite (run_bind _ _ _ _ _ Hs).
      unfold bind at 1. unfold getConfig at 1.
      unfold addTwoFactorCode. rewrite He, Ht. cbn [Z.eqb EnabledTrue andb].
      unfold EnabledTrue. cbn [Z.eqb Pos.eqb andb].
      unfold bind at 1. rewrite (run_bind _ _ _ _ _ Hc). reflexivity.
    + pose proof (generateSRPProofs_world _ _ _ _ Hs). subst w2.
      exact (follows_run _ _ _ _ _ get2FACode_traffic Hc).
Qed.

(** C9, as amended. An empty identity after the prompt is a fatal
    input error, raised before any request is sent. An empty secret is
    not checked: a secret passed in is left alone; when none was passed
    in, what the masked prompt reads becomes the secret, whatever it is,
    the empty string included, and only a failed read is an error. *)
Theorem empty_identity_is_fatal_empty_secret_is_not :
  (forall (w : World) (raw : string) (rest : list string),
      Config.Username (config w) = "" ->
      stdin w = raw :: rest ->
      GoStrings.TrimSpace (raw ++ newline) = "" ->
      fst (Authenticate X w) = Err ErrUsernameEmpty
      /\ traffic (snd (Authenticate X w)) = traffic w)
  /\ (forall w : World,
        Config.Password (config w) <> "" -> ensurePassword w = (None, w))
  /\ (forall (w : World) (raw : string) (rest : list string),
        Config.Password (config w) = "" ->
        stdin w = raw :: rest ->
        fst (ensurePassword w) = None
        /\ Config.Password (config (snd (ensurePassword w))) = raw)
  /\ (forall w : World,
        Config.Password (config w) = "" ->
        stdin w = [] ->
        fst (ensurePassword w) = Some (ErrReadingPassword ErrStdin)).
Proof.
  split; [|split; [|split]].
  - intros w raw rest Hu Hin Ht.
    assert (HE : ensureUsername w
                 = (Some ErrUsernameEmpty,
                    snd (ensureUsername w))).
    { unfold ensureUsername, bind, getConfig, print, ReadString, ret.
      rewrite Hu. cbn. rewrite Hin. cbn. rewrite Ht. reflexivity. }
    unfold Authenticate. rewrite (run_bind _ _ _ _ _ HE). cbn [fst snd ret].
    split; [reflexivity|]. exact (ensureUsername_traffic w).
  - intros w Hp. unfold ensurePassword, bind, getConfig.
    destruct (String.eqb_spec (Config.Password (config w)) "");
      [contradiction|reflexivity].
  - intros w raw rest Hp Hin.
    unfold ensurePassword, bind, getConfig, print, ReadPassword, ret.
    rewrite Hp. cbn. rewrite Hin. cbn. split; reflexivity.
  - intros w Hp Hin.
    unfold ensurePassword, bind, getConfig, print, ReadPassword, ret.
    rewrite Hp. cbn. rewrite Hin. reflexivity.
Qed.

End ProgramFacts.

(* ================================================================== *)
(** * The properties on the sample runs *)
(* ================================================================== *)

Import Sample.

Example fresh_login_saves :
  fst (Authenticate X fresh) = Ok bob
  /\ file (snd (Authenticate X fresh)) = Some "saved:bob:2592000000000000".
Proof. split; reflexivity. Qed.

(** The forged server proof: the run fails, nothing is stored. *)
Lemma server_proof_mismatch_on_forged :
  Session.ServerProof bobForged
  <> GoStrings.EncodeToString (Proofs.ExpectedServerProof proofs)
  /\ fst (Authenticate X forged) = Err ErrServerProof
  /\ file (snd (Authenticate X forged)) = None.
Proof.
  assert (Hneq : Session.ServerProof bobForged
                 <> GoStrings.EncodeToString (Proofs.ExpectedServerProof proofs))
    by (vm_compute; discriminate).
  split; [exact Hneq|].
  destruct (server_proof_mismatch_fails_the_run X
              forged forged forged forged
              (snd (getAuthInfo X forged)) (snd (getAuthInfo X forged))
              (snd (getAuthInfo X forged)) (snd (Authenticate X forged))
              (info 1000) proofs
              (buildAuthRequest (config forged) (info 1000) proofs) bobForged
              eq_refl eq_refl eq_refl eq_refl eq_refl eq_refl eq_refl Hneq)
    as (H1 & H2 & H3).
  rewrite H2. split; [reflexivity | exact H3].
Defined.


(** The refresh of alice's session is refused: the file goes, the
    fresh login follows and leaves the new session in the file. *)
Lemma refused_refresh_ends_in_new_file :
  0 < 3 * day < refreshThreshold X
  /\ fst (handleExistingSession X refreshRefused) = None
  /\ file (snd (handleExistingSession X refreshRefused)) = None
  /\ fst (Authenticate X refreshRefused) = Ok bob
  /\ exists saved data,
       file (snd (Authenticate X refreshRefused)) = Some data
       /\ jsonMarshalSaved X saved = Some data
       /\ SavedSession.Session saved = Some bob
       /\ SavedSession.Username saved = "alice".
Proof.
  assert (Hdue : 0 < 3 * day < refreshThreshold X)
    by (vm_compute; split; reflexivity).
  split; [exact Hdue|].
  assert (HL : Load X (Config.Username (config refreshRefused)) refreshRefused
               = ((Some alice, 3 * day, None),
                  snd (Load X "alice" refreshRefused))) by reflexivity.
  assert (HR : RefreshSession X (Config.APIURL (config refreshRefused)) alice
                 (setStdout (snd (Load X "alice" refreshRefused))
                    (stdout (snd (Load X "alice" refreshRefused))
                       ++ [if Config.ForceRefresh (config refreshRefused)
                           then MsgForcingRefresh (3 * day)
                           else MsgExpiresSoon (3 * day)]))
               = (Err (ErrRefreshFailed 500 "refused"),
                  snd (RefreshSession X "https://vpn-api.proton.me" alice
                         (setStdout (snd (Load X "alice" refreshRefused))
                            [MsgExpiresSoon (3 * day)])))) by reflexivity.
  destruct (failed_refresh_falls_back_to_fresh_login X
              refreshRefused refreshRefused _ _ alice (3 * day) _
              eq_refl eq_refl eq_refl HL (or_intror Hdue) HR eq_refl)
    as (H1 & H2 & H3 & H4 & H5 & H6).
  split; [exact H1|]. split; [exact H2|].
  split; [rewrite H4; reflexivity|].
  rewrite H4.
  apply (H6 bob (snd (authenticateFresh X (snd (handleExistingSession X refreshRefused))))).
  - vm_compute; reflexivity.
  - reflexivity.
  - intros saved. cbn. discriminate.
Defined.

(** alice's valid session, 20 days from expiry: returned as stored, one
    GET sent, the file as it was. *)
Lemma reuse_leaves_file :
  refreshThreshold X <= 20 * day
  /\ fst (Authenticate X reuse) = Ok alice
  /\ file (snd (Authenticate X reuse)) = Some "alice-20d"
  /\ map req_method (sent (snd (Authenticate X reuse))) = ["GET"].
Proof.
  assert (Hle : refreshThreshold X <= 20 * day) by (vm_compute; discriminate).
  split; [exact Hle|].
  destruct (valid_session_is_reused_untouched X
              reuse reuse (snd (Load X "alice" reuse))
              (snd (VerifySession X "https://vpn-api.proton.me" alice
                      (snd (Load X "alice" reuse))))
              alice (20 * day)
              eq_refl eq_refl eq_refl eq_refl eq_refl Hle eq_refl)
    as (H1 & H2 & probe & H3 & H4 & H5).
  rewrite H1. cbn [fst snd]. split; [reflexivity|].
  split; [exact H2|].
  rewrite H3. cbn. rewrite H4. reflexivity.
Defined.

(** The file that does not parse: a warning, then the fresh login. *)
Lemma garbled_file_is_skipped :
  jsonUnmarshalSaved X "{not json" = None
  /\ Load X "alice" garbled = ((None, 0, Some (ErrUnmarshalSession ErrJSON)), garbled)
  /\ fst (handleExistingSession X garbled) = None
  /\ fst (Authenticate X garbled) = Ok bob.
Proof.
  destruct (unparsable_file_is_no_session X garbled "{not json"
              eq_refl eq_refl eq_refl eq_refl eq_refl)
    as (H1 & H2 & H3 & H4).
  split; [reflexivity|].
  split; [exact (H1 "alice")|].
  split; [rewrite H3; reflexivity|].
  rewrite (H4 garbled eq_refl). reflexivity.
Defined.

(** [Load] for bob where alice's session is stored: nothing returned,
    nothing touched. *)
Lemma Load_for_bob_leaves_alice :
  jsonUnmarshalSaved X "alice-20d"
  = Some (SavedSession.mk (Some alice) "alice" 0 (20 * day))
  /\ Load X "bob" otherAccount = ((None, 0, None), otherAccount).
Proof.
  split; [reflexivity|].
  apply (proj2 (Load_removes_only_own_expired_session X "bob" otherAccount)
           "alice-20d" (SavedSession.mk (Some alice) "alice" 0 (20 * day)));
    [reflexivity | reflexivity | reflexivity | cbn; discriminate].
Defined.

(** C10, as stated, fails on the run: bob's login under persistence
    replaces the file that held alice's session, although [Load] left it
    alone. *)
Lemma run_for_bob_replaces_alice_session :
  file otherAccount = Some "alice-20d"
  /\ jsonUnmarshalSaved X "alice-20d"
     = Some (SavedSession.mk (Some alice) "alice" 0 (20 * day))
  /\ Config.Username (config otherAccount) = "bob"
  /\ file (snd (Load X "bob" otherAccount)) = Some "alice-20d"
  /\ fst (Authenticate X otherAccount) = Ok bob
  /\ file (snd (Authenticate X otherAccount)) = Some "saved:bob:2592000000000000"
  /\ file (snd (Authenticate X otherAccount)) <> file otherAccount.
Proof. repeat split; try reflexivity. cbn. discriminate. Qed.

(** The scope upgrade on the samples: alice's reused session goes
    through as it is; bob's fresh session with VPN scope is left alone;
    bob's fresh session without it is upgraded with the code typed; a
    mistyped code ends the upgrade. *)
Lemma scope_upgrade_on_samples :
  Authenticate X reuseTrusted
  = (Ok trusted, snd (handleExistingSession X reuseTrusted))
  /\ upgradeSessionIfNeeded X bob fresh = ((bob, None), fresh)
  /\ fst (upgradeSessionIfNeeded X bobTwoFactor
            (world (cfg "bob" "pw") ["123456"] None [ok "2fa-1000"]))
     = (Session.setScopes bobTwoFactor ["self"; "twofactor"; "vpn"], None)
  /\ fst (upgradeSessionIfNeeded X bobTwoFactor
            (world (cfg "bob" "pw") ["12a456"] None [ok "2fa-1000"]))
     = (bobTwoFactor, Some (ErrGet2FACode Err2FACodeNotNumeric))
  /\ fst (upgradeSessionIfNeeded X bobTwoFactor
            (world (cfg "bob" "pw") ["123456"] None [ok "2fa-1001"]))
     = (bobTwoFactor, Some (Err2FAVerification (AuthError 1001)))
  /\ fst (authenticateFresh X upgradeBadCode)
     = Err (ErrGet2FACode Err2FACodeNotNumeric)
  /\ file (snd (authenticateFresh X upgradeBadCode)) = None.
Proof.
  destruct (scope_upgrade_after_fresh_login_only X)
    as (H1 & H2 & H3 & H4 & H5 & H6).
  assert (Ht : In "twofactor" (Session.Scopes bobTwoFactor))
    by (cbn; tauto).
  assert (Hv : ~ In "vpn" (Session.Scopes bobTwoFactor))
    by (cbn; intros [H|[H|H]]; [discriminate | discriminate | exact H]).
  split.
  { apply (H1 reuseTrusted reuseTrusted); reflexivity. }
  split.
  { apply H2. left. cbn. tauto. }
  split.
  { set (w := world (cfg "bob" "pw") ["123456"] None [ok "2fa-1000"]).
    set (w1 := snd (get2FACode (setStdout w (stdout w ++ [MsgLacksVPNScope])))).
    rewrite (H3 bobTwoFactor w w1 (snd (submit2FA X bobTwoFactor "123456" w1))
               "123456" ["self"; "twofactor"; "vpn"] Ht Hv eq_refl eq_refl).
    reflexivity. }
  split.
  { set (w := world (cfg "bob" "pw") ["12a456"] None [ok "2fa-1000"]).
    rewrite (H4 bobTwoFactor w
               (snd (get2FACode (setStdout w (stdout w ++ [MsgLacksVPNScope]))))
               Err2FACodeNotNumeric Ht Hv eq_refl).
    reflexivity. }
  split.
  { set (w := world (cfg "bob" "pw") ["123456"] None [ok "2fa-1001"]).
    set (w1 := snd (get2FACode (setStdout w (stdout w ++ [MsgLacksVPNScope])))).
    rewrite (H5 bobTwoFactor w w1 (snd (submit2FA X bobTwoFactor "123456" w1))
               "123456" (AuthError 1001) Ht Hv eq_refl eq_refl).
    reflexivity. }
  destruct (H6 upgradeBadCode upgradeBadCode
              (snd (performFreshAuth X upgradeBadCode))
              (snd (authenticateFresh X upgradeBadCode))
              bobTwoFactor bobTwoFactor (ErrGet2FACode Err2FACodeNotNumeric)
              eq_refl eq_refl eq_refl) as [H7 H8].
  rewrite H7. split; [reflexivity | exact H8].
Defined.

(** C3, as stated, fails on a reused session: it has the second-factor
    scope and no VPN scope, the run returns it with these scopes, asks
    for no code (the line typed is still unread) and sends nothing but
    the GET of [VerifySession]. *)
Lemma reused_session_is_not_upgraded :
  Session.Scopes trusted = ["self"; "twofactor"]
  /\ fst (tryExistingSession X reuseTrusted) = (Some trusted, None)
  /\ fst (Authenticate X reuseTrusted) = Ok trusted
  /\ stdout (snd (Authenticate X reuseTrusted)) = [MsgUsingSaved (20 * day)]
  /\ stdin (snd (Authenticate X reuseTrusted)) = ["123456"]
  /\ map req_url (sent (snd (Authenticate X reuseTrusted)))
     = ["https://vpn-api.proton.me/vpn/v1/logicals"].
Proof. repeat split; reflexivity. Qed.

(** The status codes on the samples: the refresh takes 1001, the
    login operations refuse it. *)
Lemma status_codes_on_samples :
  fst (RefreshSession X "https://vpn-api.proton.me" alice
         (world (cfg "alice" "") [] None [ok "session-multi"]))
  = Ok (Session.mk 1001 "access-m" "refresh-m" "uid-m" ["vpn"] 2592000
          "bGlnaHQgd28=")
  /\ fst (sendAuthRequest X [] (world (cfg "bob" "pw") [] None [ok "session-multi"]))
     = Err (AuthError 1001)
  /\ (exists e,
        fst (submit2FA X bobTwoFactor "123456"
               (world (cfg "bob" "pw") [] None [ok "2fa-1001"])) = Err e)
  /\ fst (getAuthInfo X (world (cfg "bob" "pw") [] None [ok "info-1001"]))
     = Err (ErrAuthInfoCode 1001)
  /\ fst (getAuthInfo X fresh) = Ok (info 1000).
Proof.
  destruct (multi_status_is_success_for_refresh_only X) as (H1 & H2 & H3 & H4).
  split.
  { apply (H1 "https://vpn-api.proton.me" "session-multi" alice _
              (world (cfg "alice" "") [] None [ok "session-multi"]) []
              eq_refl eq_refl eq_refl).
    right. reflexivity. }
  split.
  { apply (H2 [] "session-multi" _
              (world (cfg "bob" "pw") [] None [ok "session-multi"]) []
              eq_refl eq_refl eq_refl).
    reflexivity. }
  split.
  { apply (H3 bobTwoFactor "123456" "2fa-1001" _
              (world (cfg "bob" "pw") [] None [ok "2fa-1001"]) []
              eq_refl eq_refl eq_refl).
    reflexivity. }
  split.
  { apply (H4 "info-1001" (info 1001)
              (world (cfg "bob" "pw") [] None [ok "info-1001"]) []
              eq_refl eq_refl eq_refl).
    reflexivity. }
  apply (H4 "info-1000" (info 1000) fresh [ok "session-bob"]
            eq_refl eq_refl eq_refl).
  - reflexivity.
  - discriminate.
  - discriminate.
Defined.

(** C5, as stated, fails on the login operations: they answer 1001,
    which [IsSuccessCode] takes for success, with an error. *)
Lemma login_refuses_multi_status :
  IsSuccessCode 1001 = true
  /\ jsonUnmarshalAuthInfo X "info-1001" = Some (info 1001)
  /\ getAuthInfo X (world (cfg "bob" "pw") [] None [ok "info-1001"])
     = (Err (ErrAuthInfoCode 1001),
        snd (getAuthInfo X (world (cfg "bob" "pw") [] None [ok "info-1001"])))
  /\ fst (sendAuthRequest X [] (world (cfg "bob" "pw") [] None [ok "session-multi"]))
     = Err (AuthError 1001)
  /\ fst (submit2FA X bobTwoFactor "123456"
            (world (cfg "bob" "pw") [] None [ok "2fa-1001"]))
     = Err (AuthError 1001)
  /\ fst (Authenticate X (world (cfg "bob" "pw") [] None [ok "info-1001"]))
     = Err (ErrGetAuthInfo (ErrAuthInfoCode 1001)).
Proof. repeat split; reflexivity. Qed.

(** The check of the code on the samples. *)
Lemma second_factor_code_on_samples :
  fst (get2FACode (typed "   ")) = Err Err2FACodeEmpty
  /\ fst (get2FACode (typed "12a456")) = Err Err2FACodeNotNumeric
  /\ fst (get2FACode (typed " 123456 ")) = Ok "123456"
  /\ sent (snd (upgradeSessionIfNeeded X bobTwoFactor
                  (world (cfg "bob" "pw") ["12a456"] None [ok "2fa-1000"]))) = []
  /\ fst (performFreshAuth X
            (world (cfg "bob" "pw") ["12a456"] None
               [ok "info-2fa"; ok "session-bob"]))
     = Err Err2FACodeNotNumeric.
Proof.
  destruct (second_factor_code_checked_locally X) as (H1 & H2 & H3 & H4 & H5).
  split.
  { apply (proj1 (H2 (typed "   ") "   " [] eq_refl)). reflexivity. }
  split.
  { apply (proj1 (proj2 (H2 (typed "12a456") "12a456" [] eq_refl)));
      [discriminate | reflexivity]. }
  split.
  { apply (proj2 (proj2 (H2 (typed " 123456 ") " 123456 " [] eq_refl)));
      [discriminate | reflexivity]. }
  split.
  { assert (Ht : In "twofactor" (Session.Scopes bobTwoFactor)) by (cbn; tauto).
    assert (Hv : ~ In "vpn" (Session.Scopes bobTwoFactor))
      by (cbn; intros [H|[H|H]]; [discriminate | discriminate | exact H]).
    destruct (H4 bobTwoFactor
                (world (cfg "bob" "pw") ["12a456"] None [ok "2fa-1000"])
                _ Err2FACodeNotNumeric Ht Hv eq_refl) as [_ H].
    apply (f_equal fst) in H. exact H. }
  set (w := world (cfg "bob" "pw") ["12a456"] None
              [ok "info-2fa"; ok "session-bob"]).
  set (w1 := snd (getAuthInfo X w)).
  rewrite (proj1 (H5 w w1 w1 (snd (get2FACode w1))
                    (AuthInfo.mk 1000 4 "salt" "modulus" "ephemeral"
                       "srp-session" 1 1)
                    proofs Err2FACodeNotNumeric
                    eq_refl eq_refl eq_refl eq_refl eq_refl)).
  reflexivity.
Defined.

(** C6, as stated, fails on the length: codes of one, six and seven
    digits are all accepted. *)
Lemma codes_of_any_length_are_accepted :
  fst (get2FACode (typed "1")) = Ok "1"
  /\ fst (get2FACode (typed "123456")) = Ok "123456"
  /\ fst (get2FACode (typed "1234567")) = Ok "1234567"
  /\ String.length "1" <> String.length "123456"
  /\ String.length "1234567" <> String.length "123456".
Proof. repeat split; try reflexivity; cbn; discriminate. Qed.

(** The identity and the secret on the samples. *)
Lemma credentials_on_samples :
  fst (Authenticate X (world (cfg "" "pw") ["  "] None [ok "info-1000"]))
  = Err ErrUsernameEmpty
  /\ sent (snd (Authenticate X (world (cfg "" "pw") ["  "] None [ok "info-1000"])))
     = []
  /\ ensurePassword fresh = (None, fresh)
  /\ fst (ensurePassword emptyPassword) = None
  /\ Config.Password (config (snd (ensurePassword emptyPassword))) = ""
  /\ fst (ensurePassword (world (cfg "bob" "") [] None []))
     = Some (ErrReadingPassword ErrStdin).
Proof.
  destruct (empty_identity_is_fatal_empty_secret_is_not X)
    as (H1 & H2 & H3 & H4).
  destruct (H1 (world (cfg "" "pw") ["  "] None [ok "info-1000"]) "  " []
              eq_refl eq_refl eq_refl) as [H5 H6].
  split; [exact H5|].
  split; [apply (f_equal fst) in H6; exact H6|].
  split; [apply H2; discriminate|].
  destruct (H3 emptyPassword "" [] eq_refl eq_refl) as [H7 H8].
  split; [exact H7|]. split; [exact H8|].
  apply H4; reflexivity.
Defined.

(** C9, as stated, fails: with no password passed in and nothing
    entered at the prompt, [ensurePassword] reports no error, the secret
    is the empty string, and the run goes through the SRP exchange with
    it, here to a session. *)
Lemma empty_password_reaches_the_exchange :
  Config.Password (config emptyPassword) = ""
  /\ stdin emptyPassword = [""]
  /\ fst (ensurePassword emptyPassword) = None
  /\ Config.Password (config (snd (ensurePassword emptyPassword))) = ""
  /\ fst (Authenticate X emptyPassword) = Ok bob
  /\ map req_url (sent (snd (Authenticate X emptyPassword)))
     = ["https://vpn-api.proton.me/core/v4/auth/info";
        "https://vpn-api.proton.me/core/v4/auth"].
Proof. repeat split; reflexivity. Qed.

(* ================================================================== *)
(** * Further properties: the session store *)
(* ================================================================== *)

Section StoreFacts.

Variable X : Externals.

(** X1. [Delete] is idempotent: with no file it reports nothing and
    changes nothing; when it reports nothing the file is gone and a
    second [Delete] is a no-op; its only error is a file that is there
    and that the system refuses to remove, and then the world is
    unchanged. *)
Theorem Delete_is_idempotent :
  forall w : World,
    (file w = None -> Delete w = (None, w))
    /\ (fst (Delete w) = None ->
        file (snd (Delete w)) = None
        /\ Delete (snd (Delete w)) = (None, snd (Delete w)))
    /\ (forall e, fst (Delete w) = Some e ->
                  e = ErrDeleteSessionFile EACCES
                  /\ snd (Delete w) = w
                  /\ file w <> None /\ remove_denied w = true).
Proof.
  intros w. unfold Delete, bind, Remove, ret.
  destruct (file w) as [data|] eqn:Hf; cbn.
  - destruct (remove_denied w) eqn:Hr; cbn.
    + split; [discriminate|]. split; [discriminate|].
      intros e He. inversion He. repeat split. discriminate.
    + split; [discriminate|]. split.
      * intros _. split; reflexivity.
      * discriminate.
  - split; [reflexivity|]. split.
    + intros _. split; [exact Hf|]. rewrite Hf. reflexivity.
    + discriminate.
Qed.

(** X2. [Load] returns a session only when the file decodes to a
    session saved under the requested identity that has not expired: then
    there is no error, the time until expiry is not negative and is the
    (saturated) difference between the stored expiry and the clock, and
    the file is left as it is. *)
Theorem Load_returns_only_own_live_session :
  forall (username : string) (w w' : World) (s : Session.t)
         (t : GoTime.Duration) (err : option error),
    Load X username w = ((Some s, t, err), w') ->
    err = None
    /\ 0 <= t
    /\ file w' = file w
    /\ exists data saved,
         file w = Some data
         /\ jsonUnmarshalSaved X data = Some saved
         /\ SavedSession.Username saved = username
         /\ SavedSession.Session saved = Some s
         /\ SavedSession.ExpiresAt saved >= clock w (ticks w)
         /\ t = GoTime.Sub (SavedSession.ExpiresAt saved) (clock w (ticks w)).
Proof.
  intros username w w' s t err HL.
  destruct (file w) as [data|] eqn:Hf.
  2:{ rewrite (Load_no_file X username w Hf) in HL. discriminate. }
  destruct (read_denied w) eqn:Hr.
  { rewrite (Load_unreadable X username data w Hf Hr) in HL. discriminate. }
  destruct (jsonUnmarshalSaved X data) as [saved|] eqn:Hp.
  2:{ rewrite (Load_unparsable X username data w Hf Hr Hp) in HL. discriminate. }
  destruct (String.eqb_spec (SavedSession.Username saved) username) as [E|E].
  2:{ rewrite (Load_other_identity X username data saved w Hf Hr Hp E) in HL.
      discriminate. }
  destruct (GoTime.After (clock w (ticks w)) (SavedSession.ExpiresAt saved))
    eqn:Ha.
  - rewrite (Load_expired X username data saved w Hf Hr Hp E Ha) in HL.
    discriminate.
  - rewrite (Load_live X username data saved w Hf Hr Hp E Ha) in HL.
    injection HL as H1 H2 H3 H4. subst t err w'.
    assert (Hge : SavedSession.ExpiresAt saved >= clock w (ticks w)).
    { unfold GoTime.After in Ha. apply Z.ltb_ge in Ha. lia. }
    split; [reflexivity|]. split.
    { unfold GoTime.Sub, GoTime.minInt64, GoTime.maxInt64. lia. }
    split; [exact Hf|].
    exists data, saved. repeat split; assumption.
Qed.

(** X3. A stored session of the requested identity whose expiry is in
    the past is reported absent without error and its file is removed (if
    the system allows it); any [Load] after that finds nothing and
    changes nothing. *)
Theorem expired_session_is_removed :
  forall (username data : string) (saved : SavedSession.t) (w : World),
    file w = Some data -> read_denied w = false -> remove_denied w = false ->
    jsonUnmarshalSaved X data = Some saved ->
    SavedSession.Username saved = username ->
    SavedSession.ExpiresAt saved < clock w (ticks w) ->
    fst (Load X username w) = (None, 0, None)
    /\ file (snd (Load X username w)) = None
    /\ forall other,
         Load X other (snd (Load X username w))
         = ((None, 0, None), snd (Load X username w)).
Proof.
  intros username data saved w Hf Hr Hrm Hp Hu Hlt.
  assert (Ha : GoTime.After (clock w (ticks w)) (SavedSession.ExpiresAt saved)
               = true) by (unfold GoTime.After; apply Z.ltb_lt; exact Hlt).
  rewrite (Load_expired X username data saved w Hf Hr Hp Hu Ha), Hrm.
  cbn [fst snd]. split; [reflexivity|]. split; [reflexivity|].
  intros other. apply Load_no_file. reflexivity.
Qed.

(** What [Save] does when the clock stands at [now]: two or three
    readings, then the encoding and the write of the saved session. *)
Lemma Save_at (session : Session.t) (username : string)
  (duration : GoTime.Duration) (w : World) (now : GoTime.Time) :
  (forall k : nat, clock w (ticks w + k) = now) ->
  exists n : nat,
    Save X session username duration w
    = match jsonMarshalSaved X
              (SavedSession.mk (Some session) username now
                 (if duration =? 0
                  then GoTime.Add now
                         (GoTime.mul (Session.ExpiresIn session) GoTime.Second)
                  else Z.min (GoTime.Add now duration)
                         (GoTime.Add now
                            (GoTime.mul (Session.ExpiresIn session)
                               GoTime.Second)))) with
      | None => ret (Some ErrMarshalSession)
      | Some data =>
          bind (WriteFile data) (fun err =>
            match err with
            | Some e => ret (Some (ErrWriteSessionFile e))
            | None => ret None
            end)
      end (setTicks w (ticks w + n)).
Proof.
  intros Hclock.
  assert (H0 : clock w (ticks w) = now)
    by (rewrite <- (Hclock 0%nat); f_equal; lia).
  assert (H1 : clock w (S (ticks w)) = now)
    by (rewrite <- (Hclock 1%nat); f_equal; lia).
  assert (H2 : clock w (S (S (ticks w))) = now)
    by (rewrite <- (Hclock 2%nat); f_equal; lia).
  rewrite <- After_min.
  unfold Save, Now, bind, ret.
  cbn -[WriteFile GoTime.After GoTime.Add GoTime.mul].
  rewrite H0, H1.
  destruct (duration =? 0).
  - exists 2%nat. replace (ticks w + 2)%nat with (S (S (ticks w))) by lia.
    reflexivity.
  - cbn -[WriteFile GoTime.After GoTime.Add GoTime.mul]. rewrite H2.
    exists 3%nat. replace (ticks w + 3)%nat with (S (S (S (ticks w)))) by lia.
    destruct (GoTime.After _ _); reflexivity.
Qed.

(** X4. Round trip. A session saved while the clock stands at [now],
    with a file that can be written and read and an encoding that decodes
    to what was encoded, is loaded back for the same identity as the same
    session, with the time from [now] to the saved expiry, as long as
    that expiry is not in the past; for any other identity the load finds
    nothing and leaves the file. *)
Theorem Save_then_Load_returns_the_session :
  forall (session : Session.t) (username data : string)
         (duration : GoTime.Duration) (w : World) (now : GoTime.Time),
    (forall k : nat, clock w (ticks w + k) = now) ->
    write_denied w = false -> read_denied w = false ->
    let lifetime := GoTime.mul (Session.ExpiresIn session) GoTime.Second in
    let expiresAt :=
      if duration =? 0 then GoTime.Add now lifetime
      else Z.min (GoTime.Add now duration) (GoTime.Add now lifetime) in
    let saved := SavedSession.mk (Some session) username now expiresAt in
    jsonMarshalSaved X saved = Some data ->
    jsonUnmarshalSaved X data = Some saved ->
    now <= expiresAt ->
    let w1 := snd (Save X session username duration w) in
    fst (Save X session username duration w) = None
    /\ fst (Load X username w1)
       = (Some session, GoTime.Sub expiresAt now, None)
    /\ file (snd (Load X username w1)) = Some data
    /\ forall other, other <> username ->
                     Load X other w1 = ((None, 0, None), w1).
Proof.
  intros session username data duration w now Hclock Hw Hr
         lifetime expiresAt saved Hm Hu Hle w1.
  destruct (Save_at session username duration w now Hclock) as [n Hn].
  fold lifetime in Hn. fold expiresAt in Hn. fold saved in Hn.
  rewrite Hm in Hn. unfold bind, WriteFile, ret in Hn.
  cbn [write_denied setTicks] in Hn. rewrite Hw in Hn.
  subst w1. rewrite Hn. cbn [fst snd].
  set (w1 := setFile (setTicks w (ticks w + n)) (Some data)).
  assert (Hf1 : file w1 = Some data) by reflexivity.
  assert (Hr1 : read_denied w1 = false) by exact Hr.
  assert (Hc1 : clock w1 (ticks w1) = now) by (apply Hclock).
  split; [reflexivity|].
  assert (Ha : GoTime.After (clock w1 (ticks w1)) (SavedSession.ExpiresAt saved)
               = false).
  { rewrite Hc1. unfold GoTime.After. apply Z.ltb_ge. exact Hle. }
  rewrite (Load_live X username data saved w1 Hf1 Hr1 Hu eq_refl Ha).
  cbn [fst snd]. rewrite Hc1.
  split; [reflexivity|]. split; [reflexivity|].
  intros other Ho.
  apply (Load_other_identity X other data saved w1 Hf1 Hr1 Hu).
  cbn. congruence.
Qed.

End StoreFacts.

(* ================================================================== *)
(** * Further properties: the remote operations of session.go *)
(* ================================================================== *)

Section RemoteFacts.

Variable X : Externals.

(** X5. [VerifySession] answers true exactly when the request can be
    built and the response has a status from 200 to 299, whatever its
    body; a failed call or any other status gives false. It sends at most
    one request and leaves the session file alone. *)
Theorem VerifySession_accepts_2xx_only :
  forall (apiURL : string) (s : Session.t) (w : World),
    (fst (VerifySession X apiURL s w) = true
     <-> urlParses X (apiURL ++ "/vpn/v1/logicals") = true
         /\ exists status body rest,
              remote w = Response status body :: rest
              /\ 200 <= status < 300)
    /\ (exists l,
          sent (snd (VerifySession X apiURL s w)) = (sent w ++ l)%list
          /\ (List.length l <= 1)%nat)
    /\ file (snd (VerifySession X apiURL s w)) = file w.
Proof.
  intros apiURL s w. unfold VerifySession, NewRequest.
  destruct (urlParses X (apiURL ++ "/vpn/v1/logicals")); cbn.
  2:{ split; [|split].
      - split; [discriminate|]. intros [H _]. discriminate.
      - exists []. split; [symmetry; apply app_nil_r|cbn; lia].
      - reflexivity. }
  unfold bind, Do, ret.
  destruct (remote w) as [|o rest] eqn:Hr; cbn.
  { split; [|split].
    - split; [discriminate|]. intros [_ (st & b & r & H & _)]. discriminate.
    - eexists [_]. split; [reflexivity|cbn; lia].
    - reflexivity. }
  destruct o as [|status body]; cbn.
  { split; [|split].
    - split; [discriminate|]. intros [_ (st & b & r & H & _)]. discriminate.
    - eexists [_]. split; [reflexivity|cbn; lia].
    - reflexivity. }
  destruct (Z.eqb_spec status 401) as [E|E]; cbn.
  { split; [|split].
    - split; [discriminate|].
      intros [_ (st & b & r & H & Hs)]. inversion H. subst. lia.
    - eexists [_]. split; [reflexivity|cbn; lia].
    - reflexivity. }
  split; [|split].
  - split.
    + intros H. split; [reflexivity|]. exists status, body, rest.
      split; [reflexivity|].
      apply andb_true_iff in H. destruct H as [H1 H2].
      apply Z.leb_le in H1. apply Z.ltb_lt in H2. lia.
    + intros [_ (st & b & r & H & Hs)]. inversion H. subst.
      apply andb_true_iff. split; [apply Z.leb_le|apply Z.ltb_lt]; lia.
  - eexists [_]. split; [reflexivity|cbn; lia].
  - reflexivity.
Qed.

(** X6. [RefreshSession] returns a session exactly when the request can
    be built, the response has status 200, its body decodes to that
    session and the session's code is 1000 or 1001; everything else is an
    error. When a request goes out it is a POST to [/auth/refresh] that
    carries the old access token and session identifier as headers and
    the old refresh token in the body. The session file is left alone. *)
Theorem RefreshSession_succeeds_on_200_and_success_code_only :
  forall (apiURL : string) (old : Session.t) (w : World),
    (forall s',
        fst (RefreshSession X apiURL old w) = Ok s'
        <-> urlParses X (apiURL ++ "/auth/refresh") = true
            /\ exists body rest,
                 remote w = Response 200 (Some body) :: rest
                 /\ jsonUnmarshalSession X body = Some s'
                 /\ (Session.Code s' = 1000 \/ Session.Code s' = 1001))
    /\ (sent (snd (RefreshSession X apiURL old w)) = sent w
        \/ exists req,
             sent (snd (RefreshSession X apiURL old w)) = (sent w ++ [req])%list
             /\ req_method req = "POST"
             /\ req_url req = apiURL ++ "/auth/refresh"
             /\ In ("Authorization", "Bearer " ++ Session.AccessToken old)
                  (req_header req)
             /\ In ("x-pm-uid", Session.UID old) (req_header req)
             /\ In ("RefreshToken", JString (Session.RefreshToken old))
                  (req_body req))
    /\ file (snd (RefreshSession X apiURL old w)) = file w.
Proof.
  intros apiURL old w.
  split; [|split].
  - intros s'. unfold RefreshSession, NewRequest.
    destruct (urlParses X (apiURL ++ "/auth/refresh")); cbn.
    2:{ split; [discriminate|]. intros [H _]. discriminate. }
    unfold bind, Do, ret.
    destruct (remote w) as [|o rest] eqn:Hr; cbn.
    { split; [discriminate|]. intros [_ (b & r & H & _)]. discriminate. }
    destruct o as [|status [body|]]; cbn.
    { split; [discriminate|]. intros [_ (b & r & H & _)]. discriminate. }
    2:{ split; [discriminate|]. intros [_ (b & r & H & _)]. discriminate. }
    destruct (Z.eqb_spec status 200) as [E|E]; cbn.
    2:{ split; [discriminate|].
        intros [_ (b & r & H & _)]. inversion H. contradiction. }
    subst status.
    destruct (jsonUnmarshalSession X body) as [session|] eqn:Hd; cbn.
    2:{ split; [discriminate|].
        intros [_ (b & r & H & Hb & _)]. inversion H. subst. congruence. }
    unfold IsSuccessCode, APICodeSuccess, APICodeMultiStatus.
    destruct (Z.eqb_spec (Session.Code session) 1000) as [E0|E0]; cbn.
    { split.
      - intros H. inversion H. subst. split; [reflexivity|].
        exists body, rest. auto.
      - intros [_ (b & r & H & Hb & _)]. inversion H. subst. congruence. }
    destruct (Z.eqb_spec (Session.Code session) 1001) as [E1|E1]; cbn.
    { split.
      - intros H. inversion H. subst. split; [reflexivity|].
        exists body, rest. auto.
      - intros [_ (b & r & H & Hb & _)]. inversion H. subst. congruence. }
    split; [discriminate|].
    intros [_ (b & r & H & Hb & Hc)]. inversion H. subst.
    rewrite Hd in Hb. inversion Hb. subst. lia.
  - unfold RefreshSession, NewRequest.
    destruct (urlParses X (apiURL ++ "/auth/refresh")); cbn.
    2:{ left. reflexivity. }
    right. eexists. split.
    + unfold bind, Do, ret.
      destruct (remote w) as [|o rest]; cbn; [reflexivity|].
      destruct o as [|status [body|]]; cbn; try reflexivity.
      destruct (status =? 200); cbn; [|reflexivity].
      destruct (jsonUnmarshalSession X body) as [session|]; [|reflexivity].
      destruct (IsSuccessCode (Session.Code session)); reflexivity.
    + cbn. repeat split; auto 10.
  - exact (RefreshSession_stored X apiURL old w).
Qed.

End RemoteFacts.

(* ================================================================== *)
(** * Further properties: the orchestrator on a stored session *)
(* ================================================================== *)

Section StoredSessionFacts.

Variable X : Externals.

Lemma Save_traffic (s : Session.t) (u : string) (d : GoTime.Duration) :
  follows (keeps traffic) (Save X s u d).
Proof. unfold Save. keeps_all. Qed.

Lemma Save_unread (s : Session.t) (u : string) (d : GoTime.Duration) :
  follows (keeps unread) (Save X s u d).
Proof. unfold Save. keeps_all. Qed.

Lemma Load_unread (u : string) : follows (keeps unread) (Load X u).
Proof. unfold Load, Delete. keeps_all. Qed.

Lemma RefreshSession_unread (apiURL : string) (s : Session.t) :
  follows (keeps unread) (RefreshSession X apiURL s).
Proof. unfold RefreshSession, NewRequest. keeps_all. Qed.

Lemma seq_run {A B : Type} (m : IO A) (k : IO B) (w : World) :
  (m ;; k) w = k (snd (m w)).
Proof. unfold bind. destruct (m w). reflexivity. Qed.

(** A write that the system refuses leaves the file as it was. *)
Lemma Save_denied (s : Session.t) (u : string) (d : GoTime.Duration)
  (w : World) :
  write_denied w = true -> file (snd (Save X s u d w)) = file w.
Proof.
  intros H. unfold Save, Now, bind, ret, WriteFile. cbn.
  destruct (d =? 0); cbn.
  - destruct (jsonMarshalSaved X _); cbn; rewrite ?H; reflexivity.
  - destruct (GoTime.After _ _); cbn;
      destruct (jsonMarshalSaved X _); cbn; rewrite ?H; reflexivity.
Qed.

(** The end of [handleSessionRefresh] after a refresh that succeeded:
    the messages and the save. *)
Lemma refreshed_tail (c : Config.t) (s s' : Session.t) (w2 : World) :
  let run :=
    (print MsgRefreshed ;;
     (if negb (String.eqb (Session.RefreshToken s) (Session.RefreshToken s'))
      then print MsgTokenRotated else ret tt) ;;
     (let (sessionDuration, _) :=
        ParseSessionDuration X (Config.SessionDuration c) in
      err <- Save X s' (Config.Username c) sessionDuration ;;
      match err with
      | Some e => print (MsgWarnSaveRefreshed e)
      | None => ret tt
      end) ;;
     ret (Some s', @None error)) w2 in
  fst run = (Some s', None)
  /\ stdin (snd run) = stdin w2
  /\ sent (snd run) = sent w2
  /\ (write_denied w2 = true -> file (snd run) = file w2)
  /\ (write_denied w2 = false ->
      (forall saved, jsonMarshalSaved X saved <> None) ->
      exists saved data,
        file (snd run) = Some data
        /\ jsonMarshalSaved X saved = Some data
        /\ SavedSession.Session saved = Some s'
        /\ SavedSession.Username saved = Config.Username c).
Proof.
  cbv zeta. rewrite !seq_run. unfold ret at 3. cbn [fst snd].
  remember (snd (print MsgRefreshed w2)) as wp eqn:Ewp.
  remember (snd ((if negb (Session.RefreshToken s =? Session.RefreshToken s')%string
                  then print MsgTokenRotated else ret tt) wp)) as wa eqn:Ewa.
  assert (A1 : stdin wa = stdin w2 /\ sent wa = sent w2 /\ file wa = file w2
               /\ write_denied wa = write_denied w2).
  { subst wa wp.
    destruct (negb (Session.RefreshToken s =? Session.RefreshToken s')%string);
      repeat split. }
  destruct A1 as (A1i & A1s & A1f & A1w). clear Ewa Ewp.
  destruct (ParseSessionDuration X (Config.SessionDuration c)) as [d perr].
  unfold bind.
  pose proof (Save_traffic s' (Config.Username c) d wa) as T2.
  pose proof (Save_unread s' (Config.Username c) d wa) as U2.
  pose proof (Save_denied s' (Config.Username c) d wa) as D2.
  pose proof (Save_persists X s' (Config.Username c) d wa) as P2.
  destruct (Save X s' (Config.Username c) d wa) as [err wb].
  unfold keeps, traffic, unread in T2, U2. cbn [fst snd] in *.
  inversion T2 as [[T2s T2r]].
  assert (E : forall wc : World,
             stdin wc = stdin wb -> sent wc = sent wb -> file wc = file wb ->
             stdin wc = stdin w2
             /\ sent wc = sent w2
             /\ (write_denied w2 = true -> file wc = file w2)
             /\ (write_denied w2 = false ->
                 (forall saved, jsonMarshalSaved X saved <> None) ->
                 exists saved data,
                   file wc = Some data
                   /\ jsonMarshalSaved X saved = Some data
                   /\ SavedSession.Session saved = Some s'
                   /\ SavedSession.Username saved = Config.Username c)).
  { intros wc E1 E2 E3.
    split; [congruence|]. split; [congruence|]. split.
    - intros Hw. rewrite E3, D2; congruence.
    - intros Hw Hm.
      destruct P2 as (saved & data & P1 & P2 & P3 & P4 & P5);
        [congruence|exact Hm|].
      exists saved, data. rewrite E3. auto. }
  split; [reflexivity|].
  destruct err; apply E; reflexivity.
Qed.

(** What [handleSessionRefresh] does when the refresh succeeds. *)
Lemma handleSessionRefresh_success (s s' : Session.t) (reason : Msg)
  (w w2 : World) :
  RefreshSession X (Config.APIURL (config w)) s
    (setStdout w (stdout w ++ [reason])) = (Ok s', w2) ->
  Config.NoSession (config w) = false ->
  exists w3,
    handleSessionRefresh X s reason w = ((Some s', None), w3)
    /\ stdin w3 = stdin w2
    /\ sent w3 = sent w2
    /\ (write_denied w2 = true -> file w3 = file w2)
    /\ (write_denied w2 = false ->
        (forall saved, jsonMarshalSaved X saved <> None) ->
        exists saved data,
          file w3 = Some data
          /\ jsonMarshalSaved X saved = Some data
          /\ SavedSession.Session saved = Some s'
          /\ SavedSession.Username saved = Config.Username (config w)).
Proof.
  intros HR Hn.
  destruct (refreshed_tail (config w) s s' w2) as (T1 & T2 & T3 & T4 & T5).
  unfold handleSessionRefresh.
  unfold bind at 1. unfold print at 1. unfold bind at 1. unfold getConfig at 1.
  cbn [config setStdout]. unfold bind at 1. rewrite HR. rewrite Hn. cbn [negb].
  eexists. split.
  - apply injective_projections; [exact T1|reflexivity].
  - auto.
Qed.

(** X7. When a stored session is loaded, a refresh is due and the
    refresh succeeds, [Authenticate] returns the refreshed session and
    nothing else happens: the terminal is not read (no password, no
    code), no request follows the refresh, and the refreshed session is
    saved under the identity of the run; when the file cannot be written
    the run still returns the session and the file stays as it was. *)
Theorem successful_refresh_is_saved_and_returned :
  forall (w0 w w1 w2 : World) (s s' : Session.t) (t : GoTime.Duration),
    ensureUsername w0 = (None, w) ->
    Config.ClearSession (config w) = false ->
    Config.NoSession (config w) = false ->
    Load X (Config.Username (config w)) w = ((Some s, t, None), w1) ->
    Config.ForceRefresh (config w) = true \/ 0 < t < refreshThreshold X ->
    let reason :=
      if Config.ForceRefresh (config w) then MsgForcingRefresh t
      else MsgExpiresSoon t in
    RefreshSession X (Config.APIURL (config w)) s
      (setStdout w1 (stdout w1 ++ [reason])) = (Ok s', w2) ->
    let final := snd (Authenticate X w0) in
    fst (Authenticate X w0) = Ok s'
    /\ stdin final = stdin w
    /\ sent final = sent w2
    /\ (write_denied w = true -> file final = file w)
    /\ (write_denied w = false ->
        (forall saved, jsonMarshalSaved X saved <> None) ->
        exists saved data,
          file final = Some data
          /\ jsonMarshalSaved X saved = Some data
          /\ SavedSession.Session saved = Some s'
          /\ SavedSession.Username saved = Config.Username (config w)).
Proof.
  intros w0 w w1 w2 s s' t Hu Hc Hn HL Hdue reason HR final.
  pose proof (follows_run _ _ _ _ _ (Load_settings X _) HL) as SL.
  pose proof (follows_run _ _ _ _ _ (Load_unread _) HL) as UL.
  apply settings_eq in SL. destruct SL as (SLu & SLn & SLa & SLw & SLr).
  destruct (Load_session_keeps_file X _ _ _ _ _ _ HL) as [FL _].
  assert (HT : tryExistingSession X w = handleSessionRefresh X s reason w1).
  { rewrite (tryExistingSession_run X w w1 (Some s) t None HL). unfold reason.
    destruct (Config.ForceRefresh (config w)); [reflexivity|].
    destruct Hdue as [Hd|[Hd1 Hd2]]; [discriminate|].
    replace (t <? refreshThreshold X) with true
      by (symmetry; apply Z.ltb_lt; exact Hd2).
    replace (0 <? t) with true by (symmetry; apply Z.ltb_lt; exact Hd1).
    reflexivity. }
  rewrite <- SLa in HR.
  pose proof (follows_run _ _ _ _ _ (RefreshSession_settings X _ _) HR) as SR.
  pose proof (follows_run _ _ _ _ _ (RefreshSession_unread _ _) HR) as UR.
  pose proof (follows_run _ _ _ _ _ (RefreshSession_stored X _ _) HR) as FR.
  apply settings_eq in SR. cbn [config setStdout write_denied remove_denied] in SR.
  destruct SR as (SRu & SRn & SRa & SRw & SRr).
  destruct (handleSessionRefresh_success s s' reason w1 w2 HR)
    as (w3 & F1 & F2 & F3 & F4 & F5); [congruence|].
  assert (HA : Authenticate X w0 = (Ok s', w3)).
  { rewrite (Authenticate_run X w0 w Hu), (handleExistingSession_run X w Hc Hn),
      HT, F1. reflexivity. }
  subst final. rewrite HA. cbn [fst snd].
  unfold keeps, unread, stored in UL, UR, FR. cbn [stdin setStdout file] in UR, FR.
  split; [reflexivity|]. split; [congruence|]. split; [exact F3|]. split.
  - intros Hw. rewrite F4; congruence.
  - intros Hw Hm. destruct F5 as (saved & data & P); [congruence|exact Hm|].
    exists saved, data. intuition congruence.
Qed.

(** X8. A stored session that is loaded, with no refresh due, and that
    [VerifySession] finds invalid is deleted, with the message that says
    so, and the run goes on with the fresh login. *)
Theorem invalid_session_is_deleted :
  forall (w0 w w1 w2 : World) (s : Session.t) (t : GoTime.Duration),
    ensureUsername w0 = (None, w) ->
    Config.ClearSession (config w) = false ->
    Config.NoSession (config w) = false ->
    Config.ForceRefresh (config w) = false ->
    Load X (Config.Username (config w)) w = ((Some s, t, None), w1) ->
    ~ (0 < t < refreshThreshold X) ->
    VerifySession X (Config.APIURL (config w)) s w1 = (false, w2) ->
    remove_denied w = false ->
    let fallen := setFile (setStdout w2 (stdout w2 ++ [MsgSavedInvalid])) None in
    handleExistingSession X w = (None, fallen)
    /\ Authenticate X w0 = authenticateFresh X fallen.
Proof.
  intros w0 w w1 w2 s t Hu Hc Hn Hf HL Ht HV Hrm fallen.
  pose proof (follows_run _ _ _ _ _ (Load_settings X _) HL) as SL.
  apply settings_eq in SL. destruct SL as (SLu & SLn & SLa & SLw & SLr).
  destruct (Load_session_keeps_file X _ _ _ _ _ _ HL) as [FL [data Hdata]].
  pose proof (follows_run _ _ _ _ _ (VerifySession_stored X _ s) HV) as FV.
  assert (SV : remove_denied w2 = remove_denied w1).
  { assert (K : follows (keeps settings)
                  (VerifySession X (Config.APIURL (config w)) s))
      by (unfold VerifySession, NewRequest; keeps_all).
    pose proof (follows_run _ _ _ _ _ K HV) as S2.
    apply settings_eq in S2. intuition. }
  unfold keeps, stored in FV.
  assert (HT : tryExistingSession X w = ((None, None), fallen)).
  { rewrite (tryExistingSession_run X w w1 (Some s) t None HL), Hf.
    replace ((t <? refreshThreshold X) && (0 <? t)) with false.
    2:{ symmetry. apply andb_false_iff.
        destruct (Z.ltb_spec t (refreshThreshold X)); [|left; reflexivity].
        destruct (Z.ltb_spec 0 t); [|right; reflexivity]. lia. }
    unfold bind at 1. rewrite HV. rewrite !seq_run.
    unfold Delete, Remove, bind, print, ret. cbn.
    replace (file w2) with (Some data) by congruence.
    replace (remove_denied w2) with false by congruence.
    reflexivity. }
  assert (HH : handleExistingSession X w = (None, fallen))
    by (rewrite (handleExistingSession_run X w Hc Hn), HT; reflexivity).
  split; [exact HH|].
  rewrite (Authenticate_run X w0 w Hu), HH. reflexivity.
Qed.

(** X9. With the clear switch on, [handleExistingSession] deletes the
    session file without loading it: it reports no session, reads
    neither the file nor the clock, sends nothing, and the file is gone
    (unless the system refuses); [Authenticate] goes on with the fresh
    login. The no-session switch plays no part. *)
Theorem clear_session_deletes_without_loading :
  forall (w0 w : World),
    ensureUsername w0 = (None, w) ->
    Config.ClearSession (config w) = true ->
    let cleared := snd (handleExistingSession X w) in
    fst (handleExistingSession X w) = None
    /\ (remove_denied w = false -> file cleared = None)
    /\ (remove_denied w = true -> file cleared = file w)
    /\ ticks cleared = ticks w
    /\ traffic cleared = traffic w
    /\ stdout cleared = (stdout w ++ [MsgClearing])%list
    /\ Authenticate X w0 = authenticateFresh X cleared.
Proof.
  intros w0 w Hu Hc cleared.
  assert (HH : handleExistingSession X w
               = (None, snd (Delete (setStdout w (stdout w ++ [MsgClearing]))))).
  { unfold handleExistingSession, bind, getConfig, print, ret. rewrite Hc.
    destruct (Delete (setStdout w (stdout w ++ [MsgClearing]))); reflexivity. }
  subst cleared. rewrite (Authenticate_run X w0 w Hu), HH. cbn [fst snd].
  unfold Delete, bind, Remove, ret. cbn.
  destruct (file w) eqn:Hf; cbn.
  - destruct (remove_denied w); cbn; repeat split; try discriminate; auto.
  - repeat split; auto.
Qed.

End StoredSessionFacts.

(* ================================================================== *)
(** * Further properties: the whole run *)
(* ================================================================== *)

Lemma ignoresFile_ret {A : Type} (a : A) : ignoresFile (ret a).
Proof. intros w f. reflexivity. Qed.

Lemma ignoresFile_bind {A B : Type} (m : IO A) (k : A -> IO B) :
  ignoresFile m -> (forall a, ignoresFile (k a)) -> ignoresFile (bind m k).
Proof.
  intros Hm Hk w f. unfold bind. rewrite (Hm w f).
  destruct (m w) as [a w1]. cbn [fst snd]. apply Hk.
Qed.

Ltac ignores_step :=
  lazymatch goal with
  | |- ignoresFile (ret _) => apply ignoresFile_ret
  | |- ignoresFile (bind _ _) => apply ignoresFile_bind; [ | intro ]
  | |- ignoresFile (match (if ?b then _ else _) with _ => _ end) => destruct b
  | |- ignoresFile (match ?x with _ => _ end) => destruct x
  end.

Ltac ignores_leaf :=
  let w := fresh "w" in
  let f := fresh "f" in
  intros w f;
  cbv [print ReadString ReadPassword Now Do getConfig generateSRPProofs];
  cbn;
  repeat match goal with
         | |- context [match ?x with _ => _ end] => destruct x
         end;
  reflexivity.

Ltac ignores_all := repeat ignores_step; try ignores_leaf.

#[export] Instance keptOrRemoved_PreOrder :
  RelationClasses.PreOrder keptOrRemoved.
Proof.
  split.
  - intros w. left. reflexivity.
  - intros a b c [H1|H1] [H2|H2]; unfold keptOrRemoved.
    + left. congruence.
    + right. exact H2.
    + right. congruence.
    + right. exact H2.
Qed.

Lemma kept_of_stored {A : Type} (m : IO A) :
  follows (keeps stored) m -> follows keptOrRemoved m.
Proof. intros H w. left. exact (H w). Qed.

Lemma Delete_keptOrRemoved : follows keptOrRemoved Delete.
Proof.
  intros w. unfold Delete, bind, Remove, ret.
  destruct (file w) eqn:Hf; cbn.
  - destruct (remove_denied w); cbn; [left; reflexivity|right; reflexivity].
  - left. reflexivity.
Qed.

Lemma sendsAtMost_ret {A : Type} (n : nat) (a : A) : sendsAtMost n (ret a).
Proof. intros w. exists []. split; [symmetry; apply app_nil_r|cbn; lia]. Qed.

Lemma sendsAtMost_bind {A B : Type} (a b n : nat) (m : IO A) (k : A -> IO B) :
  (a + b <= n)%nat ->
  sendsAtMost a m -> (forall x, sendsAtMost b (k x)) ->
  sendsAtMost n (bind m k).
Proof.
  intros Hn Hm Hk w. unfold bind.
  destruct (Hm w) as (l1 & E1 & L1).
  destruct (m w) as [x w1]. cbn [snd] in E1.
  destruct (Hk x w1) as (l2 & E2 & L2).
  exists (l1 ++ l2)%list. split.
  - rewrite E2, E1. symmetry. apply app_assoc.
  - rewrite length_app. lia.
Qed.

Lemma sendsAtMost_silent {A : Type} (n : nat) (m : IO A) :
  follows (keeps traffic) m -> sendsAtMost n m.
Proof.
  intros H w. exists []. split; [|cbn; lia].
  specialize (H w). unfold keeps, traffic in H. inversion H as [[H1 H2]].
  rewrite H1. symmetry. apply app_nil_r.
Qed.

Lemma sendsAtMost_Do (n : nat) (req : Request) : sendsAtMost (S n) (Do req).
Proof.
  intros w. exists [req]. split; [|cbn; lia].
  unfold Do. destruct (remote w); reflexivity.
Qed.

Lemma sendsAtMost_weaken {A : Type} (a n : nat) (m : IO A) :
  (a <= n)%nat -> sendsAtMost a m -> sendsAtMost n m.
Proof.
  intros Hn H w. destruct (H w) as (l & E & L). exists l. split; [exact E|lia].
Qed.

(** One step through a program with a budget of requests: a prefix
    that sends nothing keeps the budget, a prefix that [one] bounds by
    one request takes one off. *)
Ltac budget_step one :=
  lazymatch goal with
  | |- sendsAtMost _ (ret _) => apply sendsAtMost_ret
  | |- sendsAtMost ?n (bind _ _) =>
      first
        [ apply (sendsAtMost_bind 0 n n);
          [ lia
          | solve [ apply sendsAtMost_silent; repeat frame_step; try keeps_leaf ]
          | intro ]
        | let n' := eval compute in (n - 1)%nat in
          apply (sendsAtMost_bind 1 n' n); [ lia | solve [ one ] | intro ] ]
  | |- sendsAtMost _ (match (if ?b then _ else _) with _ => _ end) => destruct b
  | |- sendsAtMost _ (match ?x with _ => _ end) => destruct x
  end.

Ltac budget_Do := apply sendsAtMost_Do.

Section RunFacts.

Variable X : Externals.

(** ** The no-session switch *)

Lemma ensureUsername_switches : follows (keeps switches) ensureUsername.
Proof. unfold ensureUsername. keeps_all. Qed.

Lemma ensurePassword_switches : follows (keeps switches) ensurePassword.
Proof. unfold ensurePassword. keeps_all. Qed.

Lemma performFreshAuth_switches : follows (keeps switches) (performFreshAuth X).
Proof.
  unfold performFreshAuth, getAuthInfo, addTwoFactorCode, sendAuthRequest,
    get2FACode, NewRequest.
  keeps_all.
Qed.

Lemma upgradeSessionIfNeeded_switches (s : Session.t) :
  follows (keeps switches) (upgradeSessionIfNeeded X s).
Proof.
  unfold upgradeSessionIfNeeded, submit2FA, get2FACode, NewRequest. keeps_all.
Qed.

Lemma switches_eq (w w' : World) :
  switches w' = switches w ->
  Config.ClearSession (config w') = Config.ClearSession (config w)
  /\ Config.NoSession (config w') = Config.NoSession (config w)
  /\ Config.ForceRefresh (config w') = Config.ForceRefresh (config w).
Proof. unfold switches. intros H. inversion H. auto. Qed.

Lemma authenticateWithoutStore_ignoresFile :
  ignoresFile (authenticateWithoutStore X).
Proof.
  unfold authenticateWithoutStore, ensureUsername, ensurePassword,
    performFreshAuth, getAuthInfo, addTwoFactorCode, sendAuthRequest,
    upgradeSessionIfNeeded, submit2FA, get2FACode, NewRequest.
  ignores_all.
Qed.

Lemma Authenticate_without_store (w : World) :
  Config.ClearSession (config w) = false ->
  Config.NoSession (config w) = true ->
  Authenticate X w = authenticateWithoutStore X w.
Proof.
  intros Hc Hn. unfold Authenticate, authenticateWithoutStore.
  destruct (ensureUsername w) as [[e1|] w1] eqn:E1;
    rewrite (run_bind _ _ _ _ _ E1), (run_bind _ _ _ _ _ E1); [reflexivity|].
  pose proof (follows_run _ _ _ _ _ ensureUsername_switches E1) as S1.
  apply switches_eq in S1. destruct S1 as (S1c & S1n & _).
  assert (HH : handleExistingSession X w1 = (None, w1)).
  { unfold handleExistingSession, bind, getConfig.
    rewrite S1c, Hc, S1n, Hn. reflexivity. }
  rewrite (run_bind _ _ _ _ _ HH). unfold authenticateFresh.
  destruct (ensurePassword w1) as [[e2|] w2] eqn:E2;
    rewrite (run_bind _ _ _ _ _ E2), (run_bind _ _ _ _ _ E2); [reflexivity|].
  pose proof (follows_run _ _ _ _ _ ensurePassword_switches E2) as S2.
  apply switches_eq in S2. destruct S2 as (_ & S2n & _).
  destruct (performFreshAuth X w2) as [[s|e3] w3] eqn:E3;
    rewrite (run_bind _ _ _ _ _ E3), (run_bind _ _ _ _ _ E3); [|reflexivity].
  pose proof (follows_run _ _ _ _ _ performFreshAuth_switches E3) as S3.
  apply switches_eq in S3. destruct S3 as (_ & S3n & _).
  destruct (upgradeSessionIfNeeded X s w3) as [[s' [e4|]] w4] eqn:E4;
    rewrite (run_bind _ _ _ _ _ E4), (run_bind _ _ _ _ _ E4); [reflexivity|].
  pose proof (follows_run _ _ _ _ _ (upgradeSessionIfNeeded_switches s) E4) as S4.
  apply switches_eq in S4. destruct S4 as (_ & S4n & _).
  assert (HS : saveSessionIfEnabled X s' w4 = (tt, w4)).
  { unfold saveSessionIfEnabled, bind, getConfig.
    replace (Config.NoSession (config w4)) with true by congruence.
    reflexivity. }
  rewrite (run_bind _ _ _ _ _ HS). reflexivity.
Qed.

Lemma setFile_same (w : World) : setFile w (file w) = w.
Proof. destruct w. reflexivity. Qed.

(** X10. With the no-session switch on (and the clear switch off) the
    run never touches the session store: the session file is afterwards
    what it was before, and with any other file in place, or none, the
    run returns the same result, does the same to the rest of the world
    and leaves that file. *)
Theorem no_session_never_touches_the_store :
  forall w : World,
    Config.ClearSession (config w) = false ->
    Config.NoSession (config w) = true ->
    file (snd (Authenticate X w)) = file w
    /\ forall f : option string,
         Authenticate X (setFile w f)
         = (fst (Authenticate X w), setFile (snd (Authenticate X w)) f).
Proof.
  intros w Hc Hn.
  assert (H3 : forall f : option string,
             Authenticate X (setFile w f)
             = (fst (Authenticate X w), setFile (snd (Authenticate X w)) f)).
  { intros f.
    rewrite (Authenticate_without_store (setFile w f) Hc Hn).
    rewrite (Authenticate_without_store w Hc Hn).
    apply authenticateWithoutStore_ignoresFile. }
  split; [|exact H3].
  specialize (H3 (file w)). rewrite setFile_same in H3.
  apply (f_equal snd) in H3. cbn [snd] in H3.
  rewrite H3 at 1. reflexivity.
Qed.

(** ** A run that fails *)

Lemma yields_ret (r : option Session.t * option error) :
  yieldsSessionOrKeeps (ret r).
Proof. intros w. right. left. reflexivity. Qed.

Lemma yields_bind {A : Type} (m : IO A)
  (k : A -> IO (option Session.t * option error)) :
  follows keptOrRemoved m -> (forall a, yieldsSessionOrKeeps (k a)) ->
  yieldsSessionOrKeeps (bind m k).
Proof.
  intros Hm Hk w. unfold bind.
  pose proof (Hm w) as H1. destruct (m w) as [a w1]. cbn [snd] in H1.
  destruct (Hk a w1) as [H2|H2]; [left; exact H2|].
  right. exact (RelationClasses.PreOrder_Transitive w w1 _ H1 H2).
Qed.

Ltac yields_step :=
  lazymatch goal with
  | |- yieldsSessionOrKeeps (ret _) => apply yields_ret
  | |- yieldsSessionOrKeeps (bind _ _) =>
      apply yields_bind;
      [ first [ apply Delete_keptOrRemoved
              | apply kept_of_stored; repeat frame_step; try keeps_leaf ]
      | intro ]
  | |- yieldsSessionOrKeeps (match ?x with _ => _ end) => destruct x
  end.

Lemma Load_keptOrRemoved (u : string) : follows keptOrRemoved (Load X u).
Proof.
  unfold Load.
  repeat first [ frame_step | apply Delete_keptOrRemoved ];
    try (apply kept_of_stored; keeps_leaf).
Qed.

Lemma handleSessionRefresh_yields (s : Session.t) (reason : Msg) :
  yieldsSessionOrKeeps (handleSessionRefresh X s reason).
Proof.
  unfold handleSessionRefresh.
  yields_step. yields_step.
  apply yields_bind; [apply kept_of_stored; apply RefreshSession_stored|].
  intros [refreshed|err].
  - intros w. left. exists refreshed. rewrite !seq_run. reflexivity.
  - repeat yields_step.
Qed.

Lemma tryExistingSession_yields : yieldsSessionOrKeeps (tryExistingSession X).
Proof.
  unfold tryExistingSession.
  yields_step.
  apply yields_bind; [apply Load_keptOrRemoved|].
  intros [[saved t] err].
  destruct err as [e|]; [repeat yields_step|].
  destruct saved as [saved|]; [|apply yields_ret].
  destruct (Config.ForceRefresh a); [apply handleSessionRefresh_yields|].
  destruct ((t <? refreshThreshold X) && (0 <? t));
    [apply handleSessionRefresh_yields|].
  apply yields_bind; [apply kept_of_stored; apply VerifySession_stored|].
  intros [|].
  - intros w. left. exists saved. rewrite !seq_run. reflexivity.
  - repeat yields_step.
Qed.

Lemma handleExistingSession_none (w w' : World) :
  handleExistingSession X w = (None, w') -> keptOrRemoved w w'.
Proof.
  unfold handleExistingSession. unfold bind at 1. unfold getConfig at 1.
  destruct (Config.ClearSession (config w)).
  - rewrite !seq_run. unfold ret. intros H. inversion H.
    apply (Delete_keptOrRemoved (snd (print MsgClearing w))).
  - destruct (Config.NoSession (config w)).
    + intros H. inversion H. left. reflexivity.
    + unfold bind.
      destruct (tryExistingSession_yields w) as [[s Hs]|Hk].
      * destruct (tryExistingSession X w) as [r w1]. cbn in Hs. subst r.
        discriminate.
      * destruct (tryExistingSession X w) as [[[s|] [e|]] w1];
          intros H; inversion H; subst; exact Hk.
Qed.

Lemma authenticateFresh_failure_keeps_file (w w' : World) (e : error) :
  authenticateFresh X w = (Err e, w') -> file w' = file w.
Proof.
  unfold authenticateFresh.
  destruct (ensurePassword w) as [[e1|] w1] eqn:E1;
    rewrite (run_bind _ _ _ _ _ E1).
  { intros H. inversion H. subst.
    exact (follows_run _ _ _ _ _ ensurePassword_stored E1). }
  destruct (performFreshAuth X w1) as [[s|e2] w2] eqn:E2;
    rewrite (run_bind _ _ _ _ _ E2).
  2:{ intros H. inversion H. subst.
      pose proof (follows_run _ _ _ _ _ ensurePassword_stored E1) as F1.
      pose proof (follows_run _ _ _ _ _ (performFreshAuth_stored X) E2) as F2.
      unfold keeps, stored in *. congruence. }
  destruct (upgradeSessionIfNeeded X s w2) as [[s' [e3|]] w3] eqn:E3;
    rewrite (run_bind _ _ _ _ _ E3).
  - intros H. inversion H. subst.
    pose proof (follows_run _ _ _ _ _ ensurePassword_stored E1) as F1.
    pose proof (follows_run _ _ _ _ _ (performFreshAuth_stored X) E2) as F2.
    pose proof (follows_run _ _ _ _ _ (upgradeSessionIfNeeded_stored X s) E3) as F3.
    unfold keeps, stored in *. congruence.
  - rewrite seq_run. discriminate.
Qed.

(** X11. A run that fails never leaves a new session behind: when
    [Authenticate] returns an error the session file is what it was
    before the run, or it has been removed. *)
Theorem failed_run_leaves_no_new_session :
  forall (w : World) (e : error),
    fst (Authenticate X w) = Err e ->
    file (snd (Authenticate X w)) = file w
    \/ file (snd (Authenticate X w)) = None.
Proof.
  intros w e. unfold Authenticate.
  destruct (ensureUsername w) as [[e1|] w1] eqn:E1;
    rewrite (run_bind _ _ _ _ _ E1).
  { intros _. left. exact (follows_run _ _ _ _ _ ensureUsername_stored E1). }
  pose proof (follows_run _ _ _ _ _ ensureUsername_stored E1 : file w1 = file w)
    as F1.
  destruct (handleExistingSession X w1) as [[s|] w2] eqn:E2;
    rewrite (run_bind _ _ _ _ _ E2); [discriminate|].
  pose proof (handleExistingSession_none w1 w2 E2) as K2.
  destruct (authenticateFresh X w2) as [[s|e3] w3] eqn:E3; [discriminate|].
  intros _. cbn [snd].
  rewrite (authenticateFresh_failure_keeps_file w2 w3 e3 E3).
  destruct K2 as [K2|K2]; [left; congruence|right; exact K2].
Qed.

End RunFacts.

Section TrafficFacts.

Variable X : Externals.

(** ** How many requests a run sends *)

Lemma Delete_sends_nothing : follows (keeps traffic) Delete.
Proof. unfold Delete. keeps_all. Qed.

Lemma saveSessionIfEnabled_sends_nothing (s : Session.t) :
  follows (keeps traffic) (saveSessionIfEnabled X s).
Proof.
  unfold saveSessionIfEnabled.
  repeat first [ apply Save_traffic | frame_step ]; try keeps_leaf.
Qed.

Lemma getAuthInfo_sends_one : sendsAtMost 1 (getAuthInfo X).
Proof.
  unfold getAuthInfo, NewRequest.
  repeat first [ budget_step budget_Do | apply sendsAtMost_ret ].
Qed.

Lemma sendAuthRequest_sends_one (authReq : list (string * jvalue)) :
  sendsAtMost 1 (sendAuthRequest X authReq).
Proof.
  unfold sendAuthRequest, NewRequest.
  repeat first [ budget_step budget_Do | apply sendsAtMost_ret ].
Qed.

Lemma submit2FA_sends_one (s : Session.t) (code : string) :
  sendsAtMost 1 (submit2FA X s code).
Proof.
  unfold submit2FA, NewRequest.
  repeat first [ budget_step budget_Do | apply sendsAtMost_ret ].
Qed.

Lemma RefreshSession_sends_one (url : string) (s : Session.t) :
  sendsAtMost 1 (RefreshSession X url s).
Proof.
  unfold RefreshSession, NewRequest.
  repeat first [ budget_step budget_Do | apply sendsAtMost_ret ].
Qed.

Lemma VerifySession_sends_one (url : string) (s : Session.t) :
  sendsAtMost 1 (VerifySession X url s).
Proof.
  unfold VerifySession, NewRequest.
  repeat first [ budget_step budget_Do | apply sendsAtMost_ret ].
Qed.

Lemma addTwoFactorCode_sends_nothing (a : AuthInfo.t)
  (authReq : list (string * jvalue)) :
  follows (keeps traffic) (addTwoFactorCode a authReq).
Proof. unfold addTwoFactorCode, get2FACode. keeps_all. Qed.

Lemma generateSRPProofs_sends_nothing (a : AuthInfo.t) :
  follows (keeps traffic) (generateSRPProofs a).
Proof.
  intros w. unfold generateSRPProofs. destruct (srp _ _ _ _ _ _ _); reflexivity.
Qed.

Lemma performFreshAuth_sends_two : sendsAtMost 2 (performFreshAuth X).
Proof.
  unfold performFreshAuth.
  apply (sendsAtMost_bind 1 1 2); [lia|apply getAuthInfo_sends_one|].
  intros [a|e]; [|apply sendsAtMost_ret].
  apply (sendsAtMost_bind 0 1 1);
    [lia|apply sendsAtMost_silent, generateSRPProofs_sends_nothing|].
  intros [p|e]; [|apply sendsAtMost_ret].
  apply (sendsAtMost_bind 0 1 1);
    [lia|apply sendsAtMost_silent; keeps_all|].
  intros c.
  apply (sendsAtMost_bind 0 1 1);
    [lia|apply sendsAtMost_silent, addTwoFactorCode_sends_nothing|].
  intros [r|e]; [|apply sendsAtMost_ret].
  apply (sendsAtMost_bind 1 0 1); [lia|apply sendAuthRequest_sends_one|].
  intros [s|e]; [|apply sendsAtMost_ret].
  destruct (negb _); apply sendsAtMost_ret.
Qed.

Lemma upgradeSessionIfNeeded_sends_one (s : Session.t) :
  sendsAtMost 1 (upgradeSessionIfNeeded X s).
Proof.
  unfold upgradeSessionIfNeeded.
  destruct (checkSessionScopes s) as [v t].
  destruct (v || negb t); [apply sendsAtMost_ret|].
  apply (sendsAtMost_bind 0 1 1); [lia|apply sendsAtMost_silent; keeps_all|].
  intros _.
  apply (sendsAtMost_bind 0 1 1);
    [lia|apply sendsAtMost_silent, get2FACode_traffic|].
  intros [code|e]; [|apply sendsAtMost_ret].
  apply (sendsAtMost_bind 1 0 1); [lia|apply submit2FA_sends_one|].
  intros [sc|e]; [|apply sendsAtMost_ret].
  apply (sendsAtMost_bind 0 0 0); [lia|apply sendsAtMost_silent; keeps_all|].
  intros _. apply sendsAtMost_ret.
Qed.

Lemma authenticateFresh_sends_three : sendsAtMost 3 (authenticateFresh X).
Proof.
  unfold authenticateFresh.
  apply (sendsAtMost_bind 0 3 3);
    [lia|apply sendsAtMost_silent, ensurePassword_traffic|].
  intros [e|]; [apply sendsAtMost_ret|].
  apply (sendsAtMost_bind 2 1 3); [lia|apply performFreshAuth_sends_two|].
  intros [s|e]; [|apply sendsAtMost_ret].
  apply (sendsAtMost_bind 1 0 1); [lia|apply upgradeSessionIfNeeded_sends_one|].
  intros [s' [e|]]; [apply sendsAtMost_ret|].
  apply (sendsAtMost_bind 0 0 0);
    [lia|apply sendsAtMost_silent, saveSessionIfEnabled_sends_nothing|].
  intros _. apply sendsAtMost_ret.
Qed.

Lemma handleSessionRefresh_sends_one (s : Session.t) (reason : Msg) :
  sendsAtMost 1 (handleSessionRefresh X s reason).
Proof.
  unfold handleSessionRefresh.
  apply (sendsAtMost_bind 0 1 1); [lia|apply sendsAtMost_silent; keeps_all|].
  intros _.
  apply (sendsAtMost_bind 0 1 1); [lia|apply sendsAtMost_silent; keeps_all|].
  intros c.
  apply (sendsAtMost_bind 1 0 1); [lia|apply RefreshSession_sends_one|].
  intros [r|e]; apply sendsAtMost_silent;
    repeat first [ apply Save_traffic | apply Delete_sends_nothing
                 | frame_step ]; try keeps_leaf.
Qed.

Lemma tryExistingSession_sends_one : sendsAtMost 1 (tryExistingSession X).
Proof.
  unfold tryExistingSession.
  apply (sendsAtMost_bind 0 1 1); [lia|apply sendsAtMost_silent; keeps_all|].
  intros c.
  apply (sendsAtMost_bind 0 1 1);
    [lia|apply sendsAtMost_silent, Load_traffic|].
  intros [[saved t] [e|]].
  { apply sendsAtMost_silent. keeps_all. }
  destruct saved as [saved|]; [|apply sendsAtMost_ret].
  destruct (Config.ForceRefresh c); [apply handleSessionRefresh_sends_one|].
  destruct (_ && _); [apply handleSessionRefresh_sends_one|].
  apply (sendsAtMost_bind 1 0 1); [lia|apply VerifySession_sends_one|].
  intros [|]; apply sendsAtMost_silent;
    repeat first [ apply Delete_sends_nothing | frame_step ]; try keeps_leaf.
Qed.

Lemma handleExistingSession_sends_one :
  sendsAtMost 1 (handleExistingSession X).
Proof.
  unfold handleExistingSession.
  apply (sendsAtMost_bind 0 1 1); [lia|apply sendsAtMost_silent; keeps_all|].
  intros c.
  destruct (Config.ClearSession c).
  { apply sendsAtMost_silent.
    repeat first [ apply Delete_sends_nothing | frame_step ]; try keeps_leaf. }
  destruct (Config.NoSession c); [apply sendsAtMost_ret|].
  apply (sendsAtMost_bind 1 0 1); [lia|apply tryExistingSession_sends_one|].
  intros [[s|] [e|]]; apply sendsAtMost_ret.
Qed.

(** X12. A run of [Authenticate] sends at most four requests, whatever
    the servers answer and whatever is typed: the requests sent before
    stay in the log and at most four are added. The fresh login alone
    sends at most three, the reuse of a stored session at most one. *)
Theorem run_sends_at_most_four_requests :
  sendsAtMost 4 (Authenticate X)
  /\ sendsAtMost 3 (authenticateFresh X)
  /\ sendsAtMost 1 (handleExistingSession X).
Proof.
  split; [|split;
    [apply authenticateFresh_sends_three|apply handleExistingSession_sends_one]].
  unfold Authenticate.
  apply (sendsAtMost_bind 0 4 4);
    [lia|apply sendsAtMost_silent, ensureUsername_traffic|].
  intros [e|]; [apply sendsAtMost_ret|].
  apply (sendsAtMost_bind 1 3 4); [lia|apply handleExistingSession_sends_one|].
  intros [s|]; [apply sendsAtMost_ret|].
  apply authenticateFresh_sends_three.
Qed.

End TrafficFacts.

Section FreshLoginFacts.

Variable X : Externals.

(** ** What a fresh login has checked when it returns a session *)

Lemma getAuthInfo_ok (w w' : World) (a : AuthInfo.t) :
  getAuthInfo X w = (Ok a, w') ->
  exists (body : string) (rest : list HttpOutcome) (r : Request),
    remote w = Response 200 (Some body) :: rest
    /\ jsonUnmarshalAuthInfo X body = Some a
    /\ AuthInfo.Code a = 1000
    /\ AuthInfo.Modulus a <> ""
    /\ AuthInfo.ServerEphemeral a <> ""
    /\ req_url r = Config.APIURL (config w) ++ "/core/v4/auth/info"
    /\ w' = setRemote w rest (sent w ++ [r]).
Proof.
  unfold getAuthInfo, bind, getConfig, NewRequest, ret.
  destruct (urlParses X _); [|discriminate].
  unfold Do.
  destruct (remote w) as [|[|status [body|]] rest]; try discriminate.
  destruct (status =? 200) eqn:Hs; cbn [negb]; [|discriminate].
  destruct (jsonUnmarshalAuthInfo X body) as [a'|] eqn:Hj; [|discriminate].
  destruct (AuthInfo.Code a' =? CodeSuccess) eqn:Hc; cbn [negb]; [|discriminate].
  destruct (String.eqb (AuthInfo.Modulus a') "") eqn:Hm; [discriminate|].
  destruct (String.eqb (AuthInfo.ServerEphemeral a') "") eqn:He; [discriminate|].
  intros H. inversion H. subst a' w'. clear H.
  apply Z.eqb_eq in Hs, Hc. subst status.
  apply String.eqb_neq in Hm, He.
  eexists body, rest, _. repeat split; try eassumption; reflexivity.
Qed.

Lemma sendAuthRequest_ok (authReq : list (string * jvalue)) (w w' : World)
  (s : Session.t) :
  sendAuthRequest X authReq w = (Ok s, w') ->
  exists (body : string) (rest : list HttpOutcome) (r : Request),
    remote w = Response 200 (Some body) :: rest
    /\ jsonUnmarshalSession X body = Some s
    /\ Session.Code s = 1000
    /\ req_url r = Config.APIURL (config w) ++ "/core/v4/auth"
    /\ req_body r = authReq
    /\ w' = setRemote w rest (sent w ++ [r]).
Proof.
  unfold sendAuthRequest, bind, getConfig, NewRequest, ret.
  destruct (urlParses X _); [|discriminate].
  unfold Do.
  destruct (remote w) as [|[|status [body|]] rest]; try discriminate.
  destruct (status =? 200) eqn:Hs; cbn [negb]; [|discriminate].
  destruct (jsonUnmarshalSession X body) as [s'|] eqn:Hj; [|discriminate].
  destruct (Session.Code s' =? CodeMailboxPasswordError); [discriminate|].
  destruct (Session.Code s' =? CodeSuccess) eqn:Hc; cbn [negb]; [|discriminate].
  intros H. inversion H. subst s' w'. clear H.
  apply Z.eqb_eq in Hs, Hc. subst status.
  eexists body, rest, _. repeat split; try eassumption; reflexivity.
Qed.

Lemma addTwoFactorCode_exchange (a : AuthInfo.t)
  (authReq : list (string * jvalue)) :
  follows (keeps exchange) (addTwoFactorCode a authReq).
Proof. unfold addTwoFactorCode, get2FACode. keeps_all. Qed.

Lemma exchange_eq (w w' : World) :
  exchange w' = exchange w ->
  config w' = config w /\ srp w' = srp w /\ sent w' = sent w
  /\ remote w' = remote w /\ file w' = file w.
Proof. unfold exchange. intros H. inversion H. auto. Qed.

(** X13. [performFreshAuth] returns a session only when every check of
    the exchange has passed: both answers came with status 200, the
    authentication information has code 1000 and a modulus and a server
    ephemeral that are not empty, go-srp produced proofs from the
    configured credentials, the session has code 1000 and its server
    proof is the base64 text of the proof go-srp expects. Exactly two
    requests were sent, to /core/v4/auth/info and then to
    /core/v4/auth, and the session file was not touched. *)
Theorem fresh_login_returns_only_verified_sessions :
  forall (w w' : World) (s : Session.t),
    performFreshAuth X w = (Ok s, w') ->
    exists (body1 body2 : string) (rest : list HttpOutcome)
           (authInfo : AuthInfo.t) (proofs : Proofs.t) (r1 r2 : Request),
      remote w = Response 200 (Some body1) :: Response 200 (Some body2) :: rest
      /\ jsonUnmarshalAuthInfo X body1 = Some authInfo
      /\ AuthInfo.Code authInfo = 1000
      /\ AuthInfo.Modulus authInfo <> ""
      /\ AuthInfo.ServerEphemeral authInfo <> ""
      /\ srp w (AuthInfo.Version authInfo) (Config.Username (config w))
           (Config.Password (config w)) (AuthInfo.Salt authInfo)
           (AuthInfo.Modulus authInfo) (AuthInfo.ServerEphemeral authInfo)
         = Generated proofs
      /\ jsonUnmarshalSession X body2 = Some s
      /\ Session.Code s = 1000
      /\ Session.ServerProof s
         = GoStrings.EncodeToString (Proofs.ExpectedServerProof proofs)
      /\ req_url r1 = Config.APIURL (config w) ++ "/core/v4/auth/info"
      /\ req_url r2 = Config.APIURL (config w) ++ "/core/v4/auth"
      /\ sent w' = (sent w ++ [r1; r2])%list
      /\ remote w' = rest
      /\ file w' = file w.
Proof.
  intros w w' s. unfold performFreshAuth.
  destruct (getAuthInfo X w) as [[a|e] w1] eqn:E1;
    rewrite (run_bind _ _ _ _ _ E1); [|discriminate].
  destruct (getAuthInfo_ok _ _ _ E1)
    as (body1 & rest1 & r1 & Hr1 & Hj1 & Hc1 & Hm1 & He1 & Hu1 & Hw1).
  destruct (generateSRPProofs a w1) as [[p|e] w2] eqn:E2;
    rewrite (run_bind _ _ _ _ _ E2); [|discriminate].
  pose proof (generateSRPProofs_world _ _ _ _ E2) as Hw2. subst w2.
  unfold bind at 1. unfold getConfig at 1.
  destruct (addTwoFactorCode a (buildAuthRequest (config w1) a p) w1)
    as [[authReq|e] w3] eqn:E3;
    rewrite (run_bind _ _ _ _ _ E3); [|discriminate].
  pose proof (follows_run _ _ _ _ _ (addTwoFactorCode_exchange _ _) E3) as F3.
  apply exchange_eq in F3. destruct F3 as (F3c & F3s & F3t & F3r & F3f).
  destruct (sendAuthRequest X authReq w3) as [[s'|e] w4] eqn:E4;
    rewrite (run_bind _ _ _ _ _ E4); [|discriminate].
  destruct (sendAuthRequest_ok _ _ _ _ E4)
    as (body2 & rest2 & r2 & Hr2 & Hj2 & Hc2 & Hu2 & _ & Hw4).
  destruct (String.eqb (Session.ServerProof s') _) eqn:Hp; cbn [negb];
    [|discriminate].
  intros H. inversion H. subst s' w'. clear H.
  apply String.eqb_eq in Hp.
  assert (Hsrp : srp w (AuthInfo.Version a) (Config.Username (config w))
                   (Config.Password (config w)) (AuthInfo.Salt a)
                   (AuthInfo.Modulus a) (AuthInfo.ServerEphemeral a)
                 = Generated p).
  { unfold generateSRPProofs in E2. rewrite Hw1 in E2. cbn in E2.
    destruct (srp w _ _ _ _ _ _); inversion E2. reflexivity. }
  assert (Hrest : remote w3 = rest1).
  { rewrite F3r, Hw1. reflexivity. }
  rewrite Hrest in Hr2. subst rest1.
  exists body1, body2, rest2, a, p, r1, r2.
  repeat split; try assumption.
  - rewrite Hu2, F3c, Hw1. reflexivity.
  - rewrite Hw4. cbn. rewrite F3t, Hw1. cbn. rewrite <- app_assoc. reflexivity.
  - rewrite Hw4. reflexivity.
  - rewrite Hw4. cbn. rewrite F3f, Hw1. reflexivity.
Qed.

End FreshLoginFacts.

(* ================================================================== *)
(** * Further properties: errors.go *)
(* ================================================================== *)

Lemma to_int_read_back (a : Z) :
  NilZero.int_of_string (NilZero.string_of_int (Z.to_int a))
  = Some (Z.to_int a).
Proof.
  apply NilZero.isi; destruct a as [|p|p]; cbn; intros H; inversion H as [H'];
    exact (DecimalPos.Unsigned.to_uint_nonnil p H').
Qed.

Lemma formatInt_inj (a b : Z) : formatInt a = formatInt b -> a = b.
Proof.
  unfold formatInt. intros H.
  apply (f_equal NilZero.int_of_string) in H.
  rewrite !to_int_read_back in H.
  injection H as H. apply DecimalZ.to_int_inj. exact H.
Qed.

Lemma getErrorMessage_inj (c1 c2 : Z) :
  getErrorMessage c1 = getErrorMessage c2 -> c1 = c2.
Proof.
  unfold getErrorMessage.
  destruct (c1 =? CodeWrongPassword) eqn:A1;
  [|destruct (c1 =? CodeWrongPasswordFormat) eqn:A2;
  [|destruct (c1 =? CodeCaptchaRequired) eqn:A3;
  [|destruct (c1 =? Code2FARequiredForVPN) eqn:A4;
  [|destruct (c1 =? CodeAccountDeleted) eqn:A5;
  [|destruct (c1 =? CodeAccountDisabled) eqn:A6;
  [|destruct (c1 =? CodeMailboxPasswordError) eqn:A7]]]]]];
  (destruct (c2 =? CodeWrongPassword) eqn:B1;
  [|destruct (c2 =? CodeWrongPasswordFormat) eqn:B2;
  [|destruct (c2 =? CodeCaptchaRequired) eqn:B3;
  [|destruct (c2 =? Code2FARequiredForVPN) eqn:B4;
  [|destruct (c2 =? CodeAccountDeleted) eqn:B5;
  [|destruct (c2 =? CodeAccountDisabled) eqn:B6;
  [|destruct (c2 =? CodeMailboxPasswordError) eqn:B7]]]]]]);
  intros H;
  try (cbn in H; discriminate H);
  try (repeat match goal with
              | E : (_ =? _) = true |- _ => apply Z.eqb_eq in E
              end; congruence).
  cbn in H. injection H as H. apply formatInt_inj. exact H.
Qed.

(** X14. The message of an error tells its code: [getErrorMessage]
    gives two different codes two different messages, whether the codes
    are among the seven of the table or get the text made of the
    decimal code; so do the errors of [NewError]. *)
Theorem error_message_determines_the_code :
  forall c1 c2 : Z,
    c1 <> c2 ->
    getErrorMessage c1 <> getErrorMessage c2 /\ NewError c1 <> NewError c2.
Proof.
  intros c1 c2 H. split.
  - intros E. apply H. apply getErrorMessage_inj. exact E.
  - intros E. apply H. unfold NewError in E. inversion E. reflexivity.
Qed.

(** A case distinction on a scrutinee that holds no other one. *)
Ltac innermost_case :=
  match goal with
  | |- context [match ?x with _ => _ end] =>
      lazymatch x with
      | context [match _ with _ => _ end] => fail
      | _ => destruct x; cbn
      end
  end.

Section ErrorFacts.

Variable X : Externals.

Lemma getAuthInfo_plain (w : World) (e : error) :
  fst (getAuthInfo X w) = Err e -> asAuthError e = None.
Proof.
  unfold getAuthInfo, bind, getConfig, NewRequest, ret, Do.
  repeat innermost_case; cbn; intros H; inversion H; reflexivity.
Qed.

Lemma get2FACode_plain (w : World) (e : error) :
  fst (get2FACode w) = Err e -> asAuthError e = None.
Proof.
  unfold get2FACode, bind, print, ReadString, ret.
  repeat innermost_case; cbn; intros H; inversion H; reflexivity.
Qed.

Lemma addTwoFactorCode_plain (a : AuthInfo.t) (r : list (string * jvalue))
  (w : World) (e : error) :
  fst (addTwoFactorCode a r w) = Err e -> asAuthError e = None.
Proof.
  unfold addTwoFactorCode.
  destruct (_ && _); [|discriminate].
  unfold bind. pose proof (get2FACode_plain w) as H.
  destruct (get2FACode w) as [[c|e'] w1]; cbn in *; [discriminate|].
  intros E. inversion E. subst. apply H. reflexivity.
Qed.

Lemma generateSRPProofs_plain (a : AuthInfo.t) (w : World) (e : error) :
  fst (generateSRPProofs a w) = Err e -> asAuthError e = None.
Proof.
  unfold generateSRPProofs.
  destruct (srp w _ _ _ _ _ _); cbn; intros H; inversion H; reflexivity.
Qed.

Lemma sendAuthRequest_coded (r : list (string * jvalue)) (w : World)
  (e : error) (code : Z) :
  fst (sendAuthRequest X r w) = Err e -> asAuthError e = Some code ->
  e = NewError code.
Proof.
  unfold sendAuthRequest, bind, getConfig, NewRequest, ret, Do.
  repeat innermost_case; cbn; intros H; inversion H; cbn; intros H';
    inversion H'; reflexivity.
Qed.

Lemma submit2FA_coded (s : Session.t) (c : string) (w : World)
  (e : error) (code : Z) :
  fst (submit2FA X s c w) = Err e -> asAuthError e = Some code ->
  e = NewError code.
Proof.
  unfold submit2FA, bind, getConfig, NewRequest, ret, Do.
  repeat innermost_case; cbn; intros H; inversion H; cbn; intros H';
    inversion H'; reflexivity.
Qed.

Lemma performFreshAuth_coded (w : World) (e : error) (code : Z) :
  fst (performFreshAuth X w) = Err e -> asAuthError e = Some code ->
  e = NewError code.
Proof.
  unfold performFreshAuth. unfold bind at 1.
  pose proof (getAuthInfo_plain w) as H1.
  destruct (getAuthInfo X w) as [[a|e1] w1]; cbn [fst] in *.
  2:{ cbn. intros H. inversion H. subst. cbn. rewrite (H1 e1 eq_refl).
      discriminate. }
  unfold bind at 1.
  pose proof (generateSRPProofs_plain a w1) as H2.
  destruct (generateSRPProofs a w1) as [[p|e2] w2]; cbn [fst] in *.
  2:{ cbn. intros H. inversion H. subst. rewrite (H2 e eq_refl).
      discriminate. }
  unfold bind at 1. unfold getConfig at 1. unfold bind at 1.
  pose proof (addTwoFactorCode_plain a (buildAuthRequest (config w2) a p) w2)
    as H3.
  destruct (addTwoFactorCode a (buildAuthRequest (config w2) a p) w2)
    as [[r|e3] w3]; cbn [fst] in *.
  2:{ cbn. intros H. inversion H. subst. rewrite (H3 e eq_refl).
      discriminate. }
  unfold bind.
  pose proof (sendAuthRequest_coded r w3) as H4.
  destruct (sendAuthRequest X r w3) as [[s|e4] w4]; cbn [fst] in *.
  - destruct (negb _); cbn; intros H; inversion H. discriminate.
  - cbn. intros H. inversion H. subst. apply H4. reflexivity.
Qed.

Lemma upgradeSessionIfNeeded_coded (s : Session.t) (w : World) (e : error)
  (code : Z) :
  snd (fst (upgradeSessionIfNeeded X s w)) = Some e ->
  asAuthError e = Some code ->
  e = Err2FAVerification (NewError code).
Proof.
  unfold upgradeSessionIfNeeded.
  destruct (checkSessionScopes s) as [v t].
  destruct (v || negb t); [discriminate|].
  rewrite seq_run. unfold bind at 1.
  pose proof (get2FACode_plain (snd (print MsgLacksVPNScope w))) as H1.
  destruct (get2FACode (snd (print MsgLacksVPNScope w))) as [[c|e1] w1];
    cbn [fst] in *.
  2:{ cbn. intros H. inversion H. subst. cbn. rewrite (H1 e1 eq_refl).
      discriminate. }
  unfold bind at 1.
  pose proof (submit2FA_coded s c w1) as H2.
  destruct (submit2FA X s c w1) as [[sc|e2] w2]; cbn [fst] in *.
  - rewrite seq_run. discriminate.
  - cbn. intros H. inversion H. subst. cbn. intros H'.
    rewrite (H2 e2 code eq_refl H'). reflexivity.
Qed.

Lemma ensureUsername_plain (w : World) (e : error) :
  fst (ensureUsername w) = Some e -> asAuthError e = None.
Proof.
  unfold ensureUsername, bind, getConfig, print, ReadString, ret.
  repeat innermost_case; cbn; intros H; inversion H; reflexivity.
Qed.

Lemma ensurePassword_plain (w : World) (e : error) :
  fst (ensurePassword w) = Some e -> asAuthError e = None.
Proof.
  unfold ensurePassword, bind, getConfig, print, ReadPassword, ret.
  repeat innermost_case; cbn; intros H; inversion H; reflexivity.
Qed.

Lemma Authenticate_coded (w : World) (e : error) (code : Z) :
  fst (Authenticate X w) = Err e -> asAuthError e = Some code ->
  e = NewError code \/ e = Err2FAVerification (NewError code).
Proof.
  unfold Authenticate. unfold bind at 1.
  pose proof (ensureUsername_plain w) as H1.
  destruct (ensureUsername w) as [[e1|] w1]; cbn [fst] in *.
  { cbn. intros H. inversion H. subst. rewrite (H1 e eq_refl). discriminate. }
  unfold bind at 1.
  destruct (handleExistingSession X w1) as [[s|] w2]; [discriminate|].
  unfold authenticateFresh. unfold bind at 1.
  pose proof (ensurePassword_plain w2) as H2.
  destruct (ensurePassword w2) as [[e2|] w3]; cbn [fst] in *.
  { cbn. intros H. inversion H. subst. rewrite (H2 e eq_refl). discriminate. }
  unfold bind at 1.
  pose proof (performFreshAuth_coded w3) as H3.
  destruct (performFreshAuth X w3) as [[s|e3] w4]; cbn [fst] in *.
  2:{ cbn. intros H. inversion H. subst. intros H'. left.
      apply H3; [reflexivity|exact H']. }
  unfold bind at 1.
  pose proof (upgradeSessionIfNeeded_coded s w4) as H4.
  destruct (upgradeSessionIfNeeded X s w4) as [[s' [e4|]] w5];
    cbn [fst snd] in *.
  - cbn. intros H. inversion H. subst. intros H'. right.
    apply H4; [reflexivity|exact H'].
  - rewrite seq_run. discriminate.
Qed.

(** X15. Which errors of a run [IsAccountError] and [IsCaptchaError]
    recognise: when [Authenticate] fails with an error that one of them
    accepts, the error is [NewError code] of the login answer, or that
    of the second-factor answer wrapped in "2FA verification failed";
    the code is 10002 or 10003 for an account error and 9001 for a
    CAPTCHA error, and no error is both. A code in the answer to the
    authentication-information request never gives such an error. *)
Theorem classified_errors_of_a_run :
  forall (w : World) (e : error),
    fst (Authenticate X w) = Err e ->
    IsAccountError e = true \/ IsCaptchaError e = true ->
    exists code : Z,
      (e = NewError code \/ e = Err2FAVerification (NewError code))
      /\ IsAccountError e = ((code =? 10002) || (code =? 10003))
      /\ IsCaptchaError e = (code =? 9001)
      /\ IsAccountError e && IsCaptchaError e = false.
Proof.
  intros w e HA HC.
  destruct (asAuthError e) as [code|] eqn:Hc.
  2:{ unfold IsAccountError, IsCaptchaError in HC. rewrite Hc in HC.
      destruct HC; discriminate. }
  exists code.
  split; [exact (Authenticate_coded w e code HA Hc)|].
  unfold IsAccountError, IsCaptchaError. rewrite Hc.
  unfold CodeAccountDeleted, CodeAccountDisabled, CodeCaptchaRequired.
  repeat split.
  destruct (code =? 10002) eqn:E1; [apply Z.eqb_eq in E1; subst; reflexivity|].
  destruct (code =? 10003) eqn:E2; [apply Z.eqb_eq in E2; subst; reflexivity|].
  reflexivity.
Qed.

End ErrorFacts.

(* ================================================================== *)
(** * Further properties: flags.go, the lists *)
(* ================================================================== *)

Lemma stripPrefix_app (p s s' : list ascii) :
  GoStrings.stripPrefix p s = Some s' -> s = (p ++ s')%list.
Proof.
  revert s. induction p as [|a p IH]; intros s H; cbn in H.
  - inversion H. reflexivity.
  - destruct s as [|b s]; [discriminate|].
    destruct (Ascii.eqb a b) eqn:E; [|discriminate].
    apply Ascii.eqb_eq in E. subst b. cbn. f_equal. apply IH. exact H.
Qed.

Lemma stripPrefix_of_app (p x : list ascii) :
  GoStrings.stripPrefix p (p ++ x) = Some x.
Proof.
  induction p as [|a p IH]; cbn; [reflexivity|].
  rewrite Ascii.eqb_refl. exact IH.
Qed.

Lemma firstStrip_some (ps : list (list ascii)) (s s' : list ascii) :
  GoStrings.firstStrip ps s = Some s' ->
  exists p, In p ps /\ s = (p ++ s')%list.
Proof.
  induction ps as [|p ps IH]; cbn; [discriminate|].
  destruct (GoStrings.stripPrefix p s) as [t|] eqn:E.
  - intros H. inversion H. subst t. exists p. split; [left; reflexivity|].
    apply stripPrefix_app. exact E.
  - intros H. destruct (IH H) as (q & Hq & Hs). exists q. split; [right|]; assumption.
Qed.

Lemma firstStrip_prefix (ps : list (list ascii)) (a b : list ascii) :
  GoStrings.firstStrip ps (a ++ b) = None -> GoStrings.firstStrip ps a = None.
Proof.
  induction ps as [|p ps IH]; cbn; [reflexivity|].
  destruct (GoStrings.stripPrefix p a) as [t|] eqn:E.
  - apply stripPrefix_app in E. subst a. rewrite <- app_assoc.
    rewrite stripPrefix_of_app. discriminate.
  - destruct (GoStrings.stripPrefix p (a ++ b)); [discriminate|]. exact IH.
Qed.

Lemma trimLeftWith_suffix (ps : list (list ascii)) (fuel : nat)
  (s : list ascii) :
  exists pre, s = (pre ++ GoStrings.trimLeftWith ps fuel s)%list.
Proof.
  revert s. induction fuel as [|fuel IH]; intros s; cbn.
  - exists []. reflexivity.
  - destruct (GoStrings.firstStrip ps s) as [s'|] eqn:E.
    + destruct (firstStrip_some _ _ _ E) as (p & _ & Hs).
      destruct (IH s') as (pre & Hpre).
      exists (p ++ pre)%list. rewrite <- app_assoc, <- Hpre. exact Hs.
    + exists []. reflexivity.
Qed.

Lemma trimLeftWith_done (ps : list (list ascii)) :
  (forall p, In p ps -> p <> []) ->
  forall (fuel : nat) (s : list ascii),
    (List.length s <= fuel)%nat ->
    GoStrings.firstStrip ps (GoStrings.trimLeftWith ps fuel s) = None.
Proof.
  intros Hne. induction fuel as [|fuel IH]; intros s Hl; cbn.
  - destruct s; [|cbn in Hl; lia].
    destruct (GoStrings.firstStrip ps []) as [s'|] eqn:E; [|reflexivity].
    destruct (firstStrip_some _ _ _ E) as (p & Hp & Hs).
    destruct p; [exfalso; exact (Hne _ Hp eq_refl)|discriminate].
  - destruct (GoStrings.firstStrip ps s) as [s'|] eqn:E; [|exact E].
    apply IH. destruct (firstStrip_some _ _ _ E) as (p & Hp & Hs).
    subst s. rewrite length_app in Hl.
    destruct p; [exfalso; exact (Hne _ Hp eq_refl)|cbn in Hl; lia].
Qed.

Lemma trimLeftWith_fixed (ps : list (list ascii)) (fuel : nat)
  (s : list ascii) :
  GoStrings.firstStrip ps s = None -> GoStrings.trimLeftWith ps fuel s = s.
Proof. intros H. destruct fuel; cbn; [reflexivity|]. rewrite H. reflexivity. Qed.

Lemma spaceEncodings_nonempty (p : list ascii) :
  In p GoStrings.spaceEncodings -> p <> [].
Proof.
  intros H E. subst p. vm_compute in H.
  repeat (destruct H as [H|H]; [discriminate|]). exact H.
Qed.

Lemma reversed_spaceEncodings_nonempty (p : list ascii) :
  In p (map (@rev ascii) GoStrings.spaceEncodings) -> p <> [].
Proof.
  intros H E. subst p. vm_compute in H.
  repeat (destruct H as [H|H]; [discriminate|]). exact H.
Qed.

Lemma trimRight_prefix (s : list ascii) :
  exists post, s = (GoStrings.trimRight s ++ post)%list.
Proof.
  unfold GoStrings.trimRight.
  destruct (trimLeftWith_suffix (map (@rev ascii) GoStrings.spaceEncodings)
              (List.length s) (rev s)) as (pre & H).
  exists (rev pre).
  rewrite <- rev_app_distr, <- H, rev_involutive. reflexivity.
Qed.

Lemma TrimSpace_trimmed (s : string) : trimmed (GoStrings.TrimSpace s).
Proof.
  unfold trimmed, GoStrings.TrimSpace.
  rewrite list_ascii_of_string_of_list_ascii.
  set (l := GoStrings.trimLeft (list_ascii_of_string s)).
  split.
  - destruct (trimRight_prefix l) as (post & H).
    apply (firstStrip_prefix _ _ post). rewrite <- H.
    unfold l, GoStrings.trimLeft.
    apply trimLeftWith_done; [exact spaceEncodings_nonempty|].
    apply le_n.
  - unfold GoStrings.trimRight. rewrite rev_involutive.
    apply trimLeftWith_done; [exact reversed_spaceEncodings_nonempty|].
    rewrite length_rev. apply le_n.
Qed.

Lemma TrimSpace_of_trimmed (s : string) :
  trimmed s -> GoStrings.TrimSpace s = s.
Proof.
  intros [Hl Hr]. unfold GoStrings.TrimSpace, GoStrings.trimLeft.
  rewrite (trimLeftWith_fixed _ _ _ Hl).
  unfold GoStrings.trimRight. rewrite (trimLeftWith_fixed _ _ _ Hr).
  rewrite rev_involutive. apply string_of_list_ascii_of_string.
Qed.

Lemma TrimSpace_bytes (s : string) (c : ascii) :
  In c (list_ascii_of_string (GoStrings.TrimSpace s)) ->
  In c (list_ascii_of_string s).
Proof.
  unfold GoStrings.TrimSpace. rewrite list_ascii_of_string_of_list_ascii.
  intros H.
  destruct (trimRight_prefix (GoStrings.trimLeft (list_ascii_of_string s)))
    as (post & Hp).
  unfold GoStrings.trimLeft in Hp at 1.
  destruct (trimLeftWith_suffix GoStrings.spaceEncodings
              (List.length (list_ascii_of_string s)) (list_ascii_of_string s))
    as (pre & Hs).
  rewrite Hs. apply in_or_app. right.
  unfold GoStrings.trimLeft in H. rewrite Hp.
  apply in_or_app. left. exact H.
Qed.

Lemma Split_nonempty (s : string) (sep : ascii) : Strings.Split s sep <> [].
Proof.
  destruct s as [|c s]; cbn; [discriminate|].
  destruct (Ascii.eqb c sep); [discriminate|].
  destruct (Strings.Split s sep); discriminate.
Qed.

Lemma Split_pieces (s : string) (sep : ascii) (piece : string) :
  In piece (Strings.Split s sep) -> ~ In sep (list_ascii_of_string piece).
Proof.
  revert piece. induction s as [|c s IH]; intros piece; cbn.
  - intros [H|[]]. subst piece. intros [].
  - destruct (Ascii.eqb c sep) eqn:E.
    + intros [H|H]; [subst piece; intros []|apply IH; exact H].
    + destruct (Strings.Split s sep) as [|p ps] eqn:Es.
      * exfalso. exact (Split_nonempty s sep Es).
      * intros [H|H].
        -- subst piece. cbn. intros [H|H].
           ++ subst c. rewrite Ascii.eqb_refl in E. discriminate.
           ++ exact (IH p (or_introl eq_refl) H).
        -- apply IH. right. exact H.
Qed.

Lemma Split_piece (a : string) (sep : ascii) :
  ~ In sep (list_ascii_of_string a) -> Strings.Split a sep = [a].
Proof.
  induction a as [|c a IH]; cbn; [reflexivity|].
  intros H. destruct (Ascii.eqb c sep) eqn:E.
  - apply Ascii.eqb_eq in E. exfalso. apply H. left. exact E.
  - rewrite IH; [reflexivity|]. intros H'. apply H. right. exact H'.
Qed.

Lemma Split_cons (a rest : string) (sep : ascii) :
  ~ In sep (list_ascii_of_string a) ->
  Strings.Split (a ++ String sep rest) sep = a :: Strings.Split rest sep.
Proof.
  induction a as [|c a IH]; cbn.
  - intros _. rewrite Ascii.eqb_refl. reflexivity.
  - intros H. destruct (Ascii.eqb c sep) eqn:E.
    + apply Ascii.eqb_eq in E. exfalso. apply H. left. exact E.
    + rewrite IH; [reflexivity|]. intros H'. apply H. right. exact H'.
Qed.

Lemma Split_Join (l : list string) :
  l <> [] -> (forall x, In x l -> commaFree x) ->
  Strings.Split (Strings.Join l ",") ","%char = l.
Proof.
  induction l as [|a l IH]; [intros H; exfalso; apply H; reflexivity|].
  intros _ Hc. destruct l as [|b l].
  - cbn. apply Split_piece. apply Hc. left. reflexivity.
  - change (Strings.Join (a :: b :: l) ",")
      with (a ++ String ","%char (Strings.Join (b :: l) ","))%string.
    rewrite Split_cons; [|apply Hc; left; reflexivity].
    f_equal. apply IH; [discriminate|].
    intros x Hx. apply Hc. right. exact Hx.
Qed.

Lemma parse_loop (parts acc : list string) :
  fold_left
    (fun result part =>
       let part := GoStrings.TrimSpace part in
       if negb (String.eqb part "") then (result ++ [part])%list else result)
    parts acc
  = (acc ++ filter (fun p => negb (String.eqb p ""))
              (map GoStrings.TrimSpace parts))%list.
Proof.
  revert acc. induction parts as [|p parts IH]; intros acc; cbn.
  - symmetry. apply app_nil_r.
  - rewrite IH. destruct (negb _); [|reflexivity].
    rewrite <- app_assoc. reflexivity.
Qed.

Lemma parseCommaSeparatedList_filter (input : string) :
  parseCommaSeparatedList input
  = filter (fun p => negb (String.eqb p ""))
      (map GoStrings.TrimSpace (Strings.Split input ","%char)).
Proof. unfold parseCommaSeparatedList. apply parse_loop. Qed.

(** X16. Every element of the list [parseCommaSeparatedList] returns is
    a piece of the input between two commas with the white space around
    it taken off: it is not empty, it has no comma, and it has no white
    space at either end. *)
Theorem parsed_elements_are_clean :
  forall (input x : string),
    In x (parseCommaSeparatedList input) ->
    x <> "" /\ commaFree x /\ trimmed x
    /\ exists piece, In piece (Strings.Split input ","%char)
                     /\ x = GoStrings.TrimSpace piece.
Proof.
  intros input x. rewrite parseCommaSeparatedList_filter.
  intros H. apply filter_In in H. destruct H as [H Hne].
  apply in_map_iff in H. destruct H as (piece & Hx & Hp). subst x.
  split; [|split; [|split]].
  - apply String.eqb_neq. apply negb_true_iff. exact Hne.
  - intros Hc. apply TrimSpace_bytes in Hc.
    exact (Split_pieces _ _ _ Hp Hc).
  - apply TrimSpace_trimmed.
  - exists piece. split; [exact Hp|reflexivity].
Qed.

(** X17. Joining and parsing again gives the list back: for a list of
    elements that are not empty, have no comma and no white space at
    either end, [parseCommaSeparatedList] of the elements joined with
    commas is the list itself. *)
Theorem parse_of_joined_list_is_the_list :
  forall l : list string,
    (forall x, In x l -> x <> "" /\ commaFree x /\ trimmed x) ->
    parseCommaSeparatedList (Strings.Join l ",") = l.
Proof.
  intros l H. rewrite parseCommaSeparatedList_filter.
  destruct l as [|a l]; [reflexivity|].
  rewrite Split_Join; [|discriminate|intros x Hx; apply (H x Hx)].
  assert (Hm : map GoStrings.TrimSpace (a :: l) = a :: l).
  { rewrite <- (map_id (a :: l)) at 2. apply map_ext_in.
    intros x Hx. apply TrimSpace_of_trimmed. apply (H x Hx). }
  rewrite Hm.
  apply forallb_filter_id. apply forallb_forall.
  intros x Hx. apply negb_true_iff. apply String.eqb_neq. apply (H x Hx).
Qed.

(* ================================================================== *)
(** * Further properties: servers.go and client.go *)
(* ================================================================== *)

Section ServerFacts.

Variable K : ApiConstants.

Lemma filter_loop (cfg : Selection.t) (servers acc : list LogicalServer.t) :
  fold_left
    (fun filtered server =>
       if isServerEligible K cfg server then (filtered ++ [server])%list
       else filtered)
    servers acc
  = (acc ++ filter (isServerEligible K cfg) servers)%list.
Proof.
  revert acc. induction servers as [|s servers IH]; intros acc; cbn.
  - symmetry. apply app_nil_r.
  - rewrite IH. destruct (isServerEligible K cfg s); [|reflexivity].
    rewrite <- app_assoc. reflexivity.
Qed.

Lemma filterServers_filter (cfg : Selection.t)
  (servers : list LogicalServer.t) :
  filterServers K cfg servers = filter (isServerEligible K cfg) servers.
Proof. unfold filterServers. apply filter_loop. Qed.

Lemma matchCountry_In (countries : list string) (c : string) :
  matchCountry countries c = true <-> In c countries.
Proof.
  induction countries as [|a l IH]; cbn.
  - split; [discriminate|intros []].
  - destruct (String.eqb c a) eqn:E.
    + apply String.eqb_eq in E. subst a. split; [left; reflexivity|reflexivity].
    + apply String.eqb_neq in E. rewrite IH. split.
      * intros H. right. exact H.
      * intros [H|H]; [exfalso; apply E; symmetry; exact H|exact H].
Qed.

Lemma eligible_bool (online free tierFree p2p sc noP2P noSC country none : bool) :
  (if negb online then false
   else if (if free then negb tierFree else tierFree) then false
   else if p2p && negb sc && negb free && noP2P then false
   else if sc && noSC then false
   else if negb country then false
   else if none then false
   else true) = true
  <-> online = true
      /\ tierFree = free
      /\ (sc = true -> noSC = false)
      /\ (p2p = true -> sc = false -> free = false -> noP2P = false)
      /\ country = true
      /\ none = false.
Proof.
  destruct online, free, tierFree, p2p, sc, noP2P, noSC, country, none; cbn;
    intuition congruence.
Qed.

Lemma isServerEligible_spec (cfg : Selection.t) (s : LogicalServer.t) :
  isServerEligible K cfg s = true <->
  LogicalServer.Status s = 1
  /\ (if Selection.FreeOnly cfg then LogicalServer.Tier s = TierFree K
      else LogicalServer.Tier s <> TierFree K)
  /\ (Selection.SecureCoreOnly cfg = true ->
      Z.land (LogicalServer.Features s) (FeatureSecureCore K) <> 0)
  /\ (Selection.P2PServersOnly cfg = true ->
      Selection.SecureCoreOnly cfg = false ->
      Selection.FreeOnly cfg = false ->
      Z.land (LogicalServer.Features s) (FeatureP2P K) <> 0)
  /\ In (LogicalServer.ExitCountry s) (Selection.Countries cfg)
  /\ LogicalServer.Servers s <> [].
Proof.
  unfold isServerEligible, isCountryMatch, StatusOnline.
  rewrite eligible_bool, <- matchCountry_In.
  rewrite Z.eqb_eq, Nat.eqb_neq, !Z.eqb_neq, length_zero_iff_nil.
  assert (Ht : (LogicalServer.Tier s =? TierFree K) = Selection.FreeOnly cfg
               <-> (if Selection.FreeOnly cfg
                    then LogicalServer.Tier s = TierFree K
                    else LogicalServer.Tier s <> TierFree K)).
  { destruct (Selection.FreeOnly cfg);
      [apply Z.eqb_eq|apply Z.eqb_neq]. }
  rewrite Ht. reflexivity.
Qed.

(** X18. [filterServers] keeps exactly the servers that pass every
    test, in the order of the list: a server is in the result if and
    only if it is in the list, it is online, its tier is the free tier
    under the free-only switch and another tier without it, it has the
    Secure Core feature when that is asked for, it has the P2P feature
    when that is asked for and neither Secure Core nor free-only is,
    its exit country is one of the countries asked for, and it has a
    physical server. *)
Theorem filterServers_keeps_exactly_the_eligible :
  forall (cfg : Selection.t) (servers : list LogicalServer.t),
    filterServers K cfg servers = filter (isServerEligible K cfg) servers
    /\ forall s : LogicalServer.t,
         In s (filterServers K cfg servers) <->
         In s servers
         /\ LogicalServer.Status s = 1
         /\ (if Selection.FreeOnly cfg then LogicalServer.Tier s = TierFree K
             else LogicalServer.Tier s <> TierFree K)
         /\ (Selection.SecureCoreOnly cfg = true ->
             Z.land (LogicalServer.Features s) (FeatureSecureCore K) <> 0)
         /\ (Selection.P2PServersOnly cfg = true ->
             Selection.SecureCoreOnly cfg = false ->
             Selection.FreeOnly cfg = false ->
             Z.land (LogicalServer.Features s) (FeatureP2P K) <> 0)
         /\ In (LogicalServer.ExitCountry s) (Selection.Countries cfg)
         /\ LogicalServer.Servers s <> [].
Proof.
  intros cfg servers. split; [apply filterServers_filter|].
  intros s. rewrite filterServers_filter, filter_In, isServerEligible_spec.
  reflexivity.
Qed.

(** X19. The P2P switch has no effect on the selection under the Secure
    Core switch or the free-only switch: with either of them on,
    [filterServers] keeps the same servers whether P2P was asked for or
    not. *)
Theorem p2p_switch_is_ignored_under_secure_core_or_free_only :
  forall (countries : list string) (p2p p2p' secureCore freeOnly : bool)
         (servers : list LogicalServer.t),
    secureCore || freeOnly = true ->
    filterServers K (Selection.mk countries p2p secureCore freeOnly) servers
    = filterServers K (Selection.mk countries p2p' secureCore freeOnly) servers.
Proof.
  intros countries p p' sc fo servers H.
  rewrite !filterServers_filter. apply filter_ext. intros s.
  unfold isServerEligible, isCountryMatch. cbn.
  destruct sc, fo; try discriminate; cbn;
    rewrite ?andb_false_r; reflexivity.
Qed.

Lemma firstOnline_spec (l : list PhysicalServer.t) :
  match firstOnline l with
  | Some p =>
      exists before after,
        l = (before ++ p :: after)%list
        /\ PhysicalServer.Status p = 1
        /\ forall q, In q before -> PhysicalServer.Status q <> 1
  | None => forall q, In q l -> PhysicalServer.Status q <> 1
  end.
Proof.
  induction l as [|a l IH]; cbn; [intros q []|].
  unfold StatusOnline.
  destruct (PhysicalServer.Status a =? 1) eqn:E.
  - apply Z.eqb_eq in E. exists [], l. repeat split; [exact E|intros q []].
  - apply Z.eqb_neq in E. destruct (firstOnline l) as [p|].
    + destruct IH as (before & after & Hl & Hp & Hb).
      exists (a :: before), after. subst l. repeat split; [exact Hp|].
      intros q [Hq|Hq]; [subst q; exact E|apply Hb; exact Hq].
    + intros q [Hq|Hq]; [subst q; exact E|apply IH; exact Hq].
Qed.

Lemma physical_server_of_nonempty
  (server : LogicalServer.t) :
  LogicalServer.Servers server <> [] ->
  exists p, GetBestPhysicalServer server = Some p
            /\ In p (LogicalServer.Servers server).
Proof.
  unfold GetBestPhysicalServer.
  destruct (LogicalServer.Servers server) as [|a l] eqn:El;
    [intros H; exfalso; apply H; reflexivity|intros _].
  pose proof (firstOnline_spec (a :: l)) as H.
  destruct (firstOnline (a :: l)) as [p|].
  - exists p. split; [reflexivity|].
    destruct H as (before & after & Hl & _). rewrite Hl.
    apply in_or_app. right. left. reflexivity.
  - exists a. split; [reflexivity|left; reflexivity].
Qed.

(** X20. [GetBestPhysicalServer] returns nil exactly for a logical
    server without physical servers. Otherwise it returns the first
    physical server of the list that is online, and the first of the
    list when none is online. *)
Theorem GetBestPhysicalServer_is_first_online_or_first :
  forall server : LogicalServer.t,
    (GetBestPhysicalServer server = None <-> LogicalServer.Servers server = [])
    /\ forall p : PhysicalServer.t,
         GetBestPhysicalServer server = Some p ->
         (exists before after,
             LogicalServer.Servers server = (before ++ p :: after)%list
             /\ PhysicalServer.Status p = 1
             /\ forall q, In q before -> PhysicalServer.Status q <> 1)
         \/ (hd_error (LogicalServer.Servers server) = Some p
             /\ forall q, In q (LogicalServer.Servers server) ->
                          PhysicalServer.Status q <> 1).
Proof.
  intros server. unfold GetBestPhysicalServer.
  destruct (LogicalServer.Servers server) as [|a l] eqn:El.
  - split; [split; reflexivity|discriminate].
  - pose proof (firstOnline_spec (a :: l)) as H.
    destruct (firstOnline (a :: l)) as [p|].
    + split; [split; discriminate|].
      intros p' Hp. inversion Hp. subst p'. left. exact H.
    + split; [split; discriminate|].
      intros p' Hp. inversion Hp. subst p'. right. split; [reflexivity|exact H].
Qed.

Section Selecting.

Variable cfg : Selection.t.
Variable sortSlice : list LogicalServer.t -> list LogicalServer.t.
Hypothesis sortSlice_rearranges :
  forall l : list LogicalServer.t, Permutation l (sortSlice l).

(** X21. [SelectBest] reports that no server is suitable exactly when
    no server of the list is eligible. Otherwise it returns a server of
    the list that is eligible, whatever the order of the sort, and
    [GetBestPhysicalServer] finds a physical server for it: the check
    for nil in [run] never fires after a selection. *)
Theorem SelectBest_returns_an_eligible_server :
  forall servers : list LogicalServer.t,
    (SelectBest K cfg sortSlice servers = NoSuitableServers <->
     forall s, In s servers -> isServerEligible K cfg s = false)
    /\ SelectBest K cfg sortSlice servers <> IndexOutOfRange
    /\ forall best : LogicalServer.t,
         SelectBest K cfg sortSlice servers = Selected best ->
         In best servers
         /\ isServerEligible K cfg best = true
         /\ exists p, GetBestPhysicalServer best = Some p
                      /\ In p (LogicalServer.Servers best).
Proof.
  intros servers. unfold SelectBest. rewrite filterServers_filter.
  set (filtered := filter (isServerEligible K cfg) servers).
  assert (Hin : forall s, In s filtered <->
                          In s servers /\ isServerEligible K cfg s = true).
  { intros s. apply filter_In. }
  destruct filtered as [|f fs] eqn:Ef; cbn [List.length Nat.eqb].
  - split; [|split; [discriminate|discriminate]].
    split; [|reflexivity]. intros _ s Hs.
    destruct (isServerEligible K cfg s) eqn:E; [|reflexivity].
    exfalso. apply (proj2 (Hin s)). split; assumption.
  - pose proof (sortSlice_rearranges (f :: fs)) as HP.
    destruct (sortSlice (f :: fs)) as [|best rest] eqn:Es.
    { exfalso. apply Permutation_sym, Permutation_nil in HP. discriminate. }
    split; [|split; [discriminate|]].
    + split; [discriminate|]. intros H. exfalso.
      destruct (proj1 (Hin f) (or_introl eq_refl)) as [H1 H2].
      rewrite (H f H1) in H2. discriminate.
    + intros b Hb. inversion Hb. subst b.
      assert (Hbest : In best (f :: fs)).
      { apply (Permutation_in best (Permutation_sym HP)). left. reflexivity. }
      destruct (proj1 (Hin best) Hbest) as [H1 H2].
      split; [exact H1|]. split; [exact H2|].
      apply isServerEligible_spec in H2.
      destruct H2 as (_ & _ & _ & _ & _ & Hne).
      destruct (physical_server_of_nonempty best Hne)
        as (p & Hp & Hi).
      exists p. split; assumption.
Qed.

End Selecting.

End ServerFacts.

Section VpnClientFacts.

Variable X : Externals.
Variable jsonUnmarshalLogicals : string -> option (Z * list LogicalServer.t).

(** X22. [GetServers] returns the list of servers exactly when the
    request can be built, an answer arrives whose body can be read and
    decoded, and the code in the body is 1000 or 1001; the status of the
    answer plays no part. When a request goes out it is a GET of
    /vpn/v1/logicals that carries the access token and the identifier
    of the session, and it is the only one. *)
Theorem GetServers_checks_the_code_not_the_status :
  forall (session : Session.t) (w : World),
    (forall l : list LogicalServer.t,
        fst (GetServers X jsonUnmarshalLogicals session w) = inl l <->
        urlParses X (Config.APIURL (config w) ++ "/vpn/v1/logicals") = true
        /\ exists (status code : Z) (body : string) (rest : list HttpOutcome),
             remote w = Response status (Some body) :: rest
             /\ jsonUnmarshalLogicals body = Some (code, l)
             /\ (code = 1000 \/ code = 1001))
    /\ (sent (snd (GetServers X jsonUnmarshalLogicals session w)) = sent w
        \/ exists req : Request,
             sent (snd (GetServers X jsonUnmarshalLogicals session w))
             = (sent w ++ [req])%list
             /\ req_method req = "GET"
             /\ req_url req = Config.APIURL (config w) ++ "/vpn/v1/logicals"
             /\ req_body req = []
             /\ In ("Authorization", "Bearer " ++ Session.AccessToken session)
                  (req_header req)
             /\ In ("x-pm-uid", Session.UID session) (req_header req)).
Proof.
  intros session w. split.
  - intros l.
    unfold GetServers, bind, getConfig, NewRequest, ret.
    destruct (urlParses X (Config.APIURL (config w) ++ "/vpn/v1/logicals")).
    2:{ split; [discriminate|]. intros [H _]. discriminate. }
    unfold Do.
    destruct (remote w) as [|[|status [body|]] rest].
    1-2,4: split; [discriminate|];
      intros [_ (st & c & b & r & H & _)]; discriminate.
    destruct (jsonUnmarshalLogicals body) as [[code l']|] eqn:Hj.
    2:{ split; [discriminate|].
        intros [_ (st & c & b & r & H & Hb & _)].
        inversion H. subst. congruence. }
    unfold IsSuccessCode, APICodeSuccess, APICodeMultiStatus.
    destruct (Z.eqb_spec code 1000) as [E0|E0];
      [|destruct (Z.eqb_spec code 1001) as [E1|E1]]; cbn [orb negb fst].
    3:{ split; [discriminate|].
        intros [_ (st & c & b & r & H & Hb & Hc)].
        inversion H. subst. rewrite Hj in Hb. inversion Hb. subst. lia. }
    all: split;
      [ intros H; inversion H; subst; split; [reflexivity|];
        eexists _, _, _, _; split; [reflexivity|]; split; [exact Hj|]; auto
      | intros [_ (st & c & b & r & H & Hb & Hc)];
        inversion H; subst; rewrite Hj in Hb; inversion Hb; reflexivity ].
  - unfold GetServers, bind, getConfig, NewRequest, ret.
    destruct (urlParses X (Config.APIURL (config w) ++ "/vpn/v1/logicals"));
      [|left; reflexivity].
    right.
    exists (vpnSetHeaders session
              (mkRequest "GET" (Config.APIURL (config w) ++ "/vpn/v1/logicals")
                 [] [])).
    split.
    + unfold Do.
      destruct (remote w) as [|[|status [body|]] rest]; try reflexivity.
      destruct (jsonUnmarshalLogicals body) as [[code l']|]; [|reflexivity].
      destruct (negb (IsSuccessCode code)); reflexivity.
    + repeat split; cbn; tauto.
Qed.

End VpnClientFacts.

Section SaveFacts.

Variable X : Externals.

(** ** A session that cannot be saved *)

Lemma Save_refused (s : Session.t) (u : string) (d : GoTime.Duration)
  (w : World) :
  write_denied w = true ->
  exists e,
    fst (Save X s u d w) = Some e
    /\ (e = ErrMarshalSession \/ e = ErrWriteSessionFile EACCES)
    /\ file (snd (Save X s u d w)) = file w
    /\ stdout (snd (Save X s u d w)) = stdout w.
Proof.
  intros H. unfold Save, Now, bind, ret, WriteFile. cbn.
  destruct (d =? 0); cbn.
  - destruct (jsonMarshalSaved X _); cbn; rewrite ?H; eexists; cbn;
      repeat split; auto.
  - destruct (GoTime.After _ _); cbn;
      destruct (jsonMarshalSaved X _); cbn; rewrite ?H; eexists; cbn;
      repeat split; auto.
Qed.

Lemma saveSessionIfEnabled_refused (s : Session.t) (w : World) :
  Config.NoSession (config w) = false ->
  write_denied w = true ->
  file (snd (saveSessionIfEnabled X s w)) = file w
  /\ exists (before : list Msg) (e : error),
       stdout (snd (saveSessionIfEnabled X s w))
       = (before ++ [MsgWarnSave e])%list
       /\ (e = ErrMarshalSession \/ e = ErrWriteSessionFile EACCES).
Proof.
  intros Hn Hd. unfold saveSessionIfEnabled, bind, getConfig, print, ret.
  rewrite Hn.
  destruct (ParseSessionDuration X (Config.SessionDuration (config w)))
    as [parsed [pe|]];
    match goal with
    | |- context [Save X s ?u ?d ?w1] =>
        destruct (Save_refused s u d w1 Hd) as (e & He & Hk & Hf & Ho);
        destruct (Save X s u d w1) as [r w2]
    end;
    cbn [fst snd] in *; subst r; cbn;
    (split; [exact Hf|]); exists (stdout w2), e;
    (split; [reflexivity|exact Hk]).
Qed.

(** X23. A session that cannot be saved is only a warning. A fresh
    login that succeeded returns its session whether or not the save
    works; when the system refuses the write, the session file is what
    it was before the login and the last thing printed is the warning
    that the session could not be saved. *)
Theorem refused_save_is_only_a_warning :
  forall (w w1 w2 w3 : World) (s s' : Session.t),
    ensurePassword w = (None, w1) ->
    performFreshAuth X w1 = (Ok s, w2) ->
    upgradeSessionIfNeeded X s w2 = ((s', None), w3) ->
    fst (authenticateFresh X w) = Ok s'
    /\ (Config.NoSession (config w) = false ->
        write_denied w = true ->
        file (snd (authenticateFresh X w)) = file w
        /\ exists (before : list Msg) (e : error),
             stdout (snd (authenticateFresh X w))
             = (before ++ [MsgWarnSave e])%list
             /\ (e = ErrMarshalSession \/ e = ErrWriteSessionFile EACCES)).
Proof.
  intros w w1 w2 w3 s s' E1 E2 E3.
  assert (HA : authenticateFresh X w
               = (Ok s', snd (saveSessionIfEnabled X s' w3))).
  { unfold authenticateFresh.
    rewrite (run_bind _ _ _ _ _ E1), (run_bind _ _ _ _ _ E2),
      (run_bind _ _ _ _ _ E3).
    rewrite seq_run. reflexivity. }
  rewrite HA. cbn [fst snd]. split; [reflexivity|].
  intros Hn Hd.
  pose proof (follows_run _ _ _ _ _ ensurePassword_settings E1) as S1.
  pose proof (follows_run _ _ _ _ _ (performFreshAuth_settings X) E2) as S2.
  pose proof (follows_run _ _ _ _ _ (upgradeSessionIfNeeded_settings X s) E3)
    as S3.
  apply settings_eq in S1, S2, S3.
  pose proof (follows_run _ _ _ _ _ ensurePassword_stored E1) as F1.
  pose proof (follows_run _ _ _ _ _ (performFreshAuth_stored X) E2) as F2.
  pose proof (follows_run _ _ _ _ _ (upgradeSessionIfNeeded_stored X s) E3)
    as F3.
  unfold keeps, stored in F1, F2, F3.
  assert (Hn3 : Config.NoSession (config w3) = false) by intuition congruence.
  assert (Hd3 : write_denied w3 = true) by intuition congruence.
  destruct (saveSessionIfEnabled_refused s' w3 Hn3 Hd3) as [Hf Hm].
  split; [rewrite Hf; congruence|exact Hm].
Qed.

End SaveFacts.

(* ================================================================== *)
(** * The further properties on the samples *)
(* ================================================================== *)

(** alice's session, 20 days from expiry, is loaded for alice. *)
Lemma Load_own_live_on_reuse :
  fst (Load X "alice" reuse) = (Some alice, 20 * day, None)
  /\ 0 <= 20 * day
  /\ file (snd (Load X "alice" reuse)) = file reuse.
Proof.
  destruct (Load_returns_only_own_live_session X "alice" reuse
              (snd (Load X "alice" reuse)) alice (20 * day) None eq_refl)
    as (_ & H2 & H3 & _).
  split; [reflexivity|]. split; [exact H2|exact H3].
Defined.

(** alice's session that expired a day ago: gone after the load. *)
Lemma expired_session_on_sample :
  fst (Load X "alice" Sample2.expired) = (None, 0, None)
  /\ file (snd (Load X "alice" Sample2.expired)) = None.
Proof.
  destruct (expired_session_is_removed X "alice" "alice-expired"
              (SavedSession.mk (Some alice) "alice" (- (2 * day)) (- day))
              Sample2.expired eq_refl eq_refl eq_refl eq_refl eq_refl eq_refl)
    as (H1 & H2 & _).
  split; [exact H1|exact H2].
Defined.

(** bob's session saved for 24 hours and loaded back. *)
Lemma Save_then_Load_on_fresh :
  fst (Load Sample2.X "bob" (snd (Save Sample2.X bob "bob" day fresh)))
  = (Some bob, day, None)
  /\ Load Sample2.X "alice" (snd (Save Sample2.X bob "bob" day fresh))
     = ((None, 0, None), snd (Save Sample2.X bob "bob" day fresh)).
Proof.
  assert (Hc : forall k : nat, clock fresh (ticks fresh + k) = 0)
    by (intros k; reflexivity).
  assert (Hle : 0 <= (if day =? 0
                      then GoTime.Add 0 (GoTime.mul (Session.ExpiresIn bob)
                                           GoTime.Second)
                      else Z.min (GoTime.Add 0 day)
                             (GoTime.Add 0 (GoTime.mul (Session.ExpiresIn bob)
                                              GoTime.Second))))
    by (vm_compute; discriminate).
  destruct (Save_then_Load_returns_the_session Sample2.X bob "bob"
              "saved:bob:86400000000000" day fresh 0 Hc eq_refl eq_refl
              eq_refl eq_refl Hle)
    as (_ & H2 & _ & H4).
  split; [exact H2|]. apply H4. discriminate.
Defined.

(** alice's session, 3 days from expiry, is refreshed: the refreshed
    session comes back, one request went out, and the file holds it
    under alice's identity. *)
Lemma granted_refresh_is_saved :
  fst (Authenticate X Sample2.refreshGranted) = Ok bob
  /\ List.length (sent (snd (Authenticate X Sample2.refreshGranted))) = 1%nat
  /\ file (snd (Authenticate X Sample2.refreshGranted))
     = Some "saved:alice:2592000000000000".
Proof.
  assert (HL : Load X (Config.Username (config Sample2.refreshGranted))
                 Sample2.refreshGranted
               = ((Some alice, 3 * day, None),
                  snd (Load X "alice" Sample2.refreshGranted)))
    by reflexivity.
  assert (Hdue : Config.ForceRefresh (config Sample2.refreshGranted) = true
                 \/ 0 < 3 * day < refreshThreshold X)
    by (right; vm_compute; split; reflexivity).
  assert (HR : RefreshSession X (Config.APIURL (config Sample2.refreshGranted))
                 alice
                 (setStdout (snd (Load X "alice" Sample2.refreshGranted))
                    (stdout (snd (Load X "alice" Sample2.refreshGranted))
                       ++ [if Config.ForceRefresh (config Sample2.refreshGranted)
                           then MsgForcingRefresh (3 * day)
                           else MsgExpiresSoon (3 * day)]))
               = (Ok bob,
                  snd (RefreshSession X "https://vpn-api.proton.me" alice
                         (setStdout (snd (Load X "alice" Sample2.refreshGranted))
                            [MsgExpiresSoon (3 * day)]))))
    by (vm_compute; reflexivity).
  destruct (successful_refresh_is_saved_and_returned X
              Sample2.refreshGranted Sample2.refreshGranted _ _ alice bob
              (3 * day) eq_refl eq_refl eq_refl HL Hdue HR)
    as (H1 & _ & H3 & _).
  split; [exact H1|]. split; [rewrite H3; reflexivity|].
  vm_compute; reflexivity.
Defined.

(** alice's session is rejected by the remote party: the file goes and
    the fresh login follows. *)
Lemma rejected_session_is_deleted :
  fst (handleExistingSession X Sample2.rejected) = None
  /\ file (snd (handleExistingSession X Sample2.rejected)) = None
  /\ fst (Authenticate X Sample2.rejected) = Ok bob.
Proof.
  assert (HL : Load X (Config.Username (config Sample2.rejected))
                 Sample2.rejected
               = ((Some alice, 20 * day, None),
                  snd (Load X "alice" Sample2.rejected)))
    by reflexivity.
  assert (Hnot : ~ (0 < 20 * day < refreshThreshold X))
    by (vm_compute; intros [_ H]; discriminate H).
  assert (HV : VerifySession X (Config.APIURL (config Sample2.rejected)) alice
                 (snd (Load X "alice" Sample2.rejected))
               = (false,
                  snd (VerifySession X "https://vpn-api.proton.me" alice
                         (snd (Load X "alice" Sample2.rejected)))))
    by (vm_compute; reflexivity).
  destruct (invalid_session_is_deleted X
              Sample2.rejected Sample2.rejected _ _ alice (20 * day)
              eq_refl eq_refl eq_refl eq_refl HL Hnot HV eq_refl)
    as (H1 & H2).
  rewrite H1. split; [reflexivity|]. split; [reflexivity|].
  rewrite H2. vm_compute; reflexivity.
Defined.

(** The clear switch: alice's file is removed unread and bob logs in. *)
Lemma clear_switch_on_sample :
  fst (handleExistingSession X Sample2.clearing) = None
  /\ file (snd (handleExistingSession X Sample2.clearing)) = None
  /\ ticks (snd (handleExistingSession X Sample2.clearing)) = O
  /\ fst (Authenticate X Sample2.clearing) = Ok bob.
Proof.
  destruct (clear_session_deletes_without_loading X
              Sample2.clearing Sample2.clearing eq_refl eq_refl)
    as (H1 & H2 & _ & H4 & _ & _ & H7).
  split; [exact H1|]. split; [exact (H2 eq_refl)|]. split; [exact H4|].
  rewrite H7. vm_compute; reflexivity.
Defined.

(** The no-session switch: bob logs in, alice's file is as it was, and
    so is any other file. *)
Lemma no_session_switch_on_sample :
  fst (Authenticate X Sample2.ephemeral) = Ok bob
  /\ file (snd (Authenticate X Sample2.ephemeral)) = Some "alice-20d"
  /\ file (snd (Authenticate X (setFile Sample2.ephemeral (Some "{not json"))))
     = Some "{not json".
Proof.
  destruct (no_session_never_touches_the_store X Sample2.ephemeral
              eq_refl eq_refl) as (H1 & H2).
  split; [vm_compute; reflexivity|]. split; [exact H1|].
  rewrite (H2 (Some "{not json")). reflexivity.
Defined.

(** The forged server proof: the run fails and leaves no file. *)
Lemma forged_run_leaves_no_session :
  fst (Authenticate X forged) = Err ErrServerProof
  /\ (file (snd (Authenticate X forged)) = file forged
      \/ file (snd (Authenticate X forged)) = None).
Proof.
  split; [vm_compute; reflexivity|].
  apply (failed_run_leaves_no_new_session X forged ErrServerProof).
  vm_compute; reflexivity.
Defined.

(** bob's fresh login: two answers with status 200, two requests. *)
Lemma fresh_login_on_sample :
  fst (performFreshAuth X fresh) = Ok bob
  /\ exists r1 r2,
       sent (snd (performFreshAuth X fresh)) = [r1; r2]
       /\ req_url r1 = "https://vpn-api.proton.me/core/v4/auth/info"
       /\ req_url r2 = "https://vpn-api.proton.me/core/v4/auth".
Proof.
  split; [vm_compute; reflexivity|].
  destruct (fresh_login_returns_only_verified_sessions X fresh
              (snd (performFreshAuth X fresh)) bob)
    as (b1 & b2 & rest & a & p & r1 & r2 & _ & _ & _ & _ & _ & _ & _ & _ & _
        & H1 & H2 & H3 & _).
  { vm_compute; reflexivity. }
  exists r1, r2. split; [exact H3|]. split; [exact H1|exact H2].
Defined.

(** The codes of a wrong password and of an unknown failure. *)
Lemma messages_of_two_codes_differ :
  getErrorMessage 8002 <> getErrorMessage 424242
  /\ NewError 8002 <> NewError 424242.
Proof.
  apply (error_message_determines_the_code 8002 424242). discriminate.
Defined.

(** The login of a disabled account. *)
Lemma disabled_account_is_an_account_error :
  fst (Authenticate Sample2.X Sample2.disabled) = Err (NewError 10003)
  /\ exists code : Z,
       (NewError 10003 = NewError code
        \/ NewError 10003 = Err2FAVerification (NewError code))
       /\ IsAccountError (NewError 10003) = ((code =? 10002) || (code =? 10003))
       /\ IsCaptchaError (NewError 10003) = (code =? 9001)
       /\ IsAccountError (NewError 10003) && IsCaptchaError (NewError 10003)
          = false.
Proof.
  split; [vm_compute; reflexivity|].
  apply (classified_errors_of_a_run Sample2.X Sample2.disabled
           (NewError 10003)).
  - vm_compute; reflexivity.
  - left. reflexivity.
Defined.

(** A list of countries typed with blanks and an empty piece. *)
Lemma parsed_countries_are_clean :
  parseCommaSeparatedList " CH , ,NL," = ["CH"; "NL"]
  /\ "CH" <> "" /\ commaFree "CH" /\ trimmed "CH"
  /\ exists piece, In piece (Strings.Split " CH , ,NL," ","%char)
                   /\ "CH" = GoStrings.TrimSpace piece.
Proof.
  split; [vm_compute; reflexivity|].
  apply (parsed_elements_are_clean " CH , ,NL," "CH").
  vm_compute. left. reflexivity.
Defined.

(** Two countries joined and parsed again. *)
Lemma joined_countries_parse_back :
  Strings.Join ["CH"; "NL"] "," = "CH,NL"
  /\ parseCommaSeparatedList (Strings.Join ["CH"; "NL"] ",") = ["CH"; "NL"].
Proof.
  split; [reflexivity|].
  apply (parse_of_joined_list_is_the_list ["CH"; "NL"]).
  intros x [H|[H|[]]]; subst x;
    (split; [discriminate|]);
    (split; [cbn; intros H; repeat (destruct H as [H|H]; [discriminate|]); exact H|]);
    split; vm_compute; reflexivity.
Defined.

(** Secure Core in Switzerland, with and without the P2P switch. *)
Lemma p2p_switch_under_secure_core :
  filterServers Sample2.K (Selection.mk ["CH"] true true false) Sample2.servers
  = filterServers Sample2.K (Selection.mk ["CH"] false true false)
      Sample2.servers.
Proof.
  apply (p2p_switch_is_ignored_under_secure_core_or_free_only Sample2.K
           ["CH"] true false true false Sample2.servers).
  reflexivity.
Defined.

(** The paid servers of Switzerland and the United States, the sort
    turning the list round. *)
Lemma SelectBest_on_sample :
  SelectBest Sample2.K (Selection.mk ["CH"; "US"] false false false)
    (@rev LogicalServer.t) Sample2.servers
  = Selected (Sample2.server "US#1" "US" 2 4 1 [Sample2.physical "e" 1])
  /\ SelectBest Sample2.K (Selection.mk ["CH"; "US"] false false false)
       (@rev LogicalServer.t) Sample2.servers <> IndexOutOfRange.
Proof.
  destruct (SelectBest_returns_an_eligible_server Sample2.K
              (Selection.mk ["CH"; "US"] false false false)
              (@rev LogicalServer.t)
              (@Permutation_rev LogicalServer.t) Sample2.servers)
    as (_ & H2 & _).
  split; [vm_compute; reflexivity|exact H2].
Defined.

(** bob logs in where the file cannot be written: the session comes
    back, alice's file stays. *)
Lemma refused_save_on_sample :
  fst (authenticateFresh X Sample2.readOnly) = Ok bob
  /\ file (snd (authenticateFresh X Sample2.readOnly)) = Some "alice-20d".
Proof.
  destruct (refused_save_is_only_a_warning X Sample2.readOnly
              Sample2.readOnly
              (snd (performFreshAuth X Sample2.readOnly))
              (snd (performFreshAuth X Sample2.readOnly)) bob bob)
    as (H1 & H2).
  - reflexivity.
  - vm_compute; reflexivity.
  - vm_compute; reflexivity.
  - split; [exact H1|]. destruct (H2 eq_refl eq_refl) as (H3 & _). exact H3.
Defined.

(** An answer with status 500 whose body has code 1000: [GetServers]
    returns the servers all the same. *)
Example GetServers_on_status_500 :
  fst (GetServers X Sample2.logicals bob
         (world (cfg "bob" "pw") [] None
            [Response 500 (Some "logicals-1000")]))
  = inl Sample2.servers.
Proof. vm_compute; reflexivity. Qed.
